(** * gongja_mailservice: the response extractor, the prompts and the pipeline

    A shallow embedding of [gongja.py], [utils.py] and [send_mail.py]:
    - Python strings and the operations the extractor uses on them;
    - the JSON decoder the extractor calls;
    - [_parse_response], the two prompt templates and the sampling of
      passages;
    - the pipeline of [process_and_save_concern] and the mail filter of
      [process_single_email], as state-passing functions over a world that
      stands for the remote model, the clock, the random source, the files
      and the mail server.

    Python [str] values are sequences of Unicode code points, so a string is
    a list of code points ([N]).  String literals of the source are written
    as Rocq strings (UTF-8 bytes) and decoded with [u].

    The definitions come first, the facts about them after. *)

From Stdlib Require Import String Ascii.
From Stdlib Require Import List NArith ZArith Lia Bool PrimFloat.
From Stdlib Require Import DecimalString DecimalZ Permutation.
Import ListNotations.

Set Warnings "-register-all".

(** ** Python strings *)

Module PyStr.

Abbreviation char := N (only parsing).
Abbreviation str := (list N) (only parsing).

Definition char_eqb (a b : char) : bool := N.eqb a b.

Fixpoint str_eqb (a b : str) : bool :=
  match a, b with
  | [], [] => true
  | x :: a', y :: b' => char_eqb x y && str_eqb a' b'
  | _, _ => false
  end.

(** *** UTF-8, as [bytes.decode('utf-8')] does it (strict). *)

Abbreviation byte := N (only parsing).

Definition is_cont (b : byte) : bool := (128 <=? b)%N && (b <? 192)%N.

Definition low6 (b : byte) : N := N.land b 63.

Fixpoint utf8_decode (bs : list byte) : option str :=
  match bs with
  | [] => Some []
  | b0 :: r0 =>
    if (b0 <? 128)%N then option_map (cons b0) (utf8_decode r0)
    else if (b0 <? 194)%N then None
    else if (b0 <? 224)%N then
      match r0 with
      | b1 :: r1 =>
        if is_cont b1
        then option_map (cons (N.land b0 31 * 64 + low6 b1)%N) (utf8_decode r1)
        else None
      | _ => None
      end
    else if (b0 <? 240)%N then
      match r0 with
      | b1 :: b2 :: r2 =>
        let c := (N.land b0 15 * 4096 + low6 b1 * 64 + low6 b2)%N in
        if is_cont b1 && is_cont b2 && (2048 <=? c)%N
           && negb ((55296 <=? c)%N && (c <=? 57343)%N)
        then option_map (cons c) (utf8_decode r2)
        else None
      | _ => None
      end
    else if (b0 <? 245)%N then
      match r0 with
      | b1 :: b2 :: b3 :: r3 =>
        let c := (N.land b0 7 * 262144 + low6 b1 * 4096
                  + low6 b2 * 64 + low6 b3)%N in
        if is_cont b1 && is_cont b2 && is_cont b3
           && (65536 <=? c)%N && (c <=? 1114111)%N
        then option_map (cons c) (utf8_decode r3)
        else None
      | _ => None
      end
    else None
  end.

Fixpoint bytes_of_string (s : string) : list byte :=
  match s with
  | EmptyString => []
  | String a s' => N_of_ascii a :: bytes_of_string s'
  end.

(** A source literal: the code points of a UTF-8 Rocq string. *)
Definition u (s : string) : str :=
  match utf8_decode (bytes_of_string s) with
  | Some l => l
  | None => []
  end.

(** *** [str.isspace] per character: the code points Python's [strip()]
    removes. *)
Definition isspace (c : char) : bool :=
  ((9 <=? c) && (c <=? 13) || (28 <=? c) && (c <=? 32)
   || (c =? 133) || (c =? 160) || (c =? 5760)
   || (8192 <=? c) && (c <=? 8202)
   || (c =? 8232) || (c =? 8233) || (c =? 8239) || (c =? 8287)
   || (c =? 12288))%N.

(** *** [strip], [lstrip], [rstrip] *)

Fixpoint lstrip_by (p : char -> bool) (s : str) : str :=
  match s with
  | [] => []
  | c :: s' => if p c then lstrip_by p s' else s
  end.

Definition rstrip_by (p : char -> bool) (s : str) : str :=
  rev (lstrip_by p (rev s)).

Definition strip_by (p : char -> bool) (s : str) : str :=
  rstrip_by p (lstrip_by p s).

(** [s.strip()] *)
Definition strip (s : str) : str := strip_by isspace s.

Definition mem (chars : str) (c : char) : bool := existsb (char_eqb c) chars.

(** [s.strip(chars)] *)
Definition strip_chars (s chars : str) : str := strip_by (mem chars) s.

(** *** [startswith], [endswith], [find], [in], [split] *)

Fixpoint startswith (s p : str) {struct p} : bool :=
  match p with
  | [] => true
  | a :: p' =>
    match s with
    | [] => false
    | b :: s' => char_eqb b a && startswith s' p'
    end
  end.

Definition endswith (s p : str) : bool := startswith (rev s) (rev p).

(** [s.find(sub)]: the lowest index where [sub] occurs, [-1] when it does
    not. *)
Fixpoint find (s sub : str) : Z :=
  if startswith s sub then 0%Z
  else match s with
       | [] => (-1)%Z
       | _ :: s' => let r := find s' sub in
                    if (r =? -1)%Z then (-1)%Z else (r + 1)%Z
       end.

(** [sub in s] *)
Definition contains (s sub : str) : bool := negb (find s sub =? -1)%Z.

(** A slice bound, as Python normalises it: a negative index counts from
    the end, and the result is clamped to [0 .. len]. *)
Definition slice_index (len : nat) (i : Z) : nat :=
  if (i <? 0)%Z then Z.to_nat (Z.max 0 (i + Z.of_nat len))
  else Nat.min (Z.to_nat i) len.

(** [s[i:]] *)
Definition slice_from (s : str) (i : Z) : str :=
  skipn (slice_index (length s) i) s.

(** [s[:j]] *)
Definition slice_to (s : str) (j : Z) : str :=
  firstn (slice_index (length s) j) s.

(** [s.split(sep)] for a non-empty [sep]: cut at the occurrences of [sep]
    found from left to right, without overlap.  Each cut removes at least
    one character, so [length s] rounds are enough ([split_unfold]). *)
Fixpoint split_fuel (fuel : nat) (s sep : str) : list str :=
  let i := find s sep in
  if (i =? -1)%Z then [s]
  else match fuel with
       | O => [s]
       | S f =>
         slice_to s i
         :: split_fuel f (slice_from s (i + Z.of_nat (length sep))) sep
       end.

Definition split (s sep : str) : list str := split_fuel (length s) s sep.

(** [sep.join(parts)] *)
Fixpoint join (sep : str) (parts : list str) : str :=
  match parts with
  | [] => []
  | [p] => p
  | p :: rest => p ++ sep ++ join sep rest
  end.

End PyStr.
Export PyStr.

(** ** JSON values and the decoder [json.loads]

    The values [json.loads] builds.  An integer literal becomes a Python
    [int]; a literal with a fraction or an exponent becomes a [float], kept
    here as the exact decimal that was written (the float is that decimal
    correctly rounded); [NaN], [Infinity] and [-Infinity] are accepted.  An
    object becomes a [dict]: keys in order of first insertion, a repeated
    key overwriting the value.

    The decoder meets two limits of the interpreter.  Entering an array or
    an object inside more containers than the recursion limit leaves room
    for raises [RecursionError], at the opening bracket.  An integer
    literal of more digits than [int] converts raises [ValueError], when
    the literal has been read.  The scanning functions take the two limits
    as arguments: [digits], the longest integer literal that is converted,
    and [room], the number of containers that can still be entered inside
    one another. *)

Module Json.

Inductive pyfloat :=
| FNaN
| FInf (neg : bool)
| FDec (neg : bool) (mantissa : N) (exp10 : Z).

Inductive json :=
| JNull
| JBool (b : bool)
| JInt (z : Z)
| JFloat (f : pyfloat)
| JStr (s : str)
| JArr (items : list json)
| JObj (members : list (str * json)).

(** [d[key] = v] on a dict kept as an association list. *)
Fixpoint dict_set (d : list (str * json)) (key : str) (v : json)
  : list (str * json) :=
  match d with
  | [] => [(key, v)]
  | (k, w) :: d' =>
    if str_eqb k key then (k, v) :: d' else (k, w) :: dict_set d' key v
  end.

Fixpoint dict_get (d : list (str * json)) (key : str) : option json :=
  match d with
  | [] => None
  | (k, w) :: d' => if str_eqb k key then Some w else dict_get d' key
  end.

(** The outcome of a scanning function: a value with the rest of the text,
    a syntax error, a limit of the interpreter met, or the budget of the
    recursion spent (which does not happen with the budget [json_loads]
    gives, [json_loads_budget]). *)
Inductive scan (A : Type) :=
| Scanned (a : A) (rest : str)
| Malformed
| TooDeep
| TooManyDigits
| OutOfFuel.
Arguments Scanned {A} a rest.
Arguments Malformed {A}.
Arguments TooDeep {A}.
Arguments TooManyDigits {A}.
Arguments OutOfFuel {A}.

Definition is_ws (c : char) : bool :=
  ((c =? 32) || (c =? 9) || (c =? 10) || (c =? 13))%N.

Definition skip_ws (s : str) : str := lstrip_by is_ws s.

Definition is_digit (c : char) : bool := ((48 <=? c) && (c <=? 57))%N.

Definition hex_val (c : char) : option N :=
  if is_digit c then Some (c - 48)%N
  else if ((97 <=? c) && (c <=? 102))%N then Some (c - 87)%N
  else if ((65 <=? c) && (c <=? 70))%N then Some (c - 55)%N
  else None.

(** Four hexadecimal digits of a [\uXXXX] escape. *)
Definition hex4 (s : str) : option (N * str) :=
  match s with
  | a :: b :: c :: d :: rest =>
    match hex_val a, hex_val b, hex_val c, hex_val d with
    | Some x, Some y, Some z, Some w =>
      Some (((x * 16 + y) * 16 + z) * 16 + w, rest)%N
    | _, _, _, _ => None
    end
  | _ => None
  end.

Definition is_high_surrogate (c : N) : bool :=
  ((55296 <=? c) && (c <=? 56319))%N.
Definition is_low_surrogate (c : N) : bool :=
  ((56320 <=? c) && (c <=? 57343))%N.
Definition join_surrogates (hi lo : N) : N :=
  (65536 + ((hi - 55296) * 1024 + (lo - 56320)))%N.

(** The simple escapes after a backslash. *)
Definition simple_escape (c : char) : option char :=
  if (c =? 34)%N then Some 34%N          (* quote *)
  else if (c =? 92)%N then Some 92%N     (* backslash *)
  else if (c =? 47)%N then Some 47%N     (* slash *)
  else if (c =? 98)%N then Some 8%N      (* backspace *)
  else if (c =? 102)%N then Some 12%N    (* form feed *)
  else if (c =? 110)%N then Some 10%N    (* newline *)
  else if (c =? 114)%N then Some 13%N    (* carriage return *)
  else if (c =? 116)%N then Some 9%N     (* tab *)
  else None.

(** [scanstring] (strict): the text after the opening quote, up to the
    closing quote.  [acc] holds the characters read so far, reversed. *)
Fixpoint scanstring (fuel : nat) (s : str) (acc : str) : scan str :=
  match fuel with
  | O => OutOfFuel
  | S f =>
    match s with
    | [] => Malformed                          (* unterminated string *)
    | c :: r =>
      if (c =? 34)%N then Scanned (rev acc) r
      else if (c =? 92)%N then
        match r with
        | [] => Malformed
        | e :: r1 =>
          if (e =? 117)%N then
            match hex4 r1 with
            | None => Malformed
            | Some (c1, r2) =>
              if is_high_surrogate c1 && (6 <? length r2)%nat
                 && startswith r2 [92; 117]%N
              then
                match hex4 (skipn 2 r2) with
                | None => Malformed
                | Some (c2, r3) =>
                  if is_low_surrogate c2
                  then scanstring f r3 (join_surrogates c1 c2 :: acc)
                  else scanstring f r2 (c1 :: acc)
                end
              else scanstring f r2 (c1 :: acc)
            end
          else
            match simple_escape e with
            | Some x => scanstring f r1 (x :: acc)
            | None => Malformed
            end
        end
      else if (c <=? 31)%N then Malformed      (* control character *)
      else scanstring f r (c :: acc)
    end
  end.

(** The scanner made progress: it stopped with a value and a rest shorter
    than [n] characters, or with a syntax error. *)
Definition progress {A} (n : nat) (x : scan A) : Prop :=
  match x with
  | Scanned _ rest => (length rest < n)%nat
  | Malformed | TooDeep | TooManyDigits => True
  | OutOfFuel => False
  end.

(** Numbers. *)

Fixpoint span_digits (s : str) : str * str :=
  match s with
  | c :: r => if is_digit c
              then let (ds, rest) := span_digits r in (c :: ds, rest)
              else ([], s)
  | [] => ([], [])
  end.

Definition digits_value (ds : str) : N :=
  fold_left (fun acc c => (acc * 10 + (c - 48))%N) ds 0%N.

Definition signed (neg : bool) (n : N) : Z :=
  if neg then (- Z.of_N n)%Z else Z.of_N n.

(** The integer part: [0], or a non-zero digit followed by digits. *)
Definition match_integer (s : str) : option (str * str) :=
  match s with
  | c :: r =>
    if ((49 <=? c) && (c <=? 57))%N
    then let (ds, rest) := span_digits r in Some (c :: ds, rest)
    else if (c =? 48)%N then Some ([c], r)
    else None
  | [] => None
  end.

(** The fraction: a dot followed by at least one digit. *)
Definition match_frac (s : str) : str * str :=
  match s with
  | dot :: d :: _ =>
    if (dot =? 46)%N && is_digit d
    then span_digits (tl s)
    else ([], s)
  | _ => ([], s)
  end.

(** The exponent: [e] or [E], an optional sign, at least one digit; the
    scanner backtracks to before the [e] when no digit follows. *)
Definition match_exp (s : str) : option Z * str :=
  match s with
  | e :: r =>
    if ((e =? 101) || (e =? 69))%N then
      let (neg, r1) :=
        match r with
        | sg :: r' => if (sg =? 45)%N then (true, r')
                      else if (sg =? 43)%N then (false, r')
                      else (false, r)
        | [] => (false, r)
        end in
      let (ds, rest) := span_digits r1 in
      match ds with
      | [] => (None, s)
      | _ => (Some (signed neg (digits_value ds)), rest)
      end
    else (None, s)
  | [] => (None, s)
  end.

Definition match_number (digits : nat) (s : str) : scan json :=
  let (neg, s1) :=
    match s with
    | c :: r => if (c =? 45)%N then (true, r) else (false, s)
    | [] => (false, s)
    end in
  match match_integer s1 with
  | None => Malformed
  | Some (ints, r1) =>
    let (fracs, r2) := match_frac r1 in
    let (ex, r3) := match_exp r2 in
    match fracs, ex with
    | [], None =>
      if (length ints <=? digits)%nat
      then Scanned (JInt (signed neg (digits_value ints))) r3
      else TooManyDigits
    | _, _ =>
      let e := match ex with Some z => z | None => 0%Z end in
      Scanned (JFloat (FDec neg (digits_value (ints ++ fracs))
                            (e - Z.of_nat (length fracs))%Z)) r3
    end
  end.

(** A named constant at the head of the text. *)
Definition literal (s : str) (name : string) (v : json) : option (scan json) :=
  if startswith s (u name)
  then Some (Scanned v (skipn (length (u name)) s))
  else None.

Definition first_some {A} (l : list (option A)) (default : A) : A :=
  match flat_map (fun o => match o with Some a => [a] | None => [] end) l with
  | a :: _ => a
  | [] => default
  end.

(** [scan_once], with the object and the array loops.  A value consumes at
    least one character, and the loops consume one before they recurse.
    An opening bracket is refused when no room is left, before the
    container is looked at. *)
Fixpoint scan_once (digits fuel room : nat) (s : str) : scan json :=
  match fuel with
  | O => OutOfFuel
  | S f =>
    match s with
    | [] => Malformed                          (* expecting value *)
    | c :: r =>
      if (c =? 34)%N then
        match scanstring (S (length r)) r [] with
        | Scanned v rest => Scanned (JStr v) rest
        | Malformed => Malformed
        | TooDeep => TooDeep
        | TooManyDigits => TooManyDigits
        | OutOfFuel => OutOfFuel
        end
      else if (c =? 123)%N then
        match room with
        | O => TooDeep
        | S room' =>
          match skip_ws r with
          | c' :: r' => if (c' =? 125)%N then Scanned (JObj []) r'
                        else object_loop digits f room' (c' :: r') []
          | [] => Malformed
          end
        end
      else if (c =? 91)%N then
        match room with
        | O => TooDeep
        | S room' =>
          match skip_ws r with
          | c' :: r' => if (c' =? 93)%N then Scanned (JArr []) r'
                        else array_loop digits f room' (c' :: r') []
          | [] => Malformed
          end
        end
      else
        first_some
          [ literal s "null" JNull;
            literal s "true" (JBool true);
            literal s "false" (JBool false);
            literal s "NaN" (JFloat FNaN);
            literal s "Infinity" (JFloat (FInf false));
            literal s "-Infinity" (JFloat (FInf true)) ]
          (match_number digits s)
    end
  end

with object_loop (digits fuel room : nat) (s : str) (acc : list (str * json))
  : scan json :=
  match fuel with
  | O => OutOfFuel
  | S f =>
    match s with
    | q :: r =>
      if (q =? 34)%N then
        match scanstring (S (length r)) r [] with
        | Scanned key r1 =>
          match skip_ws r1 with
          | colon :: r2 =>
            if (colon =? 58)%N then
              match scan_once digits f room (skip_ws r2) with
              | Scanned v r3 =>
                let acc' := dict_set acc key v in
                match skip_ws r3 with
                | d :: r4 =>
                  if (d =? 125)%N then Scanned (JObj acc') r4
                  else if (d =? 44)%N
                  then object_loop digits f room (skip_ws r4) acc'
                  else Malformed               (* expecting a comma *)
                | [] => Malformed
                end
              | Malformed => Malformed
              | TooDeep => TooDeep
              | TooManyDigits => TooManyDigits
              | OutOfFuel => OutOfFuel
              end
            else Malformed                     (* expecting a colon *)
          | [] => Malformed
          end
        | Malformed => Malformed
        | TooDeep => TooDeep
        | TooManyDigits => TooManyDigits
        | OutOfFuel => OutOfFuel
        end
      else Malformed                           (* expecting property name *)
    | [] => Malformed
    end
  end

with array_loop (digits fuel room : nat) (s : str) (acc : list json)
  : scan json :=
  match fuel with
  | O => OutOfFuel
  | S f =>
    match scan_once digits f room s with
    | Scanned v r1 =>
      match skip_ws r1 with
      | d :: r2 =>
        if (d =? 93)%N then Scanned (JArr (rev (v :: acc))) r2
        else if (d =? 44)%N
        then array_loop digits f room (skip_ws r2) (v :: acc)
        else Malformed                         (* expecting a comma *)
      | [] => Malformed
      end
    | Malformed => Malformed
    | TooDeep => TooDeep
    | TooManyDigits => TooManyDigits
    | OutOfFuel => OutOfFuel
    end
  end.

End Json.
Export Json.

(** ** Exceptions, printed lines and results *)

Module Py.

(** The exceptions the program meets.  [context] is the exception that was
    being handled when this one was raised (Python's [__context__]).  A
    [JSONDecodeError] keeps the document it was given in [doc]; its message
    (a fixed phrase and a position) is not modelled.  [DigitLimitError] is
    the [ValueError] that [int] raises for a literal of more digits than it
    converts; it is not a [JSONDecodeError], and its message (the limit and
    the number of digits) is not modelled. *)
Inductive exn :=
| JSONDecodeError (doc : str)
| ValueError (msg : str) (context : option exn)
| UnboundLocalError (name : str) (context : option exn)
| TypeError
| IndexError
| KeyError (key : str)
| OSError
| UnicodeDecodeError
| OpenAIError
| SMTPException
| AttributeError
| TemplateNotFound
| RecursionError
| DigitLimitError
| UnicodeEncodeError.

Inductive result (A : Type) :=
| Return (a : A)
| Raise (e : exn).
Arguments Return {A} a.
Arguments Raise {A} e.


(** A value interpolated in a printed f-string. *)
Inductive shown :=
| SStr (s : str)
| SNone
| SExn (e : exn)
| SJson (v : json)
| SSeconds (t : float).   (* formatted with two decimals *)

Inductive piece :=
| Lit (s : str)
| Val (v : shown).

(** One [print(...)] call: the pieces of its f-string. *)
Inductive event :=
| Print (line : list piece).

Definition show_opt (o : option str) : shown :=
  match o with Some s => SStr s | None => SNone end.

End Py.
Export Py.

(** ** The interpreter

    What the interpreter supplies and is not reproduced here: [repr] of a
    [str] and of a [float] (they depend on the Unicode tables and on the
    shortest-digits float printer), the lowercase mapping of a character in
    its context (the context matters for the Greek capital sigma only),
    [bytes.decode] for a named codec, and its two limits on the decoder.

    The limits are settings of the interpreter and depend on the frames in
    use, so they are left open from a floor upwards.  [int] converts a
    literal of up to [sys.get_int_max_str_digits()] digits, a setting that
    is never below 640 (4300 by default): [int_digits_room] is what it
    allows above 640.  The recursion limit (1000 by default) leaves the
    decoder, called a dozen frames deep, room for several hundred
    containers inside one another: [recursion_room] is what it allows above
    [shallow].  The writer of the counselling log, called a few frames
    deep, converts a value with [str], which enters [repr] once for every
    value inside a list or a dict: [conversion_room] is the room it has
    above [shallow].  An interpreter without a limit behaves on a text as
    one whose room exceeds the length of the text. *)

Class Builtins := {
  repr_str : str -> str;
  repr_float : pyfloat -> str;
  lower_at : str -> char -> str -> str;
  codec_decode : str -> list N -> result str;
  recursion_room : nat;
  int_digits_room : nat;
  conversion_room : nat
}.

Definition shallow : nat := 16.

Definition nesting_limit {B : Builtins} : nat := shallow + recursion_room.

Definition int_max_str_digits {B : Builtins} : nat := 640 + int_digits_room.

Definition str_limit {B : Builtins} : nat := shallow + conversion_room.

(** ** [json.loads]

    [json.loads(s)] for a [str]: the value, [JSONDecodeError] for a text
    that is not JSON (with the text it was given), [RecursionError] or the
    [ValueError] of [int] when the scanner meets a limit first. *)
Definition json_loads {B : Builtins} (s : str) : result json :=
  if startswith s [65279%N] then Raise (JSONDecodeError s)  (* byte order mark *)
  else
    match scan_once int_max_str_digits (S (2 * length s)) nesting_limit
            (skip_ws s) with
    | Scanned v rest =>
      match skip_ws rest with
      | [] => Return v
      | _ :: _ => Raise (JSONDecodeError s)      (* extra data *)
      end
    | Malformed => Raise (JSONDecodeError s)
    | TooDeep => Raise RecursionError
    | TooManyDigits => Raise DigitLimitError
    | OutOfFuel => Raise (JSONDecodeError s)     (* [json_loads_budget] *)
    end.

(** ** gongja.py: the response extractor *)

(** The part of the reply [openai.chat.completions.create(...).model_dump()]
    that the program reads. *)
Record message := { content : option str }.
Record choice := { message_of : message }.
Record response := { choices : list choice }.

Definition reply (text : str) : response :=
  {| choices := [ {| message_of := {| content := Some text |} |} ] |}.

Definition marker : str := Eval cbv in u "<출력 결과>".
Definition fence : str := Eval cbv in u "```".
Definition newline : str := [10%N].

(** Lines 65-68: the text after the marker, or the whole text, trimmed. *)
Definition after_marker (content : str) : result str :=
  if contains content marker then
    match nth_error (split content marker) 1 with
    | Some part => Return (strip part)
    | None => Raise IndexError
    end
  else Return (strip content).

(** Lines 71-79: the code block markers. *)
Definition strip_fence (json_text : str) : str :=
  if startswith json_text fence then
    let first_newline := find json_text newline in
    let json_text :=
      if negb (first_newline =? -1)%Z
      then strip (slice_from json_text first_newline)
      else json_text in
    if endswith json_text fence
    then strip (slice_to json_text (-3))
    else json_text
  else json_text.

(** Lines 65-82: the text handed to [json.loads]. *)
Definition cleaned (content : str) : result str :=
  match after_marker content with
  | Return json_text =>
    Return (strip_chars (strip_fence json_text) (u ": 
"))
  | Raise e => Raise e
  end.

Definition parse_failed : str := Eval cbv in u "JSON 파싱 실패".

(** Lines 92-95: the handler of the outer [try]. *)
Definition on_exception (e : exn) (content : option str)
  : list event * result json :=
  ([ Print [Lit (u "응답 파싱 중 오류 발생: "); Val (SExn e)];
     Print [Lit (u "원본 응답: "); Val (show_opt content)] ],
   Raise (ValueError parse_failed (Some e))).

Definition _parse_response {B : Builtins} (r : response)
  : list event * result json :=
  match choices r with
  | [] =>
    (* [response['choices'][0]] fails before [content] is bound, and the
       handler's second print reads [content] *)
    ([ Print [Lit (u "응답 파싱 중 오류 발생: "); Val (SExn IndexError)] ],
     Raise (UnboundLocalError (u "content") (Some IndexError)))
  | c :: _ =>
    let content := content (message_of c) in
    let line62 := Print [Lit (u "원본 content: "); Val (show_opt content)] in
    match content with
    | None =>
      let (out, res) := on_exception TypeError content in (line62 :: out, res)
    | Some text =>
      match cleaned text with
      | Raise e =>
        let (out, res) := on_exception e content in (line62 :: out, res)
      | Return json_text =>
        match json_loads json_text with
        | Return v => ([line62], Return v)
        | Raise e =>
          let (out, res) := on_exception e content in
          match e with
          | JSONDecodeError _ =>
            (* lines 86-89: the inner handler prints and raises again *)
            (line62
             :: Print [Lit (u "JSON 디코딩 오류: "); Val (SExn e)]
             :: Print [Lit (u "파싱 시도한 텍스트: "); Val (SStr json_text)]
             :: out, res)
          | _ => (line62 :: out, res)
          end
        end
      end
    end
  end.


(** ** Notions used to state the properties of the extractor *)

Definition dq : str := [34%N].

(** A JSON object text: an opening brace, a body, a closing brace. *)
Definition object_text (body : str) : str := 123%N :: body ++ [125%N].

(** The object [{"a":"<출력 결과>"}]: valid JSON whose string value is the
    marker. *)
Definition object_with_marker : str :=
  object_text (dq ++ u "a" ++ dq ++ u ":" ++ dq ++ marker ++ dq).

(** [s] neither begins nor ends with a character of the class [p]. *)
Definition untrimmable (p : char -> bool) (s : str) : Prop :=
  (forall c r, s = c :: r -> p c = false)
  /\ (forall r c, s = r ++ [c] -> p c = false).

(** The first and the last character of [s], if any, are outside the class
    [p]. *)
Definition ends_clean (p : char -> bool) (s : str) : bool :=
  match s with [] => true | c :: _ => negb (p c) end
  && match rev s with [] => true | c :: _ => negb (p c) end.

(** The characters the two trimming passes remove: white space, and the
    colon, space and newline of [strip(': \n')]. *)
Definition trimmed_char (c : char) : bool :=
  isspace c || mem (u ": 
") c.


(** ** Formatting values *)

Definition str_of_Z (z : Z) : str :=
  bytes_of_string (NilZero.string_of_int (Z.to_int z)).

Section Formatting.
Context {B : Builtins}.

(** [repr(v)] of a decoded JSON value. *)
Fixpoint py_repr (v : json) : str :=
  match v with
  | JNull => u "None"
  | JBool true => u "True"
  | JBool false => u "False"
  | JInt z => str_of_Z z
  | JFloat f => repr_float f
  | JStr s => repr_str s
  | JArr items => u "[" ++ join (u ", ") (map py_repr items) ++ u "]"
  | JObj members =>
    u "{"
    ++ join (u ", ")
         (map (fun kv => repr_str (fst kv) ++ u ": " ++ py_repr (snd kv))
              members)
    ++ u "}"
  end.

(** A value interpolated in an f-string: a [str] as it is, anything else
    through [repr]. *)
Definition py_format (v : json) : str :=
  match v with
  | JStr s => s
  | _ => py_repr v
  end.

(** [repr] of a list of [str]. *)
Definition repr_str_list (l : list str) : str :=
  u "[" ++ join (u ", ") (map repr_str l) ++ u "]".

(** [s.lower()] *)
Fixpoint lower_from (before s : str) : str :=
  match s with
  | [] => []
  | c :: after => lower_at before c after ++ lower_from (before ++ [c]) after
  end.

Definition lower (s : str) : str := lower_from [] s.

End Formatting.

(** ** Subscripts, iteration and truth of decoded values *)

(** [v[key]] for a [str] key. *)
Definition getitem (v : json) (key : str) : result json :=
  match v with
  | JObj members =>
    match dict_get members key with
    | Some x => Return x
    | None => Raise (KeyError key)
    end
  | _ => Raise TypeError
  end.

(** The items a [for] loop takes from a value. *)
Definition iterate (v : json) : result (list json) :=
  match v with
  | JArr items => Return items
  | JObj members => Return (map (fun kv => JStr (fst kv)) members)
  | JStr s => Return (map (fun c => JStr [c]) s)
  | _ => Raise TypeError
  end.

(** The float a decimal literal rounds to is zero when the decimal is at
    most [2^-1075] (half of the smallest positive float). *)
Definition float_is_zero (f : pyfloat) : bool :=
  match f with
  | FNaN => false
  | FInf _ => false
  | FDec _ m e =>
    if (m =? 0)%N then true
    else if (0 <=? e)%Z then false
    else (Z.of_N m * 2 ^ 1075 <=? 10 ^ (- e))%Z
  end.

(** [bool(v)] *)
Definition truthy (v : json) : bool :=
  match v with
  | JNull => false
  | JBool b => b
  | JInt z => negb (z =? 0)%Z
  | JFloat f => negb (float_is_zero f)
  | JStr s => match s with [] => false | _ => true end
  | JArr items => match items with [] => false | _ => true end
  | JObj members => match members with [] => false | _ => true end
  end.

(** A small error monad for the pure steps. *)
Definition bind {A B} (r : result A) (k : A -> result B) : result B :=
  match r with
  | Return a => k a
  | Raise e => Raise e
  end.

Notation "x <- c ;; k" := (bind c (fun x => k))
  (at level 61, c at next level, right associativity).

Fixpoint map_result {A B} (f : A -> result B) (l : list A) : result (list B) :=
  match l with
  | [] => Return []
  | a :: l' =>
    b <- f a ;;
    bs <- map_result f l' ;;
    Return (b :: bs)
  end.

(** ** gongja.py: the prompts *)

Definition system_content : str :=
  Eval vm_compute in
  u "당신은 공자입니다. 공자가 쓸 법한 오래된 현자의 말투를 씁니다. '~하네', '~일세', '~하게'와 같은 말투입니다. 그렇게 말하지만, 당신은 요즘 시대에 아주 좋은 통찰을 주기도 합니다. 제자의 고민을 지혜롭게 해결해주세요.".

(** [_get_gomin_template]: the text before and after the embedded worry. *)
Definition gomin_head : str :=
  Eval vm_compute in
  u "
        당신은 상대방의 고민을 상담하고 있습니다.
        논어의 핵심 내용을 바탕으로 상대방의 고민에 도움을 줄 수 있는 한자를 반환해야 합니다.

        STEP별로 작업을 수행하면서 그 결과를 아래의 <출력 결과> JSON 포맷에 작성하세요.
        STEP-1. 아래 세 개의 백틱으로 구분된 텍스트를 원문 그대로 읽어올 것
        STEP-2. 입력받은 텍스트가 고민이 아니라면 false를 표기하고 STEP-3를 진행하지 말 것. ex) 안녕하세요 -> false
        STEP-3. 텍스트에 어떤 <고민>이 들어있는지 요약할 것
        STEP-4. <고민>에서 나타나는 상대방의 <부족함>을 이야기하고, 그와 관련된 仁의 <하위개념>이 무엇인지 고르고, <선택한 이유>와 함께 반환할 것
        ```".

Definition gomin_tail : str :=
  Eval vm_compute in
  u "```
        ---
        <출력 결과> : {" ++ dq ++ u "STEP-1" ++ dq ++ u ": <입력텍스트>, " ++ dq ++ u "STEP-2" ++ dq ++ u ": <True/False>, " ++ dq ++ u "STEP-3" ++ dq ++ u ": {" ++ dq ++ u "요약" ++ dq ++ u ": <고민>}, " ++ dq ++ u "STEP-4" ++ dq ++ u ": {" ++ dq ++ u "부족함" ++ dq ++ u ": <부족함>, " ++ dq ++ u "하위개념" ++ dq ++ u ": <하위개념>, " ++ dq ++ u "이유" ++ dq ++ u ": <선택한 이유>}}
        ".

Definition _get_gomin_template (text : str) : str :=
  gomin_head ++ text ++ gomin_tail.

(** [_get_advice_template]: the text before and after the list of passages. *)
Definition advice_head : str :=
  Eval vm_compute in
  u "
        당신은 이제 고민에 대한 해결책을 제시해야 합니다.

        STEP별로 작업을 수행하면서 그 결과를 아래의 <출력 결과> JSON 포맷에 작성하세요.
        STEP-1. 앞선 대화에서 말한 <고민>과 <부족함>, <하위개념>과 그를 <선택한 이유>를 다시 자세하게 서술할 것
        STEP-2. <부족함>을 보완할 수 있는 논어의 구절 중 하나만 다음 중에서 찾아서 반환할 것:
        ".

Definition advice_tail : str :=
  Eval vm_compute in
  u "
        STEP-3. STEP-1에서 정리한 것을 토대로 <구절을 선택한 이유>를 적을 것
        STEP-4. STEP-1에서 정리한 내용과 <구절을 선택한 이유>를 이용해 상대방을 진심으로 도울 수 있는 <조언>을 작성할 것. <조언>은 하위 개념과 함께 설명하며 길게 작성할 것
        ---
        <출력 결과> : {" ++ dq ++ u "STEP-1" ++ dq ++ u ": {" ++ dq ++ u "고민" ++ dq ++ u ": <고민>, " ++ dq ++ u "부족" ++ dq ++ u ": <부족함>, " ++ dq ++ u "하위개념" ++ dq ++ u ": <하위개념>, " ++ dq ++ u "이유" ++ dq ++ u ": <선택한 이유>}, " ++ dq ++ u "STEP-2" ++ dq ++ u ": <논어구절>, " ++ dq ++ u "STEP-3" ++ dq ++ u ": <구절을 선택한 이유>, " ++ dq ++ u "STEP-4" ++ dq ++ u ": <조언>}
        ".

Section Prompts.
Context {B : Builtins}.

(** One passage of the list: [f"{item['편']}-{item['구절번호']}: {item['내용']}"]. *)
Definition render_passage (item : json) : result str :=
  section <- getitem item (u "편") ;;
  number <- getitem item (u "구절번호") ;;
  text <- getitem item (u "내용") ;;
  Return (py_format section ++ u "-" ++ py_format number ++ u ": "
          ++ py_format text).

Definition _get_advice_template (noneo : list json) : result str :=
  passages <- map_result render_passage noneo ;;
  Return (advice_head ++ repr_str_list passages ++ advice_tail).

Definition _create_context_message (gomin_response : json) : result str :=
  step3 <- getitem gomin_response (u "STEP-3") ;;
  summary <- getitem step3 (u "요약") ;;
  step4 <- getitem gomin_response (u "STEP-4") ;;
  lacking <- getitem step4 (u "부족함") ;;
  step4' <- getitem gomin_response (u "STEP-4") ;;
  concept <- getitem step4' (u "하위개념") ;;
  step4'' <- getitem gomin_response (u "STEP-4") ;;
  reason <- getitem step4'' (u "이유") ;;
  Return (u "자네의 고민은 " ++ py_format summary
          ++ u "이네.
                  그 상황에서 자네의 부족함은 " ++ py_format lacking
          ++ u "일 것이고, 
                  그것을 보완할 수 있는 인의 하위개념은 " ++ py_format concept
          ++ u "에 해당하네. 
                  그것을 고른 이유는 " ++ py_format reason
          ++ u "와 같네.").

End Prompts.

(** Lines 148-155: a passage without its original text. *)
Definition simplify (item : json) : result json :=
  section <- getitem item (u "편") ;;
  number <- getitem item (u "구절번호") ;;
  text <- getitem item (u "내용") ;;
  Return (JObj [(u "편", section); (u "구절번호", number); (u "내용", text)]).

Definition simplified_data (data : json) : result (list json) :=
  entries <- getitem data (u "data") ;;
  items <- iterate entries ;;
  map_result simplify items.

(** ** [random.sample]

    Drawing without replacement: each round takes the item at a random
    position of the pool and removes it from the pool.  [rand] is the
    stream of raw random numbers, read from position [pos]. *)
Fixpoint draw {A} (rand : nat -> nat) (pos : nat) (pool : list A) (k : nat)
  : list A :=
  match k with
  | O => []
  | S k' =>
    let j := (rand pos mod length pool)%nat in
    match nth_error pool j with
    | Some x => x :: draw rand (S pos) (firstn j pool ++ skipn (S j) pool) k'
    | None => []
    end
  end.

Definition sample_error : str :=
  Eval vm_compute in u "Sample larger than population or is negative".

(** [random.sample(population, k)] *)
Definition sample {A} (rand : nat -> nat) (pos : nat) (population : list A)
  (k : Z) : result (list A) :=
  if ((0 <=? k) && (k <=? Z.of_nat (length population)))%Z
  then Return (draw rand pos population (Z.to_nat k))
  else Raise (ValueError sample_error None).

(** ** The world the program runs in

    The remote model, the clock, the random source, the passage file, the
    counselling logs, the console and the mail server are outside the
    program.  A world fixes what they answer and records what the program
    did to them. *)

Record chat_message := { role : str; msg_content : json }.

Record datetime := {
  year : nat; month : nat; day : nat;
  hour : nat; minute : nat; second : nat
}.

(** A value written in a log cell. *)
Inductive cell :=
| CStr (s : str)
| CJson (v : json)
| CSeconds (t : float).

(** What [csv.DictWriter] is asked to write. *)
Inductive csv_line :=
| Header (fieldnames : list str)
| Row (cells : list cell).

(** A reply handed to the mail server: the recipient, the subject, and the
    two slots of the newsletter template. *)
Record sent_mail := {
  to_email : str;
  reply_subject : str;
  gomin_content : str;
  custom_message : json
}.

Record world := {
  (** the bytes of [./files/noneo_data.json]; [None] when it cannot be
      opened *)
  noneo_file : option (list N);
  (** raw random numbers, and how many were used *)
  rand : nat -> nat;
  rand_pos : nat;
  (** what the remote model answers to the n-th request, with the elapsed
      time measured around the call *)
  gpt : nat -> list chat_message -> result (response * float);
  (** the requests sent so far *)
  requests : list (list chat_message);
  (** successive readings of the clock, and how many were taken *)
  clock : nat -> datetime;
  clock_reads : nat;
  (** the counselling logs, by file name; whether the directory of the
      logs can be made, and whether a log file can be opened for
      appending *)
  logs : list (str * list csv_line);
  log_dir_ok : bool;
  log_file_ok : bool;
  (** the console *)
  stdout : list event;
  (** whether the newsletter template can be loaded, whether the n-th
      delivery is accepted, the deliveries attempted and the replies
      accepted *)
  template_found : bool;
  smtp_accepts : nat -> bool;
  deliveries : nat;
  outbox : list sent_mail
}.

Definition M (A : Type) : Type := world -> world * result A.

Definition ret {A} (a : A) : M A := fun w => (w, Return a).

Definition raise {A} (e : exn) : M A := fun w => (w, Raise e).

Definition lift {A} (r : result A) : M A := fun w => (w, r).

Definition bindM {A B} (m : M A) (k : A -> M B) : M B :=
  fun w =>
    match m w with
    | (w', Return a) => k a w'
    | (w', Raise e) => (w', Raise e)
    end.

Notation "x <~ c ;; k" := (bindM c (fun x => k))
  (at level 61, c at next level, right associativity).
Notation "c ;;; k" := (bindM c (fun _ => k))
  (at level 61, right associativity).

(** [try: m except Exception as e: handler e] *)
Definition try_except {A} (m : M A) (handler : exn -> M A) : M A :=
  fun w =>
    match m w with
    | (w', Return a) => (w', Return a)
    | (w', Raise e) => handler e w'
    end.

Definition set_stdout (w : world) (out : list event) : world :=
  {| noneo_file := noneo_file w; rand := rand w; rand_pos := rand_pos w;
     gpt := gpt w; requests := requests w;
     clock := clock w; clock_reads := clock_reads w;
     logs := logs w; log_dir_ok := log_dir_ok w;
     log_file_ok := log_file_ok w; stdout := out;
     template_found := template_found w; smtp_accepts := smtp_accepts w;
     deliveries := deliveries w; outbox := outbox w |}.

Definition set_rand_pos (w : world) (p : nat) : world :=
  {| noneo_file := noneo_file w; rand := rand w; rand_pos := p;
     gpt := gpt w; requests := requests w;
     clock := clock w; clock_reads := clock_reads w;
     logs := logs w; log_dir_ok := log_dir_ok w;
     log_file_ok := log_file_ok w; stdout := stdout w;
     template_found := template_found w; smtp_accepts := smtp_accepts w;
     deliveries := deliveries w; outbox := outbox w |}.

Definition set_requests (w : world) (r : list (list chat_message)) : world :=
  {| noneo_file := noneo_file w; rand := rand w; rand_pos := rand_pos w;
     gpt := gpt w; requests := r;
     clock := clock w; clock_reads := clock_reads w;
     logs := logs w; log_dir_ok := log_dir_ok w;
     log_file_ok := log_file_ok w; stdout := stdout w;
     template_found := template_found w; smtp_accepts := smtp_accepts w;
     deliveries := deliveries w; outbox := outbox w |}.

Definition set_clock_reads (w : world) (n : nat) : world :=
  {| noneo_file := noneo_file w; rand := rand w; rand_pos := rand_pos w;
     gpt := gpt w; requests := requests w;
     clock := clock w; clock_reads := n;
     logs := logs w; log_dir_ok := log_dir_ok w;
     log_file_ok := log_file_ok w; stdout := stdout w;
     template_found := template_found w; smtp_accepts := smtp_accepts w;
     deliveries := deliveries w; outbox := outbox w |}.

Definition set_logs (w : world) (l : list (str * list csv_line)) : world :=
  {| noneo_file := noneo_file w; rand := rand w; rand_pos := rand_pos w;
     gpt := gpt w; requests := requests w;
     clock := clock w; clock_reads := clock_reads w;
     logs := l; log_dir_ok := log_dir_ok w;
     log_file_ok := log_file_ok w; stdout := stdout w;
     template_found := template_found w; smtp_accepts := smtp_accepts w;
     deliveries := deliveries w; outbox := outbox w |}.

Definition set_mail (w : world) (d : nat) (o : list sent_mail) : world :=
  {| noneo_file := noneo_file w; rand := rand w; rand_pos := rand_pos w;
     gpt := gpt w; requests := requests w;
     clock := clock w; clock_reads := clock_reads w;
     logs := logs w; log_dir_ok := log_dir_ok w;
     log_file_ok := log_file_ok w; stdout := stdout w;
     template_found := template_found w; smtp_accepts := smtp_accepts w;
     deliveries := d; outbox := o |}.

(** [print(...)]: the console is taken to show any text. *)
Definition print (line : list piece) : M unit :=
  fun w => (set_stdout w (stdout w ++ [Print line]), Return tt).

Definition print_all (lines : list event) : M unit :=
  fun w => (set_stdout w (stdout w ++ lines), Return tt).

(** [datetime.now()] *)
Definition now : M datetime :=
  fun w => (set_clock_reads w (S (clock_reads w)),
            Return (clock w (clock_reads w))).

(** *** [strftime] for the two formats of [utils.py] (years of four
    digits). *)

Definition str_of_nat (n : nat) : str := str_of_Z (Z.of_nat n).

Definition pad (width : nat) (n : nat) : str :=
  let digits := str_of_nat n in
  repeat 48%N (width - length digits) ++ digits.

(** ['%Y%m'] *)
Definition strftime_Ym (d : datetime) : str :=
  pad 4 (year d) ++ pad 2 (month d).

(** ['%Y-%m-%d %H:%M:%S'] *)
Definition strftime_full (d : datetime) : str :=
  pad 4 (year d) ++ u "-" ++ pad 2 (month d) ++ u "-" ++ pad 2 (day d)
  ++ u " " ++ pad 2 (hour d) ++ u ":" ++ pad 2 (minute d) ++ u ":"
  ++ pad 2 (second d).

(** ** gongja.py: the processor *)

(** The knowledge base ([gomins.supervised_knowledge]) enters the program
    through the introduction text built from it at construction. *)
Record GongjaProcessor := { introduction : str }.

(** [_call_gpt]: one request to the remote model (the model name and the
    sampling settings of [GPTConfig] are the same in every request). *)
Definition _call_gpt (messages : list chat_message) : M (response * float) :=
  fun w =>
    (set_requests w (requests w ++ [messages]),
     gpt w (length (requests w)) messages).

(** [_parse_response], with its prints sent to the console. *)
Definition parse_response {B : Builtins} (r : response) : M json :=
  fun w =>
    let (out, res) := _parse_response r in
    (set_stdout w (stdout w ++ out), res).

(** Text files are read with universal newlines: [\r\n] and [\r] become
    [\n]. *)
Fixpoint universal_newlines (s : str) : str :=
  match s with
  | [] => []
  | c :: r =>
    if (c =? 13)%N then
      match r with
      | d :: r' =>
        if (d =? 10)%N then 10%N :: universal_newlines r'
        else 10%N :: universal_newlines r
      | [] => [10%N]
      end
    else c :: universal_newlines r
  end.

Section Passages.
Context {B : Builtins}.

(** [json.load] on [./files/noneo_data.json]. *)
Definition read_noneo_file : M json :=
  fun w =>
    (w,
     match noneo_file w with
     | None => Raise OSError
     | Some bytes =>
       match utf8_decode bytes with
       | None => Raise UnicodeDecodeError
       | Some text => json_loads (universal_newlines text)
       end
     end).

(** [random.sample] on the world's random source. *)
Definition random_sample {A} (population : list A) (k : Z) : M (list A) :=
  fun w =>
    match sample (rand w) (rand_pos w) population k with
    | Return l => (set_rand_pos w (rand_pos w + Z.to_nat k), Return l)
    | Raise e => (w, Raise e)
    end.

Definition _load_random_noneo (count : Z) : M (list json) :=
  data <~ read_noneo_file ;;
  simplified <~ lift (simplified_data data) ;;
  random_sample simplified count.

End Passages.

Section Processor.
Context {B : Builtins}.

Definition process_gomin (self : GongjaProcessor) (text_gomin : str)
  : M (json * float) :=
  let template := _get_gomin_template text_gomin in
  let messages :=
    [ {| role := u "system"; msg_content := JStr system_content |};
      {| role := u "assistant"; msg_content := JStr (introduction self) |};
      {| role := u "user"; msg_content := JStr template |} ] in
  called <~ _call_gpt messages ;;
  parsed <~ parse_response (fst called) ;;
  ret (parsed, snd called).

Definition generate_advice (self : GongjaProcessor) (gomin_response : json)
  : M (json * float) :=
  noneo <~ _load_random_noneo 20 ;;
  template <~ lift (_get_advice_template noneo) ;;
  step1 <~ lift (getitem gomin_response (u "STEP-1")) ;;
  context <~ lift (_create_context_message gomin_response) ;;
  let messages :=
    [ {| role := u "system"; msg_content := JStr system_content |};
      {| role := u "assistant"; msg_content := JStr (introduction self) |};
      {| role := u "user"; msg_content := step1 |};
      {| role := u "assistant"; msg_content := JStr context |};
      {| role := u "user"; msg_content := JStr template |} ] in
  called <~ _call_gpt messages ;;
  parsed <~ parse_response (fst called) ;;
  ret (parsed, snd called).

End Processor.

(** ** utils.py *)

(** The dictionary [data] handed to [save_to_csv]. *)
Record session := {
  source : str;
  email : str;
  gomin_result : json;
  advice_result : json;
  time1 : float;
  time2 : float
}.

(** Lines 18-32: the row, column by column. *)
Definition row_data (timestamp : str) (data : session)
  : result (list (str * cell)) :=
  original_concern <- getitem (gomin_result data) (u "STEP-1") ;;
  step3 <- getitem (gomin_result data) (u "STEP-3") ;;
  concern_summary <- getitem step3 (u "요약") ;;
  step4 <- getitem (gomin_result data) (u "STEP-4") ;;
  lacking_aspect <- getitem step4 (u "부족함") ;;
  step4' <- getitem (gomin_result data) (u "STEP-4") ;;
  concept <- getitem step4' (u "하위개념") ;;
  step4'' <- getitem (gomin_result data) (u "STEP-4") ;;
  concept_reason <- getitem step4'' (u "이유") ;;
  selected_quote <- getitem (advice_result data) (u "STEP-2") ;;
  quote_reason <- getitem (advice_result data) (u "STEP-3") ;;
  advice <- getitem (advice_result data) (u "STEP-4") ;;
  Return
    [ (u "timestamp", CStr timestamp);
      (u "source", CStr (source data));
      (u "email", CStr (email data));
      (u "original_concern", CJson original_concern);
      (u "concern_summary", CJson concern_summary);
      (u "lacking_aspect", CJson lacking_aspect);
      (u "concept", CJson concept);
      (u "concept_reason", CJson concept_reason);
      (u "selected_quote", CJson selected_quote);
      (u "quote_reason", CJson quote_reason);
      (u "advice", CJson advice);
      (u "analysis_time", CSeconds (time1 data));
      (u "advice_time", CSeconds (time2 data)) ].

Fixpoint lookup_log (files : list (str * list csv_line)) (name : str)
  : option (list csv_line) :=
  match files with
  | [] => None
  | (n, lines) :: rest =>
    if str_eqb n name then Some lines else lookup_log rest name
  end.

Fixpoint append_log (files : list (str * list csv_line)) (name : str)
  (new : list csv_line) : list (str * list csv_line) :=
  match files with
  | [] => [(name, new)]
  | (n, lines) :: rest =>
    if str_eqb n name then (n, lines ++ new) :: rest
    else (n, lines) :: append_log rest name new
  end.

Definition read_logs : M (list (str * list csv_line)) :=
  fun w => (w, Return (logs w)).

(** [ensure_directory_exists(directory)] *)
Definition ensure_directory_exists : M unit :=
  fun w => (w, if log_dir_ok w then Return tt else Raise OSError).

(** The file is written as UTF-8, which has no encoding for a surrogate
    code point (a [\ud800] to [\udfff] escape that [json.loads] read
    without its pair is one). *)
Definition is_surrogate (c : char) : bool :=
  ((55296 <=? c) && (c <=? 57343))%N.

Definition utf8_encodable (s : str) : bool :=
  forallb (fun c => negb (is_surrogate c)) s.

(** The number of decimal digits of an integer, its sign apart. *)
Definition int_digits (z : Z) : nat := length (str_of_Z (Z.abs z)).

Fixpoint first_error (outcomes : list (option exn)) : option exn :=
  match outcomes with
  | [] => None
  | Some e :: _ => Some e
  | None :: rest => first_error rest
  end.

(** What stops [repr(v)], if anything: it is entered once for [v] and once
    for every value inside it, in order, and raises [RecursionError] when
    no room is left; the digits of an integer are limited as they are for
    [int]. *)
Fixpoint repr_error (digits room : nat) (v : json) {struct room}
  : option exn :=
  match room with
  | O => Some RecursionError
  | S room' =>
    match v with
    | JInt z =>
      if (int_digits z <=? digits)%nat then None else Some DigitLimitError
    | JArr items => first_error (map (repr_error digits room') items)
    | JObj members =>
      first_error (map (fun kv => repr_error digits room' (snd kv)) members)
    | _ => None
    end
  end.

Section Log.
Context {B : Builtins}.

(** The writer takes a [str] as it is and [None] as the empty text, and
    converts any other value with [str]: digits, [True], and for a list or
    a dict its [repr], in which surrogates are escaped. *)
Definition cell_error (c : cell) : option exn :=
  match c with
  | CStr _ => None
  | CJson (JStr _) => None
  | CJson JNull => None
  | CJson v => repr_error int_max_str_digits str_limit v
  | CSeconds _ => None
  end.

Definition cell_encodable (c : cell) : bool :=
  match c with
  | CStr s => utf8_encodable s
  | CJson (JStr s) => utf8_encodable s
  | CJson _ => true
  | CSeconds _ => true
  end.

(** The cells of a row are converted in order, then the line is encoded as
    a whole. *)
Definition row_error (row : list (str * cell)) : option exn :=
  match first_error (map (fun kv => cell_error (snd kv)) row) with
  | Some e => Some e
  | None =>
    if forallb (fun kv => cell_encodable (snd kv)) row then None
    else Some UnicodeEncodeError
  end.

(** Lines 34-38.  Opening the file for appending creates it; the header is
    written when the file did not exist; a row that cannot be converted or
    encoded raises with the header already in the file, and nothing of the
    row. *)
Definition write_row (filename : str) (file_exists : bool)
  (row : list (str * cell)) : M unit :=
  fun w =>
    if log_file_ok w then
      match row_error row with
      | None =>
        (set_logs w
           (append_log (logs w) filename
              (if file_exists then [Row (map snd row)]
               else [Header (map fst row); Row (map snd row)])),
         Return tt)
      | Some e =>
        if file_exists then (w, Raise e)
        else
          (set_logs w (append_log (logs w) filename [Header (map fst row)]),
           Raise e)
      end
    else (w, Raise OSError).

(** [save_to_csv(data)], with the default directory. *)
Definition save_to_csv (data : session) : M unit :=
  ensure_directory_exists ;;;
  t <~ now ;;
  let filename :=
    u "txtfiles" ++ u "/counseling_log_" ++ strftime_Ym t ++ u ".csv" in
  files <~ read_logs ;;
  let file_exists :=
    match lookup_log files filename with Some _ => true | None => false end in
  t' <~ now ;;
  row <~ lift (row_data (strftime_full t') data) ;;
  write_row filename file_exists row.

End Log.

Section Concern.
Context {B : Builtins}.

Definition process_and_save_concern (processor : GongjaProcessor)
  (concern : str) (email : str) (source : str) : M (option json) :=
  print [Lit (u "
고민을 분석중입니다...")] ;;;
  analysed <~ process_gomin processor concern ;;
  let gomin_result := fst analysed in
  let time1 := snd analysed in
  is_worry <~ lift (getitem gomin_result (u "STEP-2")) ;;
  if negb (truthy is_worry) then
    print [Lit (u "입력하신 내용이 고민이 아닌 것 같습니다.")] ;;;
    ret None
  else
    print [Lit (u "분석 시간: "); Val (SSeconds time1); Lit (u "초")] ;;;
    print [Lit (u "
조언을 생성중입니다...")] ;;;
    advised <~ generate_advice processor gomin_result ;;
    let advice_result := fst advised in
    let time2 := snd advised in
    print [Lit (u "생성 시간: "); Val (SSeconds time2); Lit (u "초")] ;;;
    save_to_csv {| source := source; email := email;
                   gomin_result := gomin_result;
                   advice_result := advice_result;
                   time1 := time1; time2 := time2 |} ;;;
    print [Lit (u "
=== 분석 결과 ===")] ;;;
    step3 <~ lift (getitem gomin_result (u "STEP-3")) ;;
    summary <~ lift (getitem step3 (u "요약")) ;;
    print [Lit (u "고민 요약: "); Val (SJson summary)] ;;;
    step4 <~ lift (getitem gomin_result (u "STEP-4")) ;;
    lacking <~ lift (getitem step4 (u "부족함")) ;;
    print [Lit (u "부족한 점: "); Val (SJson lacking)] ;;;
    step4' <~ lift (getitem gomin_result (u "STEP-4")) ;;
    concept <~ lift (getitem step4' (u "하위개념")) ;;
    print [Lit (u "보완할 개념: "); Val (SJson concept)] ;;;
    print [Lit (u "
=== 조언 ===")] ;;;
    quote <~ lift (getitem advice_result (u "STEP-2")) ;;
    print [Lit (u "선택된 논어 구절: "); Val (SJson quote)] ;;;
    advice <~ lift (getitem advice_result (u "STEP-4")) ;;
    print [Lit (u "조언: "); Val (SJson advice)] ;;;
    ret (Some advice_result).

End Concern.

(** ** send_mail.py *)

(** A fragment of a decoded header, as [decode_header] returns it. *)
Inductive fragment :=
| FBytes (b : list N)
| FStr (s : str).

(** A part of a message: its content type, its [Content-Disposition]
    header and its decoded payload ([None] for a container). *)
Record part := {
  content_type : str;
  content_disposition : option str;
  payload : option (list N)
}.

(** An inbound message, as the program reads it: the address of
    [parseaddr(msg['From'])], the fragments of [decode_header(msg['Subject'])],
    and the parts [msg.walk()] yields, the message itself first. *)
Record email_message := {
  from_address : str;
  subject_fragments : list (fragment * option str);
  is_multipart : bool;
  self_part : part;
  subparts : list part
}.

Definition walk (msg : email_message) : list part :=
  self_part msg :: subparts msg.

Definition decode_utf8 (b : list N) : result str :=
  match utf8_decode b with
  | Some s => Return s
  | None => Raise UnicodeDecodeError
  end.

Section Mail.
Context {B : Builtins}.

Fixpoint decode_fragments (fragments : list (fragment * option str))
  (decoded_subject : str) : result str :=
  match fragments with
  | [] => Return decoded_subject
  | (FBytes b, encoding) :: rest =>
    piece <-
      match encoding with
      | Some (c :: enc) => codec_decode (c :: enc) b
      | _ => decode_utf8 b
      end ;;
    decode_fragments rest (decoded_subject ++ piece)
  | (FStr s, _) :: rest => decode_fragments rest (decoded_subject ++ s)
  end.

Definition decode_subject (fragments : list (fragment * option str))
  : result str :=
  decode_fragments fragments [].

Definition text_types : list str := [u "text/plain"; u "text/html"].

Definition is_text (p : part) : bool :=
  existsb (str_eqb (content_type p)) text_types.

(** [part.get_payload(decode=True).decode()] *)
Definition payload_text (p : part) : result str :=
  match payload p with
  | Some b => decode_utf8 b
  | None => Raise AttributeError
  end.

Fixpoint first_text_part (parts : list part) : result str :=
  match parts with
  | [] => Return []
  | p :: rest =>
    let disposition :=
      match content_disposition p with
      | Some d => d
      | None => u "None"
      end in
    if negb (contains disposition (u "attachment")) && is_text p
    then payload_text p
    else first_text_part rest
  end.

Definition get_email_body (msg : email_message) : result str :=
  if is_multipart msg then first_text_part (walk msg)
  else if is_text (self_part msg) then payload_text (self_part msg)
  else Return [].

(** [send_auto_reply]: the template is loaded and rendered, then the
    message is handed to the mail server inside a [try]. *)
Definition send_auto_reply (to : str) (original_subject : str)
  (message : json) (original_content : str) : M unit :=
  let subject := u "Re: " ++ original_subject in
  fun w =>
    if template_found w then
      let mail := {| to_email := to; reply_subject := subject;
                     gomin_content := original_content;
                     custom_message := message |} in
      if smtp_accepts w (deliveries w) then
        print [Lit (u "자동 답장 발송 성공: "); Val (SStr to)]
          (set_mail w (S (deliveries w)) (outbox w ++ [mail]))
      else
        print [Lit (u "자동 답장 발송 실패: "); Val (SExn SMTPException)]
          (set_mail w (S (deliveries w)) (outbox w))
    else (w, Raise TemplateNotFound).

Definition process_single_email (gongja_processor : GongjaProcessor)
  (msg : email_message) : M unit :=
  let from_email := from_address msg in
  subject <~ lift (decode_subject (subject_fragments msg)) ;;
  print [Lit (u "From: "); Val (SStr from_email); Lit (u ", Subject: ");
         Val (SStr subject)] ;;;
  if contains (lower subject) (u "고민") || contains (lower subject) (u "상담")
  then
    print [Lit (u "조건에 맞는 이메일을 찾았습니다.")] ;;;
    email_body <~ lift (get_email_body msg) ;;
    print [Lit (u "Body: "); Val (SStr email_body)] ;;;
    advice_result <~
      process_and_save_concern gongja_processor email_body from_email
        (u "email") ;;
    match advice_result with
    | Some advice =>
      if truthy advice then
        message <~ lift (getitem advice (u "STEP-4")) ;;
        send_auto_reply from_email subject message email_body ;;;
        print [Lit (u "자동 답장에 성공했습니다.")]
      else print [Lit (u "고민 처리에 실패했습니다.")]
    | None => print [Lit (u "고민 처리에 실패했습니다.")]
    end
  else
    print [Lit (u "조건에 맞지 않는 이메일입니다.")] ;;;
    print [Lit (u "자동 답장을 보류합니다.")].

End Mail.

(** ** Notions used to state the properties of the pipeline *)

(** The request [process_gomin] sends. *)
Definition classification_request (self : GongjaProcessor) (text : str)
  : list chat_message :=
  [ {| role := u "system"; msg_content := JStr system_content |};
    {| role := u "assistant"; msg_content := JStr (introduction self) |};
    {| role := u "user"; msg_content := JStr (_get_gomin_template text) |} ].

(** A passage as [simplified_data] leaves it. *)
Definition passage (section number text : json) : json :=
  JObj [(u "편", section); (u "구절번호", number); (u "내용", text)].






(** Hangul syllables, the characters of the trigger words. *)
Definition is_hangul (c : char) : bool := ((44032 <=? c) && (c <=? 55203))%N.

(** ** Example data *)

Definition ascii_lower (c : char) : char :=
  if ((65 <=? c) && (c <=? 90))%N then (c + 32)%N else c.

(** Builtins for running the definitions on examples: exact on texts of
    ASCII letters, digits and spaces and of Hangul, with the limits of an
    interpreter in its default settings (994 containers inside one another
    at the top of a script, integers of 4300 digits). *)
Definition plain_builtins : Builtins :=
  {| repr_str := fun s => u "'" ++ s ++ u "'";
     repr_float := fun f =>
       match f with
       | FNaN => u "nan"
       | FInf neg => if neg then u "-inf" else u "inf"
       | FDec neg m e =>
         (if neg then u "-" else []) ++ str_of_Z (Z.of_N m) ++ u "e"
         ++ str_of_Z e
       end;
     lower_at := fun _ c _ => [ascii_lower c];
     codec_decode := fun _ b => decode_utf8 b;
     recursion_room := 978;
     int_digits_room := 3660;
     conversion_room := 981 |}.

Definition example_processor : GongjaProcessor :=
  {| introduction := u "자네의 고민을 들어주겠네." |}.

(** A passage file with three entries. *)
Definition example_noneo : list N :=
  Eval vm_compute in
  bytes_of_string "{" ++ dq ++ bytes_of_string "data" ++ dq
  ++ bytes_of_string ": [{" ++ dq ++ bytes_of_string "편" ++ dq
  ++ bytes_of_string ": " ++ dq ++ bytes_of_string "학이" ++ dq
  ++ bytes_of_string ", " ++ dq ++ bytes_of_string "구절번호" ++ dq
  ++ bytes_of_string ": 1, " ++ dq ++ bytes_of_string "내용" ++ dq
  ++ bytes_of_string ": " ++ dq ++ bytes_of_string "배우고 익히면 기쁘다"
  ++ dq ++ bytes_of_string ", " ++ dq ++ bytes_of_string "원문" ++ dq
  ++ bytes_of_string ": " ++ dq ++ bytes_of_string "學而時習之" ++ dq
  ++ bytes_of_string "}, {" ++ dq ++ bytes_of_string "편" ++ dq
  ++ bytes_of_string ": " ++ dq ++ bytes_of_string "위정" ++ dq
  ++ bytes_of_string ", " ++ dq ++ bytes_of_string "구절번호" ++ dq
  ++ bytes_of_string ": 2, " ++ dq ++ bytes_of_string "내용" ++ dq
  ++ bytes_of_string ": " ++ dq ++ bytes_of_string "생각에 사악함이 없다"
  ++ dq ++ bytes_of_string "}, {" ++ dq ++ bytes_of_string "편" ++ dq
  ++ bytes_of_string ": " ++ dq ++ bytes_of_string "이인" ++ dq
  ++ bytes_of_string ", " ++ dq ++ bytes_of_string "구절번호" ++ dq
  ++ bytes_of_string ": 3, " ++ dq ++ bytes_of_string "내용" ++ dq
  ++ bytes_of_string ": " ++ dq ++ bytes_of_string "덕은 외롭지 않다"
  ++ dq ++ bytes_of_string "}]}".

(** The reply of the remote model to a greeting: not a worry. *)
Definition not_a_worry_reply : response :=
  reply (marker ++ u " : {" ++ dq ++ u "STEP-1" ++ dq ++ u ": " ++ dq
         ++ u "안녕하세요" ++ dq ++ u ", " ++ dq ++ u "STEP-2" ++ dq
         ++ u ": false}").

Definition example_world : world :=
  {| noneo_file := Some example_noneo;
     rand := fun n => (7 * n + 5)%nat;
     rand_pos := 0;
     gpt := fun _ _ => Return (not_a_worry_reply, 1.5%float);
     requests := [];
     clock := fun n =>
       {| year := 2024; month := 3; day := 9;
          hour := 14; minute := 5; second := n |};
     clock_reads := 0;
     logs := []; log_dir_ok := true; log_file_ok := true;
     stdout := [];
     template_found := true;
     smtp_accepts := fun _ => true;
     deliveries := 0;
     outbox := [] |}.

(** A classification record and an advice record; [restated] is the worry
    as the advice stage restates it. *)
Definition example_gomin : json :=
  JObj [ (u "STEP-1", JStr (u "오늘 회사에서 실수를 해서 너무 속상하다"));
         (u "STEP-2", JBool true);
         (u "STEP-3", JObj [(u "요약", JStr (u "회사에서의 실수"))]);
         (u "STEP-4", JObj [ (u "부족함", JStr (u "자신감"));
                             (u "하위개념", JStr (u "용"));
                             (u "이유", JStr (u "두려움을 이겨야 하네")) ]) ].

Definition example_advice (restated : str) : json :=
  JObj [ (u "STEP-1", JObj [ (u "고민", JStr restated);
                             (u "부족", JStr (u "자신감"));
                             (u "하위개념", JStr (u "용"));
                             (u "이유", JStr (u "두려움을 이겨야 하네")) ]);
         (u "STEP-2", JStr (u "학이-1: 배우고 익히면 기쁘다"));
         (u "STEP-3", JStr (u "배움으로 실수를 넘어서네"));
         (u "STEP-4", JStr (u "실수에서 배우게")) ].

Definition example_session (restated : str) : session :=
  {| source := u "console"; email := [];
     gomin_result := example_gomin;
     advice_result := example_advice restated;
     time1 := 1.5%float; time2 := 2.25%float |}.

(** The row of a session whose records hold the fields the row reads. *)
Definition log_row (timestamp : str) (data : session)
  (original_concern concern_summary lacking_aspect concept concept_reason
   selected_quote quote_reason advice : json) : list (str * cell) :=
  [ (u "timestamp", CStr timestamp);
    (u "source", CStr (source data));
    (u "email", CStr (email data));
    (u "original_concern", CJson original_concern);
    (u "concern_summary", CJson concern_summary);
    (u "lacking_aspect", CJson lacking_aspect);
    (u "concept", CJson concept);
    (u "concept_reason", CJson concept_reason);
    (u "selected_quote", CJson selected_quote);
    (u "quote_reason", CJson quote_reason);
    (u "advice", CJson advice);
    (u "analysis_time", CSeconds (time1 data));
    (u "advice_time", CSeconds (time2 data)) ].

(** The lowercase mapping leaves Hangul syllables alone and maps every
    other character to a non-empty text without Hangul syllables. *)
Definition lower_keeps_hangul {B : Builtins} : Prop :=
  forall before c after,
    if is_hangul c then lower_at before c after = [c]
    else lower_at before c after <> []
         /\ forallb (fun d => negb (is_hangul d)) (lower_at before c after)
            = true.

(** [y] is the first character of [s]. *)
Definition head_is (y : char) (s : str) : bool :=
  match s with
  | [] => false
  | c :: _ => char_eqb c y
  end.

(** [x] occurs in [s] immediately followed by [y]. *)
Fixpoint has_pair (x y : char) (s : str) : bool :=
  match s with
  | [] => false
  | c :: s' => char_eqb c x && head_is y s' || has_pair x y s'
  end.

(** A plain text message with the given subject and body. *)
Definition example_mail (subject body : string) : email_message :=
  {| from_address := u "disciple@example.com";
     subject_fragments := [(FBytes (bytes_of_string subject), Some (u "utf-8"))];
     is_multipart := false;
     self_part := {| content_type := u "text/plain";
                     content_disposition := None;
                     payload := Some (bytes_of_string body) |};
     subparts := [] |}.

(** The replies of the remote model to a worry: the classification record
    after the marker, then the advice record in a fenced block. *)
Definition worry_reply : response :=
  reply
    (u "<출력 결과> : {" ++ dq ++ u "STEP-1" ++ dq ++ u ": " ++ dq
     ++ u "오늘 회사에서 실수를 해서 너무 속상하다" ++ dq ++ u ", " ++ dq ++ u "STEP-2"
     ++ dq ++ u ": true, " ++ dq ++ u "STEP-3" ++ dq ++ u ": {" ++ dq
     ++ u "요약" ++ dq ++ u ": " ++ dq ++ u "회사에서의 실수" ++ dq ++ u "}, " ++ dq
     ++ u "STEP-4" ++ dq ++ u ": {" ++ dq ++ u "부족함" ++ dq ++ u ": " ++ dq
     ++ u "자신감" ++ dq ++ u ", " ++ dq ++ u "하위개념" ++ dq ++ u ": " ++ dq
     ++ u "용" ++ dq ++ u ", " ++ dq ++ u "이유" ++ dq ++ u ": " ++ dq
     ++ u "두려움을 이겨야 하네" ++ dq ++ u "}}").

Definition advice_reply : response :=
  reply
    (u "```json
{
 " ++ dq ++ u "STEP-1" ++ dq ++ u ": {
  " ++ dq
     ++ u "고민" ++ dq ++ u ": " ++ dq ++ u "회사에서의 실수" ++ dq ++ u ",
  "
     ++ dq ++ u "부족" ++ dq ++ u ": " ++ dq ++ u "자신감" ++ dq ++ u ",
  "
     ++ dq ++ u "하위개념" ++ dq ++ u ": " ++ dq ++ u "용" ++ dq ++ u ",
  "
     ++ dq ++ u "이유" ++ dq ++ u ": " ++ dq ++ u "두려움을 이겨야 하네" ++ dq
     ++ u "
 },
 " ++ dq ++ u "STEP-2" ++ dq ++ u ": " ++ dq
     ++ u "학이-1: 배우고 익히면 기쁘다" ++ dq ++ u ",
 " ++ dq ++ u "STEP-3" ++ dq
     ++ u ": " ++ dq ++ u "배움으로 실수를 넘어서네" ++ dq ++ u ",
 " ++ dq
     ++ u "STEP-4" ++ dq ++ u ": " ++ dq ++ u "실수에서 배우게" ++ dq
     ++ u "
}
```").

(** A passage file with [n] numbered entries. *)
Definition numbered_entry (i : nat) : list N :=
  bytes_of_string "{" ++ dq ++ bytes_of_string "편" ++ dq
  ++ bytes_of_string ": " ++ dq ++ bytes_of_string "학이" ++ dq
  ++ bytes_of_string ", " ++ dq ++ bytes_of_string "구절번호" ++ dq
  ++ bytes_of_string ": " ++ str_of_nat i ++ bytes_of_string ", " ++ dq
  ++ bytes_of_string "내용" ++ dq ++ bytes_of_string ": " ++ dq
  ++ bytes_of_string "구절 " ++ str_of_nat i ++ dq ++ bytes_of_string "}".

Definition numbered_noneo (n : nat) : list N :=
  bytes_of_string "{" ++ dq ++ bytes_of_string "data" ++ dq
  ++ bytes_of_string ": ["
  ++ join (bytes_of_string ", ") (map numbered_entry (seq 1 n))
  ++ bytes_of_string "]}".

(** A world whose model answers the worry and then advises. *)
Definition worry_world : world :=
  {| noneo_file := Some (numbered_noneo 25);
     rand := fun n => (7 * n + 5)%nat;
     rand_pos := 0;
     gpt := fun n _ =>
       match n with
       | O => Return (worry_reply, 1.5%float)
       | _ => Return (advice_reply, 2.25%float)
       end;
     requests := [];
     clock := fun n =>
       {| year := 2024; month := 3; day := 9;
          hour := 14; minute := 5; second := n |};
     clock_reads := 0;
     logs := []; log_dir_ok := true; log_file_ok := true;
     stdout := [];
     template_found := true;
     smtp_accepts := fun _ => true;
     deliveries := 0;
     outbox := [] |}.

(** ** Notions used to state what the pipeline does to the world *)

(** The file [save_to_csv] writes to at time [t]. *)
Definition log_filename (t : datetime) : str :=
  u "txtfiles" ++ u "/counseling_log_" ++ strftime_Ym t ++ u ".csv".

(** The thirteen columns of the counselling log. *)
Definition columns : list str :=
  [ u "timestamp"; u "source"; u "email"; u "original_concern";
    u "concern_summary"; u "lacking_aspect"; u "concept"; u "concept_reason";
    u "selected_quote"; u "quote_reason"; u "advice"; u "analysis_time";
    u "advice_time" ].

(** The lines [save_to_csv] adds for a row: under a header when the file is
    new. *)
Definition new_lines (existing : option (list csv_line))
  (row : list (str * cell)) : list csv_line :=
  match existing with
  | Some _ => [Row (map snd row)]
  | None => [Header (map fst row); Row (map snd row)]
  end.

(** A value that [str] converts whatever the settings of the interpreter:
    fewer than [depth] values inside one another, and no integer of more
    than 640 digits. *)
Fixpoint modest (depth : nat) (v : json) : bool :=
  match depth with
  | O => false
  | S d =>
    match v with
    | JInt z => (int_digits z <=? 640)%nat
    | JArr items => forallb (modest d) items
    | JObj members => forallb (fun kv => modest d (snd kv)) members
    | _ => true
    end
  end.

Definition modest_cell (c : cell) : bool :=
  match c with
  | CJson v => modest shallow v
  | _ => true
  end.

(** A cell that is a string with a surrogate in it. *)
Definition surrogate_cell (c : cell) : bool :=
  match c with
  | CStr s => existsb is_surrogate s
  | CJson (JStr s) => existsb is_surrogate s
  | _ => false
  end.

(** The errors of writing a row: of its encoding, and of the conversion of
    a cell. *)
Definition write_failure (e : exn) : Prop :=
  e = UnicodeEncodeError \/ e = RecursionError \/ e = DigitLimitError.

(** The request [generate_advice] sends. *)
Definition advice_request (self : GongjaProcessor) (step1 : json)
  (context template : str) : list chat_message :=
  [ {| role := u "system"; msg_content := JStr system_content |};
    {| role := u "assistant"; msg_content := JStr (introduction self) |};
    {| role := u "user"; msg_content := step1 |};
    {| role := u "assistant"; msg_content := JStr context |};
    {| role := u "user"; msg_content := JStr template |} ].

(** Nothing was written, sent or read from the clock between [w] and
    [w'], and the mail server is as it was. *)
Definition sinks_untouched (w w' : world) : Prop :=
  logs w' = logs w /\ outbox w' = outbox w /\ deliveries w' = deliveries w
  /\ clock_reads w' = clock_reads w /\ clock w' = clock w
  /\ template_found w' = template_found w
  /\ smtp_accepts w' = smtp_accepts w
  /\ log_dir_ok w' = log_dir_ok w /\ log_file_ok w' = log_file_ok w.

(** Every log file of [before] is still there in [after], with its lines
    first. *)
Definition logs_grow (before after : list (str * list csv_line)) : Prop :=
  forall name old,
    lookup_log before name = Some old ->
    exists new, lookup_log after name = Some (old ++ new).

(** What a run of [process_and_save_concern] from [w] to [w'] with result
    [res] amounts to: nothing is mailed; [None] comes after the one
    classification request, for a false [STEP-2], with no row written; an
    advice comes after two requests, with its row written to the file of
    the month; an exception leaves the log as it was, but for the header of
    a new file whose first row could not be written. *)
Definition concern_outcome {B : Builtins} (processor : GongjaProcessor)
  (concern email source : str) (w w' : world) (res : result (option json))
  : Prop :=
  let cls := classification_request processor concern in
  let filename := log_filename (clock w (clock_reads w)) in
  outbox w' = outbox w /\ deliveries w' = deliveries w
  /\ template_found w' = template_found w
  /\ smtp_accepts w' = smtp_accepts w
  /\ match res with
     | Return None =>
       requests w' = requests w ++ [cls]
       /\ logs w' = logs w
       /\ exists r t gomin_result is_worry,
            gpt w (length (requests w)) cls = Return (r, t)
            /\ snd (_parse_response r) = Return gomin_result
            /\ getitem gomin_result (u "STEP-2") = Return is_worry
            /\ truthy is_worry = false
     | Return (Some advice) =>
       exists r t1 t2 gomin_result request row,
         gpt w (length (requests w)) cls = Return (r, t1)
         /\ snd (_parse_response r) = Return gomin_result
         /\ requests w' = requests w ++ [cls; request]
         /\ row_data (strftime_full (clock w (S (clock_reads w))))
              {| source := source; email := email;
                 gomin_result := gomin_result; advice_result := advice;
                 time1 := t1; time2 := t2 |} = Return row
         /\ logs w'
            = append_log (logs w) filename
                (new_lines (lookup_log (logs w) filename) row)
     | Raise e =>
       (logs w' = logs w
        \/ (write_failure e
            /\ lookup_log (logs w) filename = None
            /\ logs w' = append_log (logs w) filename [Header columns]))
       /\ (requests w' = requests w ++ [cls]
           \/ exists request, requests w' = requests w ++ [cls; request])
     end.

(** The test of [process_single_email] on the decoded subject. *)
Definition triggered {B : Builtins} (subject : str) : bool :=
  contains (lower subject) (u "고민") || contains (lower subject) (u "상담").

(** The reply to [msg]. *)
Definition reply_mail (msg : email_message) (subject body : str)
  (message : json) : sent_mail :=
  {| to_email := from_address msg;
     reply_subject := u "Re: " ++ subject;
     gomin_content := body;
     custom_message := message |}.

(** The line printed after [send_auto_reply] returns. *)
Definition reply_succeeded : event :=
  Print [Lit (u "자동 답장에 성공했습니다.")].

(** Whether the subject of [msg] decodes and passes the test. *)
Definition is_triggered {B : Builtins} (msg : email_message) : bool :=
  match decode_subject (subject_fragments msg) with
  | Return subject => triggered subject
  | Raise _ => false
  end.

(** What a run of [process_single_email] from [w] to [w'] amounts to: at
    most two requests, log files that only grow, and either no delivery
    attempted, or one reply to the sender handed to the mail server after
    the two requests of a triggered subject. *)
Definition mail_outcome {B : Builtins} (processor : GongjaProcessor)
  (msg : email_message) (w w' : world) (res : result unit) : Prop :=
  (exists new,
      requests w' = requests w ++ new
      /\ (length new <= if is_triggered msg then 2 else 0)%nat)
  /\ logs_grow (logs w) (logs w')
  /\ template_found w' = template_found w
  /\ smtp_accepts w' = smtp_accepts w
  /\ ((outbox w' = outbox w /\ deliveries w' = deliveries w)
      \/ exists subject body advice message request,
           decode_subject (subject_fragments msg) = Return subject
           /\ triggered subject = true
           /\ get_email_body msg = Return body
           /\ getitem advice (u "STEP-4") = Return message
           /\ requests w'
              = requests w ++ [classification_request processor body; request]
           /\ template_found w = true
           /\ deliveries w' = S (deliveries w)
           /\ outbox w'
              = (if smtp_accepts w (deliveries w)
                 then outbox w ++ [reply_mail msg subject body message]
                 else outbox w)
           /\ res = Return tt
           /\ last (stdout w') (Print []) = reply_succeeded).


(** ** send_mail.py: the batch

    [read_emails] logs in and selects the inbox, reads the clock, searches
    the inbox for the messages since the day before, and fetches and
    processes them one by one.  The mail server is outside the program:
    [login] is what the connection, the login and the selection end with,
    [search] what the server answers to the search made at a reading of the
    clock (an exception, or whether the status is [OK] and the fetches), and
    a fetch is the parsed message or the exception that fetching it
    raises. *)

Record imap := {
  login : result unit;
  search : datetime -> result (bool * list (result email_message))
}.

Section Batch.
Context {B : Builtins}.

(** The loop of lines 143-147. *)
Fixpoint process_fetched (gongja_processor : GongjaProcessor)
  (fetched : list (result email_message)) : M unit :=
  match fetched with
  | [] => ret tt
  | fetch :: rest =>
    msg <~ lift fetch ;;
    process_single_email gongja_processor msg ;;;
    process_fetched gongja_processor rest
  end.

Definition read_emails (gongja_processor : GongjaProcessor) (mail : imap)
  : M unit :=
  lift (login mail) ;;;
  t <~ now ;;
  found <~ lift (search mail t) ;;
  if fst found then process_fetched gongja_processor (snd found)
  else ret tt.

(** The messages [read_emails] fetches from [mail] in the world [w]. *)
Definition fetched_in (mail : imap) (w : world)
  : list (result email_message) :=
  match login mail with
  | Return _ =>
    match search mail (clock w (clock_reads w)) with
    | Return (true, fetched) => fetched
    | _ => []
    end
  | Raise _ => []
  end.

(** The messages of a batch whose subject passes the test. *)
Fixpoint count_triggered (fetched : list (result email_message)) : nat :=
  match fetched with
  | [] => O
  | Return msg :: rest =>
    (if is_triggered msg then 1 else 0) + count_triggered rest
  | Raise _ :: rest => count_triggered rest
  end.

End Batch.

(** ** More example data *)

(** A world whose model cannot be reached. *)
Definition unreachable_world : world :=
  {| noneo_file := noneo_file worry_world;
     rand := rand worry_world; rand_pos := 0;
     gpt := fun _ _ => Raise OpenAIError;
     requests := [];
     clock := clock worry_world; clock_reads := 0;
     logs := []; log_dir_ok := true; log_file_ok := true; stdout := [];
     template_found := true; smtp_accepts := fun _ => true;
     deliveries := 0; outbox := [] |}.

(** The builtins of the examples in an interpreter set to the lowest limit
    on the digits of an integer, 640. *)
Definition frugal_builtins : Builtins :=
  {| repr_str := @repr_str plain_builtins;
     repr_float := @repr_float plain_builtins;
     lower_at := @lower_at plain_builtins;
     codec_decode := @codec_decode plain_builtins;
     recursion_room := @recursion_room plain_builtins;
     int_digits_room := 0;
     conversion_room := @conversion_room plain_builtins |}.

(** An advice whose last step is a lone surrogate, written as the escape
    that [json.loads] accepts. *)
Definition surrogate_advice_reply : response :=
  reply
    (u "{" ++ dq ++ u "STEP-2" ++ dq ++ u ": " ++ dq
     ++ u "학이-1: 배우고 익히면 기쁘다" ++ dq ++ u ", " ++ dq ++ u "STEP-3" ++ dq
     ++ u ": " ++ dq ++ u "배움으로 실수를 넘어서네" ++ dq ++ u ", " ++ dq
     ++ u "STEP-4" ++ dq ++ u ": " ++ dq ++ u "\ud83d" ++ dq ++ u "}").

(** The world of the worry with that advice. *)
Definition surrogate_world : world :=
  {| noneo_file := noneo_file worry_world;
     rand := rand worry_world; rand_pos := 0;
     gpt := fun n _ =>
       match n with
       | O => Return (worry_reply, 1.5%float)
       | _ => Return (surrogate_advice_reply, 2.25%float)
       end;
     requests := [];
     clock := clock worry_world; clock_reads := 0;
     logs := []; log_dir_ok := true; log_file_ok := true; stdout := [];
     template_found := true; smtp_accepts := fun _ => true;
     deliveries := 0; outbox := [] |}.

(** The world of the worry with a mail server that refuses every
    delivery. *)
Definition refusing_world : world :=
  {| noneo_file := noneo_file worry_world;
     rand := rand worry_world; rand_pos := 0;
     gpt := gpt worry_world;
     requests := [];
     clock := clock worry_world; clock_reads := 0;
     logs := []; log_dir_ok := true; log_file_ok := true; stdout := [];
     template_found := true; smtp_accepts := fun _ => false;
     deliveries := 0; outbox := [] |}.

(** The world of the worry without the newsletter template. *)
Definition untemplated_world : world :=
  {| noneo_file := noneo_file worry_world;
     rand := rand worry_world; rand_pos := 0;
     gpt := gpt worry_world;
     requests := [];
     clock := clock worry_world; clock_reads := 0;
     logs := []; log_dir_ok := true; log_file_ok := true; stdout := [];
     template_found := false; smtp_accepts := fun _ => true;
     deliveries := 0; outbox := [] |}.

(** The world of the worry with the passage file of three entries. *)
Definition short_corpus_world : world :=
  {| noneo_file := Some example_noneo;
     rand := rand worry_world; rand_pos := 0;
     gpt := gpt worry_world;
     requests := [];
     clock := clock worry_world; clock_reads := 0;
     logs := []; log_dir_ok := true; log_file_ok := true; stdout := [];
     template_found := true; smtp_accepts := fun _ => true;
     deliveries := 0; outbox := [] |}.

(** A message asking for counsel about the worry of the examples. *)
Definition worry_mail : email_message :=
  example_mail "고민 상담 부탁드립니다"
               "오늘 회사에서 실수를 해서 너무 속상하다".

(** The test of [get_email_body] on a part of a multipart message: not an
    attachment, and of a text type. *)
Definition eligible (p : part) : bool :=
  negb (contains (match content_disposition p with
                  | Some d => d
                  | None => u "None"
                  end) (u "attachment"))
  && is_text p.

(** A message with an attached text file before its text. *)
Definition mail_with_attachment : email_message :=
  {| from_address := u "disciple@example.com";
     subject_fragments := [(FStr (u "고민"), None)];
     is_multipart := true;
     self_part := {| content_type := u "multipart/mixed";
                     content_disposition := None;
                     payload := None |};
     subparts :=
       [ {| content_type := u "text/plain";
            content_disposition :=
              Some (u "attachment; filename=notes.txt");
            payload := Some (bytes_of_string "notes") |};
         {| content_type := u "text/html";
            content_disposition := None;
            payload := Some (bytes_of_string "<p>hello</p>") |};
         {| content_type := u "text/plain";
            content_disposition := None;
            payload := Some (bytes_of_string "hello") |} ] |}.

(** ** The environment

    [getenv] is [os.getenv] once [load_dotenv()] has run: the value of a
    variable, or [None]. *)

(** [not value] for what [os.getenv] returns. *)
Definition not_set (value : option str) : bool :=
  match value with
  | Some (_ :: _) => false
  | _ => true
  end.

Definition api_key_missing : str :=
  u "OPENAI_API_KEY가 설정되지 않았습니다.".

Definition variables_missing : str :=
  u "다음 환경 변수가 설정되지 않았습니다: ".

(** *** send_mail.py: configuration and entry point *)

Module SendMail.

Record EmailConfig := {
  IMAP_SERVER : option str;
  SMTP_SERVER : option str;
  EMAIL_ACCOUNT : option str;
  PASSWORD : option str;
  TEMPLATE_PATH : str;
  TEMPLATE_FILE : str
}.

Definition from_env (getenv : str -> option str) : EmailConfig :=
  {| IMAP_SERVER := getenv (u "IMAP_SERVER");
     SMTP_SERVER := getenv (u "SMTP_SERVER");
     EMAIL_ACCOUNT := getenv (u "EMAIL_ACCOUNT");
     PASSWORD := getenv (u "EMAIL_PASSWORD");
     TEMPLATE_PATH := u "./template";
     TEMPLATE_FILE := u "newsletter.html" |}.

(** The key is also stored in [openai.api_key]; the remote model is the
    oracle [gpt] of the world, whatever the key. *)
Definition setup_environment (getenv : str -> option str) : result unit :=
  let api_key := getenv (u "OPENAI_API_KEY") in
  if not_set api_key then Raise (ValueError api_key_missing None)
  else
    let required_env_vars :=
      [ u "EMAIL_ACCOUNT"; u "EMAIL_PASSWORD"; u "IMAP_SERVER";
        u "SMTP_SERVER" ] in
    let missing_vars :=
      filter (fun var => not_set (getenv var)) required_env_vars in
    match missing_vars with
    | [] => Return tt
    | _ :: _ =>
      Raise (ValueError (variables_missing ++ join (u ", ") missing_vars)
               None)
    end.

(** [main]: [construct] is what [GongjaProcessor()] yields, and [server]
    the mail server that a configuration leads to. *)
Definition main {B : Builtins} (getenv : str -> option str)
  (construct : result GongjaProcessor) (server : EmailConfig -> imap)
  : M unit :=
  try_except
    (lift (setup_environment getenv) ;;;
     let config := from_env getenv in
     gongja_processor <~ lift construct ;;
     read_emails gongja_processor (server config))
    (fun e => print [Lit (u "오류가 발생했습니다: "); Val (SExn e)]).

End SendMail.

(** An environment with every variable set but [IMAP_SERVER] and
    [SMTP_SERVER], the second one to the empty text. *)
Definition example_getenv (var : str) : option str :=
  if str_eqb var (u "OPENAI_API_KEY") then Some (u "sk-example")
  else if str_eqb var (u "EMAIL_ACCOUNT") then Some (u "master@example.com")
  else if str_eqb var (u "EMAIL_PASSWORD") then Some (u "secret")
  else if str_eqb var (u "SMTP_SERVER") then Some []
  else None.

(** A mail server whose inbox holds the worry mail. *)
Definition example_server : imap :=
  {| login := Return tt;
     search := fun _ => Return (true, [Return worry_mail]) |}.

(** An environment with the five variables set. *)
Definition full_getenv (var : str) : option str :=
  if str_eqb var (u "IMAP_SERVER") then Some (u "imap.example.com")
  else if str_eqb var (u "SMTP_SERVER") then Some (u "smtp.example.com")
  else example_getenv var.

(** ** main.py *)

(** The terminal of the console mode: the lines still to be typed, and the
    prompts [input] has written so far. *)
Record terminal := { typed : list str; asked : list str }.

(** How a console procedure ends: it returns, it raises an exception of the
    pipeline, [input] meets the end of the typed lines ([EOFError]), or the
    budget of a loop is spent. *)
Inductive ended (A : Type) :=
| Returned (a : A)
| Raised (e : exn)
| EOFError
| Unfinished.
Arguments Returned {A} a.
Arguments Raised {A} e.
Arguments EOFError {A}.
Arguments Unfinished {A}.

(** [int(text)]: the number, or [None] for [ValueError]. *)
Class Terminal := { py_int : str -> option Z }.

(** [l[i]] on a list. *)
Definition list_item {A} (l : list A) (i : Z) : result A :=
  let n := Z.of_nat (length l) in
  let i := if (i <? 0)%Z then (i + n)%Z else i in
  if (i <? 0)%Z then Raise IndexError
  else
    match nth_error l (Z.to_nat i) with
    | Some a => Return a
    | None => Raise IndexError
    end.

(** [enumerate(l, 1)] *)
Definition enumerate_from_1 {A} (l : list A) : list (nat * A) :=
  combine (seq 1 (length l)) l.

Module Main.

Declare Scope console_scope.
Delimit Scope console_scope with console.

Definition C (A : Type) : Type :=
  terminal -> world -> terminal * world * ended A.

Definition retC {A} (a : A) : C A := fun t w => (t, w, Returned a).

Definition bindC {A A'} (m : C A) (k : A -> C A') : C A' :=
  fun t w =>
    match m t w with
    | (t', w', Returned a) => k a t' w'
    | (t', w', Raised e) => (t', w', Raised e)
    | (t', w', EOFError) => (t', w', EOFError)
    | (t', w', Unfinished) => (t', w', Unfinished)
    end.

Notation "x <~ c ;; k" := (bindC c (fun x => k))
  (at level 61, c at next level, right associativity) : console_scope.
Notation "c ;;; k" := (bindC c (fun _ => k))
  (at level 61, right associativity) : console_scope.

(** A procedure of the pipeline, run from the console. *)
Definition run {A} (m : M A) : C A :=
  fun t w =>
    match m w with
    | (w', Return a) => (t, w', Returned a)
    | (w', Raise e) => (t, w', Raised e)
    end.

Definition say (line : list piece) : C unit := run (print line).

(** [input(prompt)] *)
Definition input (prompt : str) : C str :=
  fun t w =>
    match typed t with
    | [] => ({| typed := []; asked := asked t ++ [prompt] |}, w, EOFError)
    | line :: rest =>
      ({| typed := rest; asked := asked t ++ [prompt] |}, w, Returned line)
    end.

(** [while True: body], where the body yields [Some a] to return [a] and
    [None] to go round again. *)
Fixpoint while_true {A} (budget : nat) (body : C (option A)) : C A :=
  match budget with
  | O => fun t w => (t, w, Unfinished)
  | S budget =>
    (r <~ body ;;
     match r with
     | Some a => retC a
     | None => while_true budget body
     end)%console
  end.

(** [try: m except Exception as e: handler], where [handler] gets the text
    of [str(e)] as a piece of a line. *)
Definition try_exceptC {A} (m : C A) (handler : piece -> C A) : C A :=
  fun t w =>
    match m t w with
    | (t', w', Raised e) => handler (Val (SExn e)) t' w'
    | (t', w', EOFError) => handler (Lit (u "EOF when reading a line")) t' w'
    | done => done
    end.

Record Config := {
  OPENAI_API_KEY : option str;
  NONEO_DATA_PATH : str
}.

Definition setup_environment (getenv : str -> option str) : result Config :=
  let OPENAI_API_KEY := getenv (u "OPENAI_API_KEY") in
  if not_set OPENAI_API_KEY then Raise (ValueError api_key_missing None)
  else
    let required_env_vars :=
      [ u "EMAIL_ACCOUNT"; u "EMAIL_PASSWORD"; u "IMAP_SERVER";
        u "SMTP_SERVER" ] in
    let missing_vars :=
      filter (fun var => not_set (getenv var)) required_env_vars in
    match missing_vars with
    | [] =>
      Return {| OPENAI_API_KEY := OPENAI_API_KEY;
                NONEO_DATA_PATH := u "./files/noneo_data.json" |}
    | _ :: _ =>
      Raise (ValueError (variables_missing ++ join (u ", ") missing_vars)
               None)
    end.

(** Line 47. *)
Definition short_worry (worry : str) : str :=
  if (50 <? length worry)%nat then firstn 50 worry ++ u "..." else worry.

Section Console.
Context {B : Builtins} {T : Terminal}.

(** The dictionary [gomins.worries], in the order of its keys. *)
Variable worries : list (str * list str).

Definition worries_keys : list str := map fst worries.

(** [worries[category]] *)
Definition worries_item (category : str) : result (list str) :=
  match List.find (fun entry => str_eqb (fst entry) category) worries with
  | Some entry => Return (snd entry)
  | None => Raise (KeyError category)
  end.

Definition numbered (idx : nat) (text : str) : list piece :=
  [Val (SStr (str_of_nat idx)); Lit (u ". "); Val (SStr text)].

Fixpoint say_each (lines : list (list piece)) : C unit :=
  match lines with
  | [] => retC tt
  | line :: rest => (say line ;;; say_each rest)%console
  end.

Definition display_worry_categories : C (list str) :=
  (say [Lit (u "
=== 고민 카테고리 ===")] ;;;
   say_each (map (fun entry => numbered (fst entry) (snd entry))
               (enumerate_from_1 worries_keys)) ;;;
   retC worries_keys)%console.

Definition display_worries_in_category (category : str) : C (list str) :=
  (say [Lit (u "
=== "); Val (SStr category); Lit (u " 관련 고민들 ===")] ;;;
   listed <~ run (lift (worries_item category)) ;;
   say_each (map (fun entry => numbered (fst entry) (short_worry (snd entry)))
               (enumerate_from_1 listed)) ;;;
   retC listed)%console.

(** One round of the loop of [get_valid_input]. *)
Definition get_valid_input_round (max_num : Z) (prompt : str)
  : C (option Z) :=
  (line <~ input prompt ;;
   match py_int line with
   | Some num =>
     if ((1 <=? num) && (num <=? max_num))%Z then retC (Some num)
     else
       say [Lit (u "1부터 "); Val (SStr (str_of_Z max_num));
            Lit (u " 사이의 숫자를 입력해주세요.")] ;;;
       retC None
   | None =>
     say [Lit (u "유효한 숫자를 입력해주세요.")] ;;;
     retC None
   end)%console.

(** Every round reads a line, so the loop ends within as many rounds as
    there are lines to type, and one more. *)
Definition get_valid_input (max_num : Z) (prompt : str) : C Z :=
  fun t => while_true (S (length (typed t)))
             (get_valid_input_round max_num prompt) t.

Definition select_predefined_worry : C str :=
  (categories <~ display_worry_categories ;;
   category_num <~
     get_valid_input (Z.of_nat (length categories))
       (u "
카테고리 번호를 선택하세요: ") ;;
   selected_category <~ run (lift (list_item categories (category_num - 1))) ;;
   worries_list <~ display_worries_in_category selected_category ;;
   worry_num <~
     get_valid_input (Z.of_nat (length worries_list))
       (u "
고민 번호를 선택하세요: ") ;;
   run (lift (list_item worries_list (worry_num - 1))))%console.

(** One round of the loop of [process_console_input]: [Some tt] for
    [break]. *)
Definition process_console_input_round (processor : GongjaProcessor)
  : C (option unit) :=
  (line <~ input (u "
선택해주세요 (1 또는 2): ") ;;
   let choice := strip line in
   if existsb (str_eqb (lower choice)) [u "quit"; u "exit"] then
     say [Lit (u "상담을 종료합니다.")] ;;;
     retC (Some tt)
   else if negb (existsb (str_eqb choice) [u "1"; u "2"]) then
     say [Lit (u "1 또는 2를 선택해주세요.")] ;;;
     retC None
   else if str_eqb choice (u "1") then
     line' <~ input (u "
고민을 입력하세요: ") ;;
     let user_input := strip line' in
     match user_input with
     | [] =>
       say [Lit (u "고민을 입력해주세요.")] ;;;
       retC None
     | _ :: _ =>
       run (process_and_save_concern processor user_input [] (u "console")) ;;;
       retC None
     end
   else
     user_input <~ select_predefined_worry ;;
     say [Lit (u "
선택한 고민:"); Lit (u " "); Val (SStr user_input)] ;;;
     run (process_and_save_concern processor user_input [] (u "console")) ;;;
     retC None)%console.

Definition process_console_input (processor : GongjaProcessor) : C unit :=
  (say [Lit (u "
고민 상담을 시작합니다.")] ;;;
   say [Lit (u "1: 직접 고민 입력하기")] ;;;
   say [Lit (u "2: 미리 정의된 고민에서 선택하기")] ;;;
   say [Lit (u "종료하려면 'quit' 또는 'exit'를 입력하세요.")] ;;;
   fun t => while_true (S (length (typed t)))
              (process_console_input_round processor) t)%console.

(** [process_email]; [server] is the mail server that a configuration
    leads to. *)
Definition process_email (processor : GongjaProcessor)
  (getenv : str -> option str) (server : SendMail.EmailConfig -> imap)
  : M unit :=
  try_except
    (print [Lit (u "이메일 처리를 시작합니다...")] ;;;
     let email_config := SendMail.from_env getenv in
     read_emails processor (server email_config) ;;;
     print [Lit (u "이메일 처리가 완료되었습니다.")])
    (fun e => print [Lit (u "이메일 처리 중 오류 발생: "); Val (SExn e)]).

(** The value of [--mode]. *)
Inductive mode := console | email.

(** [main]; [construct] is what [GongjaProcessor()] yields. *)
Definition main (args_mode : mode) (getenv : str -> option str)
  (construct : result GongjaProcessor)
  (server : SendMail.EmailConfig -> imap) : C unit :=
  try_exceptC
    (config <~ run (lift (setup_environment getenv)) ;;
     processor <~ run (lift construct) ;;
     match args_mode with
     | console => process_console_input processor
     | email => run (process_email processor getenv server)
     end)%console
    (fun e => say [Lit (u "오류가 발생했습니다: "); e]).

End Console.

End Main.

(** A terminal for running the definitions on examples: [int] on ASCII
    texts without underscores, where it reads an optional sign and decimal
    digits between white space. *)
Definition decimal_value (s : str) : option Z :=
  match s with
  | [] => None
  | _ :: _ =>
    fold_left
      (fun acc c =>
         match acc with
         | Some n =>
           if ((48 <=? c) && (c <=? 57))%N
           then Some (10 * n + Z.of_N (c - 48))%Z
           else None
         | None => None
         end) s (Some 0%Z)
  end.

Definition plain_terminal : Terminal :=
  {| py_int := fun text =>
       match strip text with
       | 45%N :: digits => option_map Z.opp (decimal_value digits)
       | 43%N :: digits => decimal_value digits
       | digits => decimal_value digits
       end |}.

(** Two categories of worries. *)
Definition example_worries : list (str * list str) :=
  [ (u "직장", [ u "오늘 회사에서 실수를 해서 너무 속상하다";
                 u "상사와 말이 통하지 않는다" ]);
    (u "가족", [ u "부모님과 자주 다툰다" ]) ].

(** ** Notions used to state the properties of the console *)

(** The number [get_valid_input] takes from a typed line, if it takes
    it. *)
Definition accepted {T : Terminal} (max_num : Z) (line : str) : option Z :=
  match py_int line with
  | Some num =>
    if ((1 <=? num) && (num <=? max_num))%Z then Some num else None
  | None => None
  end.

(** What [get_valid_input] prints for a line it does not take. *)
Definition complaint {T : Terminal} (max_num : Z) (line : str) : event :=
  match py_int line with
  | Some _ =>
    Print [Lit (u "1부터 "); Val (SStr (str_of_Z max_num));
           Lit (u " 사이의 숫자를 입력해주세요.")]
  | None => Print [Lit (u "유효한 숫자를 입력해주세요.")]
  end.

(** [w'] is [w] with more lines on the console. *)
Definition prints_only (w w' : world) : Prop :=
  exists printed, w' = set_stdout w (stdout w ++ printed).

(** What a stretch of a console session did: nothing was handed to the
    mail server, and the requests sent are at most as many as the lines
    read. *)
Definition session_bound (t : terminal) (w : world) (t' : terminal)
  (w' : world) : Prop :=
  outbox w' = outbox w /\ deliveries w' = deliveries w
  /\ exists new,
       requests w' = requests w ++ new
       /\ (length new + length (typed t') <= length (typed t))%nat.

(** ** The decoder has budget enough *)

Section DecoderBudget.

Lemma progress_mono {A} (n m : nat) (x : scan A) :
  (n <= m)%nat -> progress n x -> progress m x.
Proof. destruct x; simpl; intros; try lia; assumption. Qed.

Lemma lstrip_by_length (p : char -> bool) (s : str) :
  (length (lstrip_by p s) <= length s)%nat.
Proof.
  induction s as [|c s IH]; simpl; [lia|].
  destruct (p c); simpl; lia.
Qed.

Lemma skip_ws_length (s : str) : (length (skip_ws s) <= length s)%nat.
Proof. apply lstrip_by_length. Qed.

Lemma skip_ws_cons (s r : str) (c : char) :
  skip_ws s = c :: r -> (length r < length s)%nat.
Proof.
  intros E. pose proof (skip_ws_length s) as H. rewrite E in H.
  simpl in H. lia.
Qed.

Lemma hex4_length (s r : str) (c : N) :
  hex4 s = Some (c, r) -> (length r + 4 = length s)%nat.
Proof.
  unfold hex4. destruct s as [|a [|b [|d [|e rest]]]]; try discriminate.
  destruct (hex_val a), (hex_val b), (hex_val d), (hex_val e);
    try discriminate.
  intros H. injection H as _ <-. simpl. lia.
Qed.

Lemma scanstring_progress (f : nat) :
  forall (s acc : str),
    (length s < f)%nat -> progress (length s) (scanstring f s acc).
Proof.
  induction f as [|f IH]; intros s acc Hf; [lia|].
  cbn [scanstring]. destruct s as [|c r]; [exact I|].
  cbn [length] in *.
  destruct (c =? 34)%N; [simpl; lia|].
  destruct (c =? 92)%N.
  - destruct r as [|e r1]; [exact I|]. cbn [length] in *.
    destruct (e =? 117)%N.
    + destruct (hex4 r1) as [[c1 r2]|] eqn:E1; [|exact I].
      apply hex4_length in E1.
      assert (Hplain : progress (S (S (length r1)))
                         (scanstring f r2 (c1 :: acc))).
      { apply (progress_mono (length r2)); [lia|]. apply IH. lia. }
      destruct (is_high_surrogate c1 && (6 <? length r2)%nat
                && startswith r2 [92%N; 117%N]); [|exact Hplain].
      destruct (hex4 (skipn 2 r2)) as [[c2 r3]|] eqn:E2; [|exact I].
      apply hex4_length in E2. rewrite length_skipn in E2.
      destruct (is_low_surrogate c2); [|exact Hplain].
      apply (progress_mono (length r3)); [lia|]. apply IH. lia.
    + destruct (simple_escape e); [|exact I].
      apply (progress_mono (length r1)); [lia|]. apply IH. lia.
  - destruct (c <=? 31)%N; [exact I|].
    apply (progress_mono (length r)); [lia|]. apply IH. lia.
Qed.

Lemma span_digits_length (s : str) :
  (length (snd (span_digits s)) <= length s)%nat.
Proof.
  induction s as [|c s IH]; simpl; [lia|].
  destruct (is_digit c); [|simpl; lia].
  destruct (span_digits s) as [ds rest]. simpl in *. lia.
Qed.

Lemma match_integer_length (s ints rest : str) :
  match_integer s = Some (ints, rest) -> (length rest < length s)%nat.
Proof.
  unfold match_integer. destruct s as [|c r]; [discriminate|].
  destruct ((49 <=? c)%N && (c <=? 57)%N).
  - pose proof (span_digits_length r) as H.
    destruct (span_digits r) as [ds rest']. intros E. injection E as _ <-.
    simpl in *. lia.
  - destruct (c =? 48)%N; [|discriminate].
    intros E. injection E as _ <-. simpl. lia.
Qed.

Lemma match_frac_length (s : str) :
  (length (snd (match_frac s)) <= length s)%nat.
Proof.
  unfold match_frac. destruct s as [|dot [|d r]]; try (simpl; lia).
  destruct ((dot =? 46)%N && is_digit d); [|simpl; lia].
  pose proof (span_digits_length (tl (dot :: d :: r))) as H.
  simpl in *. lia.
Qed.

Lemma match_exp_length (s : str) :
  (length (snd (match_exp s)) <= length s)%nat.
Proof.
  unfold match_exp. destruct s as [|e r]; [simpl; lia|].
  destruct ((e =? 101)%N || (e =? 69)%N); [|simpl; lia].
  assert (H : forall neg r1,
             (length r1 <= length r)%nat ->
             (length
                (snd
                   (let (ds, rest) := span_digits r1 in
                    match ds with
                    | [] => (@None Z, e :: r)
                    | _ :: _ => (Some (signed neg (digits_value ds)), rest)
                    end)) <= length (e :: r))%nat).
  { intros neg r1 Hr. pose proof (span_digits_length r1) as H.
    destruct (span_digits r1) as [[|d ds] rest]; simpl in *; lia. }
  destruct r as [|sg r']; [apply H; simpl; lia|].
  destruct (sg =? 45)%N; [apply H; simpl; lia|].
  destruct (sg =? 43)%N; apply H; simpl; lia.
Qed.

Lemma match_number_progress (digits : nat) (s : str) :
  progress (length s) (match_number digits s).
Proof.
  unfold match_number.
  assert (H : forall neg s1,
             (length s1 <= length s)%nat ->
             progress (length s)
               match match_integer s1 with
               | None => Malformed
               | Some (ints, r1) =>
                 let (fracs, r2) := match_frac r1 in
                 let (ex, r3) := match_exp r2 in
                 match fracs, ex with
                 | [], None =>
                   if (length ints <=? digits)%nat
                   then Scanned (JInt (signed neg (digits_value ints))) r3
                   else TooManyDigits
                 | _, _ =>
                   let e := match ex with Some z => z | None => 0%Z end in
                   Scanned
                     (JFloat (FDec neg (digits_value (ints ++ fracs))
                                (e - Z.of_nat (length fracs))%Z)) r3
                 end
               end).
  { intros neg s1 Hs.
    destruct (match_integer s1) as [[ints r1]|] eqn:Ei; [|exact I].
    apply match_integer_length in Ei.
    pose proof (match_frac_length r1) as Hf.
    destruct (match_frac r1) as [fracs r2].
    pose proof (match_exp_length r2) as He.
    destruct (match_exp r2) as [ex r3]. simpl in Hf, He.
    destruct fracs, ex; try (simpl; lia).
    destruct (length ints <=? digits)%nat; simpl; [lia | exact I]. }
  destruct s as [|c r]; [apply H; simpl; lia|].
  destruct (c =? 45)%N; apply H; simpl; lia.
Qed.

Lemma literal_progress (s : str) (name : string) (v : json) (x : scan json) :
  s <> [] -> u name <> [] ->
  literal s name v = Some x -> progress (length s) x.
Proof.
  unfold literal. intros Hs Hn.
  destruct (startswith s (u name)); [|discriminate].
  intros E. injection E as <-. simpl. rewrite length_skipn.
  destruct s; [congruence|]. destruct (u name); [congruence|].
  simpl. lia.
Qed.

Lemma first_some_cases {A} (P : A -> Prop) (l : list (option A)) (d : A) :
  Forall (fun o => forall a, o = Some a -> P a) l -> P d ->
  P (first_some l d).
Proof.
  unfold first_some. intros H Hd. induction H as [|o l Ho _ IH].
  - exact Hd.
  - destruct o as [a|]; simpl; [apply Ho; reflexivity | exact IH].
Qed.

(** With a budget above twice the length of the text, the scanner and its
    two loops make progress, whatever the limits. *)
Lemma scan_progress (digits f : nat) :
  (forall room s, (2 * length s < f)%nat ->
                  progress (length s) (scan_once digits f room s))
  /\ (forall room s acc, (2 * length s + 1 < f)%nat ->
                         progress (length s) (object_loop digits f room s acc))
  /\ (forall room s acc, (2 * length s + 1 < f)%nat ->
                         progress (length s) (array_loop digits f room s acc)).
Proof.
  induction f as [|f (IHs & IHo & IHa)].
  - repeat split; intros; lia.
  - split; [|split].
    + intros room s Hf. cbn [scan_once]. destruct s as [|c r]; [exact I|].
      cbn [length] in *.
      destruct (c =? 34)%N.
      { pose proof (scanstring_progress (S (length r)) r [] ltac:(lia)) as H.
        destruct (scanstring (S (length r)) r []); simpl in *; try lia;
          assumption. }
      destruct (c =? 123)%N.
      { destruct room as [|room]; [exact I|].
        destruct (skip_ws r) as [|c' r'] eqn:E; [exact I|].
        pose proof (skip_ws_cons r _ _ E) as Hl.
        destruct (c' =? 125)%N; [simpl; lia|].
        apply (progress_mono (length (c' :: r'))); [simpl; lia|].
        apply IHo. simpl. lia. }
      destruct (c =? 91)%N.
      { destruct room as [|room]; [exact I|].
        destruct (skip_ws r) as [|c' r'] eqn:E; [exact I|].
        pose proof (skip_ws_cons r _ _ E) as Hl.
        destruct (c' =? 93)%N; [simpl; lia|].
        apply (progress_mono (length (c' :: r'))); [simpl; lia|].
        apply IHa. simpl. lia. }
      apply (first_some_cases (progress (S (length r)))).
      * repeat constructor; intros a Ha;
          apply (literal_progress (c :: r) _ _ a) in Ha;
          try discriminate; exact Ha.
      * apply (match_number_progress digits (c :: r)).
    + intros room s acc Hf. cbn [object_loop].
      destruct s as [|q r]; [exact I|].
      cbn [length] in *.
      destruct (q =? 34)%N; [|exact I].
      pose proof (scanstring_progress (S (length r)) r [] ltac:(lia)) as Hk.
      destruct (scanstring (S (length r)) r []) as [key r1| | | |];
        try exact I; [|exact Hk].
      simpl in Hk.
      destruct (skip_ws r1) as [|colon r2] eqn:E1; [exact I|].
      pose proof (skip_ws_cons r1 _ _ E1) as H1.
      destruct (colon =? 58)%N; [|exact I].
      pose proof (skip_ws_length r2) as H2.
      pose proof (IHs room (skip_ws r2) ltac:(lia)) as Hv.
      destruct (scan_once digits f room (skip_ws r2)) as [v r3| | | |];
        try exact I; [|exact Hv].
      simpl in Hv.
      destruct (skip_ws r3) as [|d r4] eqn:E3; [exact I|].
      pose proof (skip_ws_cons r3 _ _ E3) as H3.
      destruct (d =? 125)%N; [simpl; lia|].
      destruct (d =? 44)%N; [|exact I].
      pose proof (skip_ws_length r4) as H4.
      apply (progress_mono (length (skip_ws r4))); [lia|].
      apply IHo. lia.
    + intros room s acc Hf. cbn [array_loop].
      pose proof (IHs room s ltac:(lia)) as Hv.
      destruct (scan_once digits f room s) as [v r1| | | |];
        try exact I; [|exact Hv].
      simpl in Hv.
      destruct (skip_ws r1) as [|d r2] eqn:E1; [exact I|].
      pose proof (skip_ws_cons r1 _ _ E1) as H1.
      destruct (d =? 93)%N; [simpl; lia|].
      destruct (d =? 44)%N; [|exact I].
      pose proof (skip_ws_length r2) as H2.
      apply (progress_mono (length (skip_ws r2))); [lia|].
      apply IHa. lia.
Qed.

(** The budget [json_loads] gives is never exhausted. *)
Lemma json_loads_budget (digits room : nat) (s : str) :
  scan_once digits (S (2 * length s)) room (skip_ws s) <> OutOfFuel.
Proof.
  pose proof (skip_ws_length s) as Hl.
  pose proof (proj1 (scan_progress digits (S (2 * length s))) room (skip_ws s)
                ltac:(lia)) as H.
  intros E. rewrite E in H. exact H.
Qed.

(** A larger budget gives the same outcome. *)
Lemma scan_stable (digits f : nat) :
  (forall room s g, (f <= g)%nat -> scan_once digits f room s <> OutOfFuel ->
                    scan_once digits g room s = scan_once digits f room s)
  /\ (forall room s acc g,
        (f <= g)%nat -> object_loop digits f room s acc <> OutOfFuel ->
        object_loop digits g room s acc = object_loop digits f room s acc)
  /\ (forall room s acc g,
        (f <= g)%nat -> array_loop digits f room s acc <> OutOfFuel ->
        array_loop digits g room s acc = array_loop digits f room s acc).
Proof.
  induction f as [|f (IHs & IHo & IHa)].
  - repeat split; intros; simpl in *; congruence.
  - split; [|split].
    + intros room s [|g] Hg H; [lia|]. apply le_S_n in Hg.
      cbn [scan_once] in *. destruct s as [|c r]; [reflexivity|].
      destruct (c =? 34)%N; [reflexivity|].
      destruct (c =? 123)%N.
      { destruct room as [|room]; [reflexivity|].
        destruct (skip_ws r) as [|c' r']; [reflexivity|].
        destruct (c' =? 125)%N; [reflexivity|]. apply IHo; assumption. }
      destruct (c =? 91)%N; [|reflexivity].
      destruct room as [|room]; [reflexivity|].
      destruct (skip_ws r) as [|c' r']; [reflexivity|].
      destruct (c' =? 93)%N; [reflexivity|]. apply IHa; assumption.
    + intros room s acc [|g] Hg H; [lia|]. apply le_S_n in Hg.
      cbn [object_loop] in *. destruct s as [|q r]; [reflexivity|].
      destruct (q =? 34)%N; [|reflexivity].
      destruct (scanstring (S (length r)) r []) as [key r1| | | |];
        try reflexivity.
      destruct (skip_ws r1) as [|colon r2]; [reflexivity|].
      destruct (colon =? 58)%N; [|reflexivity].
      destruct (scan_once digits f room (skip_ws r2)) as [v r3| | | |] eqn:Ev;
        try congruence;
        rewrite (IHs room (skip_ws r2) g Hg) by congruence; rewrite Ev;
        try reflexivity.
      destruct (skip_ws r3) as [|d r4]; [reflexivity|].
      destruct (d =? 125)%N; [reflexivity|].
      destruct (d =? 44)%N; [|reflexivity]. apply IHo; assumption.
    + intros room s acc [|g] Hg H; [lia|]. apply le_S_n in Hg.
      cbn [array_loop] in *.
      destruct (scan_once digits f room s) as [v r1| | | |] eqn:Ev;
        try congruence;
        rewrite (IHs room s g Hg) by congruence; rewrite Ev;
        try reflexivity.
      destruct (skip_ws r1) as [|d r2]; [reflexivity|].
      destruct (d =? 93)%N; [reflexivity|].
      destruct (d =? 44)%N; [|reflexivity]. apply IHa; assumption.
Qed.

(** [json_loads] does not depend on its budget: any larger one decodes the
    text to the same outcome. *)
Lemma json_loads_any_budget (digits room : nat) (s : str) (g : nat) :
  (S (2 * length s) <= g)%nat ->
  scan_once digits g room (skip_ws s)
  = scan_once digits (S (2 * length s)) room (skip_ws s).
Proof.
  intros Hg. apply (proj1 (scan_stable digits (S (2 * length s)))); [exact Hg|].
  apply json_loads_budget.
Qed.

(** A limit is met only by a text that nests deeper than [shallow] or holds
    an integer literal of more than 640 digits: with room for more, the
    outcome is the same.  So the outcome of the decoder is the same for all
    interpreters on the texts that stay below their limits. *)
Lemma scan_limits (digits digits' f : nat) :
  (digits <= digits')%nat ->
  (forall room room' s,
      (room <= room')%nat ->
      scan_once digits f room s <> TooDeep ->
      scan_once digits f room s <> TooManyDigits ->
      scan_once digits' f room' s = scan_once digits f room s)
  /\ (forall room room' s acc,
        (room <= room')%nat ->
        object_loop digits f room s acc <> TooDeep ->
        object_loop digits f room s acc <> TooManyDigits ->
        object_loop digits' f room' s acc = object_loop digits f room s acc)
  /\ (forall room room' s acc,
        (room <= room')%nat ->
        array_loop digits f room s acc <> TooDeep ->
        array_loop digits f room s acc <> TooManyDigits ->
        array_loop digits' f room' s acc = array_loop digits f room s acc).
Proof.
  intros Hd. induction f as [|f (IHs & IHo & IHa)].
  - repeat split; intros; reflexivity.
  - split; [|split].
    + intros room room' s Hr H1 H2. cbn [scan_once] in *.
      destruct s as [|c r]; [reflexivity|].
      destruct (c =? 34)%N; [reflexivity|].
      destruct (c =? 123)%N.
      { destruct room as [|room]; [congruence|].
        destruct room' as [|room']; [lia|]. apply le_S_n in Hr.
        destruct (skip_ws r) as [|c' r']; [reflexivity|].
        destruct (c' =? 125)%N; [reflexivity|]. apply IHo; assumption. }
      destruct (c =? 91)%N.
      { destruct room as [|room]; [congruence|].
        destruct room' as [|room']; [lia|]. apply le_S_n in Hr.
        destruct (skip_ws r) as [|c' r']; [reflexivity|].
        destruct (c' =? 93)%N; [reflexivity|]. apply IHa; assumption. }
      unfold first_some in *. cbn [flat_map app] in *.
      destruct (literal (c :: r) "null" JNull); [reflexivity|].
      destruct (literal (c :: r) "true" (JBool true)); [reflexivity|].
      destruct (literal (c :: r) "false" (JBool false)); [reflexivity|].
      destruct (literal (c :: r) "NaN" (JFloat FNaN)); [reflexivity|].
      destruct (literal (c :: r) "Infinity" (JFloat (FInf false)));
        [reflexivity|].
      destruct (literal (c :: r) "-Infinity" (JFloat (FInf true)));
        [reflexivity|].
      cbn [app] in *. unfold match_number in *.
      destruct (if (c =? 45)%N then (true, r) else (false, c :: r))
        as [neg s1].
      destruct (match_integer s1) as [[ints r1]|]; [|reflexivity].
      destruct (match_frac r1) as [fracs r2].
      destruct (match_exp r2) as [ex r3].
      destruct fracs, ex; try reflexivity.
      destruct (Nat.leb_spec (length ints) digits); [|congruence].
      destruct (Nat.leb_spec (length ints) digits'); [reflexivity | lia].
    + intros room room' s acc Hr H1 H2. cbn [object_loop] in *.
      destruct s as [|q r]; [reflexivity|].
      destruct (q =? 34)%N; [|reflexivity].
      destruct (scanstring (S (length r)) r []) as [key r1| | | |];
        try reflexivity.
      destruct (skip_ws r1) as [|colon r2]; [reflexivity|].
      destruct (colon =? 58)%N; [|reflexivity].
      destruct (scan_once digits f room (skip_ws r2)) as [v r3| | | |] eqn:Ev;
        try congruence;
        rewrite (IHs room room' (skip_ws r2) Hr) by congruence; rewrite Ev;
        try reflexivity.
      destruct (skip_ws r3) as [|d r4]; [reflexivity|].
      destruct (d =? 125)%N; [reflexivity|].
      destruct (d =? 44)%N; [|reflexivity]. apply IHo; assumption.
    + intros room room' s acc Hr H1 H2. cbn [array_loop] in *.
      destruct (scan_once digits f room s) as [v r1| | | |] eqn:Ev;
        try congruence;
        rewrite (IHs room room' s Hr) by congruence; rewrite Ev;
        try reflexivity.
      destruct (skip_ws r1) as [|d r2]; [reflexivity|].
      destruct (d =? 93)%N; [reflexivity|].
      destruct (d =? 44)%N; [|reflexivity]. apply IHa; assumption.
Qed.

End DecoderBudget.
(** ** Facts about the string operations *)

Section StrFacts.

Lemma char_eqb_eq (a b : char) : char_eqb a b = true <-> a = b.
Proof. unfold char_eqb. apply N.eqb_eq. Qed.

Lemma char_eqb_refl (a : char) : char_eqb a a = true.
Proof. apply char_eqb_eq. reflexivity. Qed.

Lemma str_eqb_eq (a b : str) : str_eqb a b = true <-> a = b.
Proof.
  revert b. induction a as [|x a IH]; intros [|y b]; simpl; split;
    try congruence; try reflexivity.
  - intros H. apply andb_true_iff in H as [H1 H2].
    apply char_eqb_eq in H1. apply IH in H2. congruence.
  - intros H. injection H as -> ->. rewrite char_eqb_refl. simpl.
    apply IH. reflexivity.
Qed.

Lemma startswith_app (p s : str) : startswith (p ++ s) p = true.
Proof.
  induction p as [|a p IH]; simpl; [reflexivity|].
  rewrite char_eqb_refl. exact IH.
Qed.

Lemma startswith_true (s p : str) :
  startswith s p = true -> exists r, s = p ++ r.
Proof.
  revert s. induction p as [|a p IH]; intros s H; simpl in *.
  - exists s. reflexivity.
  - destruct s as [|b s]; [discriminate|].
    apply andb_true_iff in H as [H1 H2]. apply char_eqb_eq in H1. subst b.
    destruct (IH _ H2) as [r ->]. exists r. reflexivity.
Qed.

Lemma startswith_head (c d : char) (s p : str) :
  c <> d -> startswith (c :: s) (d :: p) = false.
Proof.
  intros H. simpl. destruct (char_eqb c d) eqn:E; [|reflexivity].
  apply char_eqb_eq in E. contradiction.
Qed.

Lemma endswith_app (s p : str) : endswith (s ++ p) p = true.
Proof. unfold endswith. rewrite rev_app_distr. apply startswith_app. Qed.

(** [find] returns [-1] or an index inside the text. *)
Lemma find_range (s sub : str) :
  find s sub = (-1)%Z \/ (0 <= find s sub <= Z.of_nat (length s))%Z.
Proof.
  induction s as [|c s IH]; simpl.
  - destruct (startswith [] sub); [right; lia | left; reflexivity].
  - destruct (startswith (c :: s) sub); [right; lia|].
    destruct IH as [-> | IH]; [left; reflexivity|].
    destruct (Z.eqb_spec (find s sub) (-1)); [left; reflexivity | right; lia].
Qed.

Lemma find_startswith (s sub : str) :
  startswith s sub = true -> find s sub = 0%Z.
Proof. intros H. destruct s; simpl; rewrite H; reflexivity. Qed.

(** A character that does not occur is not found. *)
Lemma find_char_absent (s : str) (c : char) :
  ~ In c s -> find s [c] = (-1)%Z.
Proof.
  induction s as [|d s IH]; intros H; simpl; [reflexivity|].
  destruct (char_eqb d c) eqn:E.
  - apply char_eqb_eq in E. subst. exfalso. apply H. left. reflexivity.
  - simpl. rewrite IH; [reflexivity|]. intros Hin. apply H. right. exact Hin.
Qed.

(** The first occurrence of a character. *)
Lemma find_char_first (a b : str) (c : char) :
  ~ In c a -> find (a ++ c :: b) [c] = Z.of_nat (length a).
Proof.
  induction a as [|d a IH]; intros H.
  - simpl. rewrite char_eqb_refl. reflexivity.
  - change ((d :: a) ++ c :: b) with (d :: (a ++ c :: b)).
    cbn [find startswith].
    destruct (char_eqb d c) eqn:E.
    + apply char_eqb_eq in E. subst. exfalso. apply H. left. reflexivity.
    + cbn [andb]. rewrite IH by (intros Hin; apply H; right; exact Hin).
      destruct (Z.eqb_spec (Z.of_nat (length a)) (-1)); [lia|].
      cbn [length]. lia.
Qed.

Lemma slice_from_app (a b : str) :
  slice_from (a ++ b) (Z.of_nat (length a)) = b.
Proof.
  unfold slice_from, slice_index.
  destruct (Z.ltb_spec (Z.of_nat (length a)) 0); [lia|].
  rewrite Nat2Z.id, length_app, Nat.min_l by lia.
  rewrite skipn_app, Nat.sub_diag, skipn_all. reflexivity.
Qed.

Lemma slice_to_app (a b : str) :
  slice_to (a ++ b) (Z.of_nat (length a)) = a.
Proof.
  unfold slice_to, slice_index.
  destruct (Z.ltb_spec (Z.of_nat (length a)) 0); [lia|].
  rewrite Nat2Z.id, length_app, Nat.min_l by lia.
  rewrite firstn_app, Nat.sub_diag, firstn_all. simpl.
  apply app_nil_r.
Qed.

(** [s[:-n]] drops the last [n] characters. *)
Lemma slice_to_neg (a b : str) :
  b <> [] -> slice_to (a ++ b) (- Z.of_nat (length b)) = a.
Proof.
  intros Hb. unfold slice_to, slice_index.
  assert (0 < length b)%nat by (destruct b; [congruence | simpl; lia]).
  destruct (Z.ltb_spec (- Z.of_nat (length b)) 0); [|lia].
  rewrite length_app.
  replace (Z.to_nat _) with (length a) by lia.
  rewrite firstn_app, Nat.sub_diag, firstn_all. simpl.
  apply app_nil_r.
Qed.

(** *** Trimming *)

Variable p : char -> bool.

Lemma lstrip_by_keep (c : char) (s : str) :
  p c = false -> lstrip_by p (c :: s) = c :: s.
Proof. intros H. simpl. rewrite H. reflexivity. Qed.

Lemma lstrip_by_drop (w s : str) :
  forallb p w = true -> lstrip_by p (w ++ s) = lstrip_by p s.
Proof.
  induction w as [|c w IH]; intros H; simpl in *; [reflexivity|].
  apply andb_true_iff in H as [H1 H2]. rewrite H1. apply IH, H2.
Qed.

Lemma rstrip_by_keep (s : str) (c : char) :
  p c = false -> rstrip_by p (s ++ [c]) = s ++ [c].
Proof.
  intros H. unfold rstrip_by. rewrite rev_app_distr. simpl.
  rewrite H. simpl. rewrite rev_involutive. reflexivity.
Qed.

Lemma rstrip_by_drop (s w : str) :
  forallb p w = true -> rstrip_by p (s ++ w) = rstrip_by p s.
Proof.
  intros H. unfold rstrip_by. rewrite rev_app_distr.
  rewrite lstrip_by_drop; [reflexivity|].
  rewrite forallb_forall in *. intros x Hx. apply H.
  apply in_rev. exact Hx.
Qed.

(** A text whose first and last characters are kept is left as it is. *)
Lemma strip_by_clean (c d : char) (s : str) :
  p c = false -> p d = false ->
  strip_by p (c :: s ++ [d]) = c :: s ++ [d].
Proof.
  intros Hc Hd. unfold strip_by. rewrite lstrip_by_keep by exact Hc.
  change (c :: s ++ [d]) with ((c :: s) ++ [d]).
  apply rstrip_by_keep, Hd.
Qed.

Lemma strip_by_single (c : char) :
  p c = false -> strip_by p [c] = [c].
Proof.
  intros Hc. unfold strip_by. rewrite lstrip_by_keep by exact Hc.
  apply (rstrip_by_keep [] c Hc).
Qed.

(** Trimming never removes a first character that is kept. *)
Lemma rstrip_by_head (c : char) (s : str) :
  p c = false -> exists s', rstrip_by p (c :: s) = c :: s'.
Proof.
  intros Hc. revert c Hc.
  induction s as [|d s IH] using rev_ind; intros c Hc.
  - exists []. apply (rstrip_by_keep [] c Hc).
  - destruct (p d) eqn:Hd.
    + change (c :: s ++ [d]) with ((c :: s) ++ [d]).
      rewrite rstrip_by_drop by (simpl; rewrite Hd; reflexivity).
      apply IH, Hc.
    + exists (s ++ [d]).
      change (c :: s ++ [d]) with ((c :: s) ++ [d]).
      apply rstrip_by_keep, Hd.
Qed.

Lemma strip_by_head (c : char) (s : str) :
  p c = false -> exists s', strip_by p (c :: s) = c :: s'.
Proof.
  intros Hc. unfold strip_by. rewrite lstrip_by_keep by exact Hc.
  apply rstrip_by_head, Hc.
Qed.

End StrFacts.

(** *** [split] *)

Section SplitFacts.

Variable sep : str.
Hypothesis sep_nonempty : sep <> [].

Lemma find_empty_text : find [] sep = (-1)%Z.
Proof. destruct sep; [congruence | reflexivity]. Qed.

(** A cut leaves a shorter text. *)
Lemma cut_shorter (s : str) :
  find s sep <> (-1)%Z ->
  (length (slice_from s (find s sep + Z.of_nat (length sep))) < length s)%nat.
Proof.
  intros H. destruct (find_range s sep) as [E | R]; [contradiction|].
  assert (0 < length sep)%nat
    by (destruct sep; [congruence | simpl; lia]).
  assert (0 < length s)%nat.
  { destruct s; [rewrite find_empty_text in H; congruence | simpl; lia]. }
  unfold slice_from, slice_index.
  destruct (Z.ltb_spec (find s sep + Z.of_nat (length sep)) 0); [lia|].
  rewrite length_skipn. lia.
Qed.

Lemma split_fuel_absent (f : nat) (s : str) :
  find s sep = (-1)%Z -> split_fuel f s sep = [s].
Proof. intros E. destruct f; cbn [split_fuel]; rewrite E; reflexivity. Qed.

Lemma split_fuel_cut (f : nat) (s : str) :
  find s sep <> (-1)%Z ->
  split_fuel (S f) s sep =
  slice_to s (find s sep)
  :: split_fuel f (slice_from s (find s sep + Z.of_nat (length sep))) sep.
Proof.
  intros E. cbn [split_fuel].
  destruct (Z.eqb_spec (find s sep) (-1)); [contradiction | reflexivity].
Qed.

(** The rounds [split] allows are enough: more rounds change nothing. *)
Lemma split_fuel_enough (f1 f2 : nat) (s : str) :
  (length s <= f1)%nat -> (length s <= f2)%nat ->
  split_fuel f1 s sep = split_fuel f2 s sep.
Proof.
  revert f2 s. induction f1 as [|f1 IH]; intros f2 s H1 H2.
  - destruct s; [|simpl in H1; lia].
    rewrite !split_fuel_absent by apply find_empty_text. reflexivity.
  - destruct (Z.eq_dec (find s sep) (-1)) as [E | E].
    + rewrite !split_fuel_absent by exact E. reflexivity.
    + pose proof (cut_shorter s E) as L.
      destruct f2 as [|f2]; [lia|].
      rewrite !split_fuel_cut by exact E.
      f_equal. apply IH; lia.
Qed.

Lemma split_unfold (s : str) :
  split s sep =
  if (find s sep =? -1)%Z then [s]
  else slice_to s (find s sep)
       :: split (slice_from s (find s sep + Z.of_nat (length sep))) sep.
Proof.
  unfold split at 1.
  destruct (Z.eqb_spec (find s sep) (-1)) as [E | E].
  - apply split_fuel_absent, E.
  - pose proof (cut_shorter s E) as L.
    destruct (length s) as [|n] eqn:Hn; [lia|].
    rewrite split_fuel_cut by exact E.
    f_equal. unfold split. apply split_fuel_enough; lia.
Qed.

Lemma split_absent (s : str) :
  find s sep = (-1)%Z -> split s sep = [s].
Proof. intros E. rewrite split_unfold, E. reflexivity. Qed.


(** A text that begins with the separator: an empty first piece, then the
    pieces of what follows. *)
Lemma split_leading (rest : str) :
  split (sep ++ rest) sep = [] :: split rest sep.
Proof.
  rewrite split_unfold.
  rewrite (find_startswith _ _ (startswith_app sep rest)).
  simpl (0 =? -1)%Z. cbv iota.
  rewrite Z.add_0_l, slice_from_app.
  pose proof (slice_to_app [] (sep ++ rest)) as E. simpl in E.
  rewrite E. reflexivity.
Qed.

End SplitFacts.

(** *** The extractor's constants *)

Lemma marker_nonempty : marker <> [].
Proof. discriminate. Qed.

Lemma isspace_backtick : isspace 96%N = false.
Proof. reflexivity. Qed.




(** *** Trimming a text that is already trimmed *)

Lemma strip_by_untrimmable (p : char -> bool) (s : str) :
  untrimmable p s -> strip_by p s = s.
Proof.
  intros [Hh Hl]. destruct s as [|c s]; [reflexivity|].
  destruct s as [|d s] using rev_ind.
  - apply strip_by_single. apply (Hh c []). reflexivity.
  - apply strip_by_clean.
    + apply (Hh c (s ++ [d])). reflexivity.
    + apply (Hl (c :: s) d). reflexivity.
Qed.

Lemma strip_object_text (body : str) :
  strip (object_text body) = object_text body.
Proof. apply strip_by_clean; reflexivity. Qed.

Lemma strip_chars_object_text (body : str) :
  strip_chars (object_text body) (u ": 
") = object_text body.
Proof. apply strip_by_clean; reflexivity. Qed.

(** *** The fenced block *)

(** A fenced block with a language-tag line around a JSON object: the
    fence step returns the object text. *)
Lemma strip_fence_fenced (tag body : str) :
  ~ In 10%N tag ->
  strip_fence (fence ++ tag ++ newline ++ object_text body ++ newline ++ fence)
  = object_text body.
Proof.
  intros Htag. unfold strip_fence.
  rewrite startswith_app.
  assert (Hnl : ~ In 10%N (fence ++ tag)).
  { intros H. apply in_app_or in H as [H | H]; [|contradiction].
    simpl in H. intuition discriminate. }
  replace (fence ++ tag ++ newline ++ object_text body ++ newline ++ fence)
    with ((fence ++ tag) ++ 10%N :: (object_text body ++ newline ++ fence))
    by (rewrite <- app_assoc; reflexivity).
  rewrite (find_char_first (fence ++ tag) _ 10%N Hnl).
  destruct (Z.eqb_spec (Z.of_nat (length (fence ++ tag))) (-1)); [lia|].
  cbn [negb]. rewrite slice_from_app.
  assert (Hs : strip (10%N :: object_text body ++ newline ++ fence)
               = (object_text body ++ newline) ++ fence).
  { unfold strip, strip_by.
    change (10%N :: object_text body ++ newline ++ fence)
      with ([10%N] ++ object_text body ++ newline ++ fence).
    rewrite lstrip_by_drop by reflexivity.
    unfold object_text at 1. cbn [app].
    rewrite lstrip_by_keep by reflexivity.
    replace (123%N :: (body ++ [125%N]) ++ newline ++ fence)
      with ((123%N :: body ++ [125%N; 10%N; 96%N; 96%N]) ++ [96%N])
      by (unfold object_text, newline, fence; cbn [app];
          rewrite <- !app_assoc; reflexivity).
    rewrite rstrip_by_keep by reflexivity.
    unfold object_text, newline, fence; cbn [app].
    rewrite <- !app_assoc. reflexivity. }
  rewrite Hs, endswith_app.
  change (-3)%Z with (- Z.of_nat (length fence))%Z.
  rewrite slice_to_neg by discriminate.
  unfold strip, strip_by.
  unfold object_text at 1. cbn [app].
  rewrite lstrip_by_keep by reflexivity.
  change (123%N :: (body ++ [125%N]) ++ newline)
    with (object_text body ++ newline).
  rewrite (rstrip_by_drop isspace) by reflexivity.
  apply (rstrip_by_keep isspace (123%N :: body)). reflexivity.
Qed.

(** Marker, then a fenced block around a JSON object, the marker not
    occurring again: the cleaned text is the object text. *)
Lemma cleaned_marker_fenced (tag body : str) :
  ~ In 10%N tag ->
  let block :=
    fence ++ tag ++ newline ++ object_text body ++ newline ++ fence in
  contains block marker = false ->
  cleaned (marker ++ block) = Return (object_text body).
Proof.
  intros Htag block Hm. unfold cleaned, after_marker.
  assert (Hin : contains (marker ++ block) marker = true).
  { unfold contains.
    rewrite (find_startswith _ _ (startswith_app marker block)).
    reflexivity. }
  rewrite Hin, (split_leading marker marker_nonempty).
  rewrite split_absent.
  2: exact marker_nonempty.
  2: { unfold contains in Hm. apply negb_false_iff in Hm.
       apply Z.eqb_eq in Hm. exact Hm. }
  cbn [nth_error].
  assert (Hb : strip block = block).
  { subst block.
    replace (fence ++ tag ++ newline ++ object_text body ++ newline ++ fence)
      with (96%N :: ([96%N; 96%N] ++ tag ++ newline ++ object_text body
                      ++ newline ++ [96%N; 96%N]) ++ [96%N])
      by (unfold fence, newline; cbn [app];
          repeat (rewrite <- app_assoc; cbn [app]); reflexivity).
    apply strip_by_clean; reflexivity. }
  rewrite Hb. subst block.
  rewrite strip_fence_fenced by exact Htag.
  rewrite strip_chars_object_text. reflexivity.
Qed.

(** A reply that is the marker and a fenced block around a JSON object, the
    marker occurring once: the outcome is that of decoding the object
    text. *)
Lemma parse_marker_fenced {B : Builtins} (tag body : str) :
  ~ In 10%N tag ->
  let block :=
    fence ++ tag ++ newline ++ object_text body ++ newline ++ fence in
  contains block marker = false ->
  snd (_parse_response (reply (marker ++ block))) =
  match json_loads (object_text body) with
  | Return v => Return v
  | Raise e => Raise (ValueError parse_failed (Some e))
  end.
Proof.
  intros Htag block Hm.
  pose proof (cleaned_marker_fenced tag body Htag Hm) as E.
  cbv zeta in E. subst block.
  unfold _parse_response, reply. cbn [choices message_of content].
  rewrite E.
  destruct (json_loads (object_text body)) as [v | []]; reflexivity.
Qed.

(** The scenario of the fenced reply: [{"a":1}] inside a [json] block. *)
Example parse_fenced_scenario {B : Builtins} :
  snd (_parse_response
         (reply (fence ++ u "json" ++ newline
                 ++ object_text (dq ++ u "a" ++ dq ++ u ":1")
                 ++ newline ++ fence)))
  = Return (JObj [(u "a", JInt 1)]).
Proof. vm_compute. reflexivity. Qed.

(** ** The claims on the extractor *)

(** C1. A reply made of the marker, a fenced block with a language tag
    and a JSON object is to yield the record of the object.  At the reply
    whose object holds the marker in a string value, the object decodes to
    a record by itself, but the extractor keeps only the text up to the
    second marker, fails to decode it and raises [ValueError]. *)
Theorem fenced_object_with_marker_raises {B : Builtins} :
  json_loads object_with_marker = Return (JObj [(u "a", JStr marker)])
  /\ snd (_parse_response
            (reply (marker ++ fence ++ u "json" ++ newline
                    ++ object_with_marker ++ newline ++ fence)))
     = Raise (ValueError parse_failed
                (Some (JSONDecodeError
                         (u "{" ++ dq ++ u "a" ++ dq ++ u ":" ++ dq)))).
Proof. split; vm_compute; reflexivity. Qed.

(** C2. The text after the first marker is to be kept whole.  At the reply
    [x<출력 결과>{"a":"<출력 결과>"}] the text after the first marker is the
    object text, which decodes to a record; [split(...)[1]] keeps only the
    piece up to the second marker, and the extractor raises. *)
Theorem second_marker_cuts_remainder {B : Builtins} :
  let content := u "x" ++ marker ++ object_with_marker in
  find content marker = 1%Z
  /\ slice_from content (1 + Z.of_nat (length marker)) = object_with_marker
  /\ json_loads object_with_marker = Return (JObj [(u "a", JStr marker)])
  /\ after_marker content
     = Return (u "{" ++ dq ++ u "a" ++ dq ++ u ":" ++ dq)
  /\ snd (_parse_response (reply content))
     = Raise (ValueError parse_failed
                (Some (JSONDecodeError
                         (u "{" ++ dq ++ u "a" ++ dq ++ u ":" ++ dq)))).
Proof. repeat split; vm_compute; reflexivity. Qed.





(** The two limits, with the room of [plain_builtins]: 994 brackets inside
    one another are decoded and 995 are not, whether they are closed or
    not; an integer of 4300 digits is converted, with its sign, and one of
    4301 is not, unless a fraction makes it a float. *)
Example json_loads_limits :
  let loads := @json_loads plain_builtins in
  let decoded (s : str) :=
    match loads s with Return _ => true | Raise _ => false end in
  decoded (repeat 91%N 994 ++ repeat 93%N 994) = true
  /\ loads (repeat 91%N 995 ++ repeat 93%N 995) = Raise RecursionError
  /\ loads (repeat 91%N 994)
     = Raise (JSONDecodeError (repeat 91%N 994))
  /\ loads (repeat 91%N 3000) = Raise RecursionError
  /\ decoded (u "-" ++ repeat 49%N 4300) = true
  /\ loads (repeat 49%N 4301) = Raise DigitLimitError
  /\ decoded (repeat 49%N 4301 ++ u ".5") = true.
Proof. cbv zeta. repeat split; vm_compute; reflexivity. Qed.

(** A reply of three thousand opening brackets, and one of an integer of
    4301 digits: the inner handler is passed over, the attempted text is
    not printed, and the [ValueError] is chained to the error of the
    limit. *)
Example limits_reported :
  let deep := repeat 91%N 3000 in
  let long := repeat 49%N 4301 in
  @_parse_response plain_builtins (reply deep)
  = ([ Print [Lit (u "원본 content: "); Val (SStr deep)];
       Print [Lit (u "응답 파싱 중 오류 발생: "); Val (SExn RecursionError)];
       Print [Lit (u "원본 응답: "); Val (SStr deep)] ],
     Raise (ValueError parse_failed (Some RecursionError)))
  /\ @_parse_response plain_builtins (reply long)
     = ([ Print [Lit (u "원본 content: "); Val (SStr long)];
          Print [Lit (u "응답 파싱 중 오류 발생: "); Val (SExn DigitLimitError)];
          Print [Lit (u "원본 응답: "); Val (SStr long)] ],
        Raise (ValueError parse_failed (Some DigitLimitError))).
Proof. cbv zeta. split; vm_compute; reflexivity. Qed.

Lemma ends_clean_untrimmable (p : char -> bool) (s : str) :
  ends_clean p s = true -> untrimmable p s.
Proof.
  unfold ends_clean. intros H. apply andb_true_iff in H as [H1 H2]. split.
  - intros c r ->. apply negb_true_iff, H1.
  - intros r c ->. rewrite rev_app_distr in H2. apply negb_true_iff, H2.
Qed.

Lemma untrimmable_weaken (p q : char -> bool) (s : str) :
  (forall c, p c = false -> q c = false) ->
  untrimmable p s -> untrimmable q s.
Proof.
  intros Hpq [Hh Hl]. split.
  - intros c r E. apply Hpq, (Hh c r E).
  - intros r c E. apply Hpq, (Hl r c E).
Qed.

(** C7. A text with no marker, no leading fence and no white space or colon
    at either end is left unchanged by the marker, fence and trimming
    passes; so cleaning its own result again changes nothing. *)
Theorem cleaned_fixed_point (t : str) :
  contains t marker = false ->
  startswith t fence = false ->
  ends_clean trimmed_char t = true ->
  cleaned t = Return t
  /\ (forall t', cleaned t = Return t' -> cleaned t' = Return t').
Proof.
  intros Hm Hf He.
  assert (Hc : cleaned t = Return t).
  { apply ends_clean_untrimmable in He.
    unfold cleaned, after_marker, strip_fence. rewrite Hm.
    assert (Hs : strip t = t).
    { apply strip_by_untrimmable.
      apply (untrimmable_weaken trimmed_char isspace t); [|exact He].
      intros c H. apply orb_false_iff in H. apply H. }
    rewrite Hs, Hf. f_equal.
    apply strip_by_untrimmable.
    apply (untrimmable_weaken trimmed_char _ t); [|exact He].
    intros c H. apply orb_false_iff in H. apply H. }
  split; [exact Hc|].
  intros t' Ht'. rewrite Hc in Ht'. injection Ht' as <-. exact Hc.
Qed.

(** The clean text [{"a":1}]. *)
Lemma cleaned_fixed_point_witness :
  let t := object_text (dq ++ u "a" ++ dq ++ u ":1") in
  cleaned t = Return t
  /\ (forall t', cleaned t = Return t' -> cleaned t' = Return t').
Proof.
  apply (cleaned_fixed_point (object_text (dq ++ u "a" ++ dq ++ u ":1")));
    vm_compute; reflexivity.
Defined.

(** *** A fence without a newline *)

Lemma json_loads_empty {B : Builtins} :
  json_loads [] = Raise (JSONDecodeError []).
Proof. reflexivity. Qed.

Lemma json_loads_backtick {B : Builtins} (s : str) :
  json_loads (96%N :: s) = Raise (JSONDecodeError (96%N :: s)).
Proof. reflexivity. Qed.

Lemma contains_false (s sub : str) :
  contains s sub = false -> find s sub = (-1)%Z.
Proof.
  unfold contains. intros H. apply negb_false_iff in H.
  apply Z.eqb_eq, H.
Qed.

Lemma strip_fence_no_newline (t : str) :
  startswith t fence = true ->
  contains t newline = false ->
  strip_fence t = if endswith t fence then strip (slice_to t (-3)) else t.
Proof.
  intros Hf Hn. unfold strip_fence. rewrite Hf.
  rewrite (contains_false t newline Hn). reflexivity.
Qed.

(** With the opening fence kept, the text handed to the decoder is empty or
    begins with a backtick. *)
Lemma strip_fence_no_newline_shape (t : str) :
  startswith t fence = true ->
  contains t newline = false ->
  let x := strip_chars (strip_fence t) (u ": 
") in
  x = [] \/ exists r, x = 96%N :: r.
Proof.
  intros Hf Hn x. subst x.
  rewrite (strip_fence_no_newline t Hf Hn).
  destruct (startswith_true t fence Hf) as [r ->].
  destruct (endswith (fence ++ r) fence).
  - unfold slice_to, slice_index. cbn [Z.ltb Z.compare].
    destruct r as [|c r].
    + left. reflexivity.
    + right.
      replace (Z.to_nat (Z.max 0 (-3 + Z.of_nat (length (fence ++ c :: r)))))
        with (S (length r))
        by (rewrite length_app; cbn [length fence]; lia).
      cbn [fence app firstn].
      destruct (strip_by_head isspace 96%N
                  (firstn (length r) (96%N :: 96%N :: c :: r)) eq_refl)
        as [s1 E1].
      unfold strip. rewrite E1.
      apply (strip_by_head _ 96%N s1). reflexivity.
  - right. cbn [fence app].
    apply (strip_by_head _ 96%N). reflexivity.
Qed.

(** C10, as stated: with a leading fence and no newline, the fence step
    removes nothing.  At [```{}```] it removes the trailing fence. *)
Lemma trailing_fence_removed_without_newline :
  let t := fence ++ u "{}" ++ fence in
  startswith t fence = true
  /\ contains t newline = false
  /\ strip_fence t = fence ++ u "{}"
  /\ strip_fence t <> t.
Proof.
  cbv zeta. split; [vm_compute; reflexivity|].
  split; [vm_compute; reflexivity|].
  split; [vm_compute; reflexivity|].
  vm_compute. discriminate.
Qed.

(** C10, amended.  With a leading fence and no newline, the first-line drop
    is skipped; a text that does not end with the fence is left as it is,
    one that does loses its last three characters and is trimmed; in both
    cases the text handed to the decoder fails to decode. *)
Theorem fence_without_newline {B : Builtins} (t : str) :
  startswith t fence = true ->
  contains t newline = false ->
  (endswith t fence = false -> strip_fence t = t)
  /\ (endswith t fence = true -> strip_fence t = strip (slice_to t (-3)))
  /\ json_loads (strip_chars (strip_fence t) (u ": 
"))
     = Raise (JSONDecodeError (strip_chars (strip_fence t) (u ": 
"))).
Proof.
  intros Hf Hn. split; [|split].
  - intros He. rewrite (strip_fence_no_newline t Hf Hn), He. reflexivity.
  - intros He. rewrite (strip_fence_no_newline t Hf Hn), He. reflexivity.
  - destruct (strip_fence_no_newline_shape t Hf Hn) as [E | [r E]];
      rewrite E.
    + apply json_loads_empty.
    + apply json_loads_backtick.
Qed.

(** The text [```{}```]: a fence, no newline. *)
Lemma fence_without_newline_witness :
  let t := fence ++ u "{}" ++ fence in
  (endswith t fence = false -> strip_fence t = t)
  /\ (endswith t fence = true -> strip_fence t = strip (slice_to t (-3)))
  /\ @json_loads plain_builtins (strip_chars (strip_fence t) (u ": 
"))
     = Raise (JSONDecodeError (strip_chars (strip_fence t) (u ": 
"))).
Proof.
  apply (@fence_without_newline plain_builtins (fence ++ u "{}" ++ fence)).
  - vm_compute. reflexivity.
  - vm_compute. reflexivity.
Defined.

(** ** The prompts *)

Example gomin_head_length : length gomin_head = 433%nat.
Proof. reflexivity. Qed.

Example gomin_tail_length : length gomin_tail = 168%nat.
Proof. reflexivity. Qed.

Example advice_head_length : length advice_head = 244%nat.
Proof. reflexivity. Qed.

Example advice_tail_length : length advice_tail = 334%nat.
Proof. reflexivity. Qed.

Lemma gomin_head_fence : gomin_head = firstn 430 gomin_head ++ fence.
Proof. vm_compute. reflexivity. Qed.

Lemma gomin_tail_fence : gomin_tail = fence ++ skipn 3 gomin_tail.
Proof. vm_compute. reflexivity. Qed.

Section PipelineFacts.
Context {B : Builtins}.

(** [process_gomin] sends one request, the classification request, whatever
    the world answers. *)
Lemma process_gomin_request (self : GongjaProcessor) (text : str) (w : world) :
  requests (fst (process_gomin self text w))
  = requests w ++ [classification_request self text].
Proof.
  unfold process_gomin, bindM, _call_gpt, parse_response, ret.
  fold (classification_request self text).
  destruct (gpt w (length (requests w)) (classification_request self text))
    as [[r t] | e]; cbn [fst snd]; [|reflexivity].
  destruct (_parse_response r) as [out [v | e]]; reflexivity.
Qed.

(** C8. The classification prompt is a fixed text, the worry between two
    fences, a fixed text: the same worry gives the same prompt, and the
    request sent to the model is the same in every world. *)
Theorem classification_prompt_verbatim :
  exists before after : str,
    (forall text,
        _get_gomin_template text = before ++ fence ++ text ++ fence ++ after)
    /\ (forall self text w1 w2,
           last (requests (fst (process_gomin self text w1))) []
           = last (requests (fst (process_gomin self text w2))) [])
    /\ (forall self text w,
           exists system assistant,
             last (requests (fst (process_gomin self text w))) []
             = [ system; assistant;
                 {| role := u "user";
                    msg_content := JStr (before ++ fence ++ text ++ fence
                                         ++ after) |} ]).
Proof.
  exists (firstn 430 gomin_head), (skipn 3 gomin_tail).
  assert (E : forall text,
             _get_gomin_template text
             = firstn 430 gomin_head ++ fence ++ text ++ fence
               ++ skipn 3 gomin_tail).
  { intros text. unfold _get_gomin_template.
    rewrite gomin_head_fence at 1. rewrite gomin_tail_fence at 1.
    rewrite <- !app_assoc. reflexivity. }
  split; [exact E|]. split.
  - intros self text w1 w2. rewrite !process_gomin_request, !last_last.
    reflexivity.
  - intros self text w. rewrite process_gomin_request, last_last.
    unfold classification_request. rewrite E. eexists. eexists. reflexivity.
Qed.

End PipelineFacts.

(** ** The log row *)

(** C6, as stated: the row reproduces every field of both records, so two
    sessions with the same row have the same records.  Two sessions whose
    advice records differ in the restated worry of [STEP-1] have the same
    row. *)
Lemma log_row_loses_restatement :
  let d1 := example_session (u "회사에서의 실수") in
  let d2 := example_session (u "동료와의 다툼") in
  row_data (u "2024-03-09 14:05:00") d1 = row_data (u "2024-03-09 14:05:00") d2
  /\ (exists row, row_data (u "2024-03-09 14:05:00") d1 = Return row)
  /\ advice_result d1 <> advice_result d2.
Proof.
  cbv zeta. split; [vm_compute; reflexivity|].
  split; [eexists; vm_compute; reflexivity|].
  vm_compute. discriminate.
Qed.

(** C6, amended.  The row holds, unchanged, the time stamp, the source,
    the address, the fields [STEP-1], [STEP-3.요약], [STEP-4.부족함],
    [STEP-4.하위개념], [STEP-4.이유] of the classification record, the
    fields [STEP-2], [STEP-3], [STEP-4] of the advice record and the two
    latencies. *)
Theorem log_row_reproduces_fields (timestamp : str) (data : session)
  (step3 step4 original_concern concern_summary lacking_aspect concept
   concept_reason selected_quote quote_reason advice : json) :
  getitem (gomin_result data) (u "STEP-1") = Return original_concern ->
  getitem (gomin_result data) (u "STEP-3") = Return step3 ->
  getitem step3 (u "요약") = Return concern_summary ->
  getitem (gomin_result data) (u "STEP-4") = Return step4 ->
  getitem step4 (u "부족함") = Return lacking_aspect ->
  getitem step4 (u "하위개념") = Return concept ->
  getitem step4 (u "이유") = Return concept_reason ->
  getitem (advice_result data) (u "STEP-2") = Return selected_quote ->
  getitem (advice_result data) (u "STEP-3") = Return quote_reason ->
  getitem (advice_result data) (u "STEP-4") = Return advice ->
  row_data timestamp data
  = Return (log_row timestamp data original_concern concern_summary
              lacking_aspect concept concept_reason selected_quote
              quote_reason advice).
Proof.
  intros H1 H3 Hs H4 Hl Hc Hr A2 A3 A4. unfold row_data, bind.
  rewrite H1, H3, Hs, H4, Hl, Hc, Hr, A2, A3, A4. reflexivity.
Qed.

(** The example session. *)
Lemma log_row_reproduces_fields_witness :
  row_data (u "2024-03-09 14:05:00") (example_session (u "회사에서의 실수"))
  = Return (log_row (u "2024-03-09 14:05:00")
              (example_session (u "회사에서의 실수"))
              (JStr (u "오늘 회사에서 실수를 해서 너무 속상하다"))
              (JStr (u "회사에서의 실수"))
              (JStr (u "자신감")) (JStr (u "용"))
              (JStr (u "두려움을 이겨야 하네"))
              (JStr (u "학이-1: 배우고 익히면 기쁘다"))
              (JStr (u "배움으로 실수를 넘어서네"))
              (JStr (u "실수에서 배우게"))).
Proof.
  apply (log_row_reproduces_fields _ _
           (JObj [(u "요약", JStr (u "회사에서의 실수"))])
           (JObj [ (u "부족함", JStr (u "자신감"));
                   (u "하위개념", JStr (u "용"));
                   (u "이유", JStr (u "두려움을 이겨야 하네")) ]));
    vm_compute; reflexivity.
Defined.

(** ** The pipeline *)

Section ConcernFacts.
Context {B : Builtins}.

(** C4. When the record the classification stage extracts has a false
    [STEP-2], the pipeline returns [None] after that one request: no
    further request, no passage drawn, no log row, no clock reading, no
    mail. *)
Theorem not_a_worry_stops (processor : GongjaProcessor)
  (concern email source : str) (w : world)
  (r : response) (t : float) (out : list event) (gomin_result is_worry : json) :
  gpt w (length (requests w)) (classification_request processor concern)
  = Return (r, t) ->
  _parse_response r = (out, Return gomin_result) ->
  getitem gomin_result (u "STEP-2") = Return is_worry ->
  truthy is_worry = false ->
  exists w',
    process_and_save_concern processor concern email source w
    = (w', Return None)
    /\ requests w' = requests w ++ [classification_request processor concern]
    /\ logs w' = logs w
    /\ rand_pos w' = rand_pos w
    /\ clock_reads w' = clock_reads w
    /\ deliveries w' = deliveries w
    /\ outbox w' = outbox w.
Proof.
  intros Hg Hp Hs Ht. eexists.
  unfold process_and_save_concern, process_gomin.
  fold (classification_request processor concern).
  unfold bindM, print, _call_gpt, parse_response, ret, lift.
  cbn [gpt requests set_stdout set_requests stdout fst snd].
  rewrite Hg. cbn [fst snd]. rewrite Hp.
  cbn [gpt requests set_stdout set_requests stdout fst snd].
  rewrite Hs, Ht. cbn [negb].
  split; [reflexivity|]. repeat split.
Qed.

End ConcernFacts.

(** A greeting, answered with a false [STEP-2]. *)
Lemma not_a_worry_stops_witness :
  exists w',
    @process_and_save_concern plain_builtins example_processor
      (u "안녕하세요") [] (u "console") example_world
    = (w', Return None)
    /\ requests w'
       = requests example_world
         ++ [classification_request example_processor (u "안녕하세요")]
    /\ logs w' = logs example_world
    /\ rand_pos w' = rand_pos example_world
    /\ clock_reads w' = clock_reads example_world
    /\ deliveries w' = deliveries example_world
    /\ outbox w' = outbox example_world.
Proof.
  apply (@not_a_worry_stops plain_builtins example_processor (u "안녕하세요")
           [] (u "console") example_world not_a_worry_reply 1.5%float
           (fst (@_parse_response plain_builtins not_a_worry_reply))
           (JObj [ (u "STEP-1", JStr (u "안녕하세요"));
                   (u "STEP-2", JBool false) ])
           (JBool false));
    vm_compute; reflexivity.
Defined.

(** ** Sampling and the advice prompt *)



Lemma sample_too_few {A} (rand : nat -> nat) (pos : nat) (population : list A)
  (k : Z) :
  (Z.of_nat (length population) < k)%Z ->
  sample rand pos population k = Raise (ValueError sample_error None).
Proof.
  intros H. unfold sample.
  destruct (Z.leb_spec k (Z.of_nat (length population))); [lia|].
  rewrite andb_false_r. reflexivity.
Qed.

Lemma sample_negative {A} (rand : nat -> nat) (pos : nat) (population : list A)
  (k : Z) :
  (k < 0)%Z ->
  sample rand pos population k = Raise (ValueError sample_error None).
Proof.
  intros H. unfold sample.
  destruct (Z.leb_spec 0 k); [lia|]. reflexivity.
Qed.

(** What [map_result] returns, item by item. *)
Lemma map_result_Forall2 {A C} (f : A -> result C) (l : list A) :
  forall out, map_result f l = Return out ->
              Forall2 (fun a b => f a = Return b) l out.
Proof.
  induction l as [|a l IH]; intros out H; cbn [map_result] in H.
  - injection H as <-. constructor.
  - unfold bind in H. destruct (f a) as [b|] eqn:Ea; [|discriminate].
    destruct (map_result f l) as [bs|] eqn:El; [|discriminate].
    injection H as <-. constructor; [exact Ea | apply IH; reflexivity].
Qed.

Lemma map_result_total {A C} (f : A -> result C) (l : list A) :
  Forall (fun a => exists b, f a = Return b) l ->
  exists out, map_result f l = Return out.
Proof.
  induction 1 as [|a l [b Hb] _ [out IH]]; cbn [map_result].
  - eexists. reflexivity.
  - unfold bind. rewrite Hb, IH. eexists. reflexivity.
Qed.

(** Every item [simplify] returns is a passage of three fields. *)
Lemma simplify_passage (item out : json) :
  simplify item = Return out ->
  exists section number text, out = passage section number text.
Proof.
  unfold simplify, bind. intros H.
  destruct (getitem item (u "편")) as [a|]; [|discriminate].
  destruct (getitem item (u "구절번호")) as [b|]; [|discriminate].
  destruct (getitem item (u "내용")) as [c|]; [|discriminate].
  injection H as <-. exists a, b, c. reflexivity.
Qed.

Lemma simplified_data_passages (data : json) (corpus : list json) :
  simplified_data data = Return corpus ->
  Forall (fun item => exists section number text,
              item = passage section number text) corpus.
Proof.
  unfold simplified_data, bind. intros H.
  destruct (getitem data (u "data")) as [entries|]; [|discriminate].
  destruct (iterate entries) as [items|]; [|discriminate].
  apply map_result_Forall2 in H.
  induction H as [|a b l out Hab _ IH]; constructor; [|exact IH].
  apply (simplify_passage a b Hab).
Qed.

Section AdvicePrompt.
Context {B : Builtins}.








End AdvicePrompt.


(** The prompt of the example world: two of the three passages. *)
Example advice_prompt_example :
  exists w' noneo,
    @_load_random_noneo plain_builtins 2 example_world = (w', Return noneo)
    /\ @_get_advice_template plain_builtins noneo
       = Return (advice_head
                 ++ u "['이인-3: 덕은 외롭지 않다', '학이-1: 배우고 익히면 기쁘다']"
                 ++ advice_tail).
Proof. eexists. eexists. split; vm_compute; reflexivity. Qed.

(** ** The subject filter *)

Lemma contains_cons (c : char) (s sub : str) :
  contains (c :: s) sub = startswith (c :: s) sub || contains s sub.
Proof.
  unfold contains. cbn [find].
  destruct (startswith (c :: s) sub); [reflexivity|]. cbn [orb].
  destruct (find_range s sub) as [E | R].
  - rewrite E. reflexivity.
  - destruct (Z.eqb_spec (find s sub) (-1)); [lia|].
    destruct (Z.eqb_spec (find s sub + 1) (-1)); [lia | reflexivity].
Qed.

Lemma contains_pair (x y : char) (s : str) :
  contains s [x; y] = has_pair x y s.
Proof.
  induction s as [|c s IH]; [reflexivity|].
  rewrite contains_cons, IH. cbn [has_pair startswith]. f_equal. f_equal.
  destruct s as [|d s]; [reflexivity|]. cbn [head_is].
  apply andb_true_r.
Qed.

Section LowerFacts.
Context {B : Builtins}.
Hypothesis lower_ok : lower_keeps_hangul.

Variables x y : char.
Hypothesis hangul_x : is_hangul x = true.
Hypothesis hangul_y : is_hangul y = true.

Lemma not_hangul_differs (c h : char) :
  is_hangul c = false -> is_hangul h = true -> char_eqb c h = false.
Proof.
  intros Hc Hh. destruct (char_eqb c h) eqn:E; [|reflexivity].
  apply char_eqb_eq in E. congruence.
Qed.

Lemma head_is_lower (before s : str) :
  head_is y (lower_from before s) = head_is y s.
Proof.
  destruct s as [|c after]; [reflexivity|]. cbn [lower_from head_is].
  pose proof (lower_ok before c after) as H.
  destruct (is_hangul c) eqn:Hc.
  - rewrite H. reflexivity.
  - destruct H as [Hne Hall].
    destruct (lower_at before c after) as [|d w]; [congruence|].
    cbn [app head_is forallb] in *.
    apply andb_true_iff in Hall as [Hd _]. apply negb_true_iff in Hd.
    rewrite (not_hangul_differs d y Hd hangul_y).
    rewrite (not_hangul_differs c y Hc hangul_y). reflexivity.
Qed.

Lemma has_pair_skip (w r : str) :
  forallb (fun d => negb (is_hangul d)) w = true ->
  has_pair x y (w ++ r) = has_pair x y r.
Proof.
  induction w as [|d w IH]; intros H; [reflexivity|].
  cbn [forallb] in H. apply andb_true_iff in H as [Hd Hw].
  apply negb_true_iff in Hd. cbn [app has_pair].
  rewrite (not_hangul_differs d x Hd hangul_x). cbn [andb orb].
  apply IH, Hw.
Qed.

Lemma has_pair_lower (s : str) :
  forall before, has_pair x y (lower_from before s) = has_pair x y s.
Proof.
  induction s as [|c after IH]; intros before; [reflexivity|].
  cbn [lower_from has_pair].
  pose proof (lower_ok before c after) as H.
  destruct (is_hangul c) eqn:Hc.
  - rewrite H. cbn [app has_pair]. rewrite head_is_lower, IH. reflexivity.
  - destruct H as [_ Hall]. rewrite (has_pair_skip _ _ Hall), IH.
    rewrite (not_hangul_differs c x Hc hangul_x). reflexivity.
Qed.

(** Lowercasing does not change whether a word of two Hangul syllables
    occurs. *)
Lemma contains_lower (s : str) :
  contains (lower s) [x; y] = contains s [x; y].
Proof. unfold lower. rewrite !contains_pair. apply has_pair_lower. Qed.

End LowerFacts.

Section MailFacts.
Context {B : Builtins}.

(** C9. A message whose decoded subject contains neither [고민] nor [상담]
    starts no processing: no request to the model, no log row, no delivery
    attempted, no reply sent.  So the pipeline and the reply run only for a
    subject that contains one of them. *)
Theorem untriggered_mail_ignored (gongja_processor : GongjaProcessor)
  (msg : email_message) (subject : str) (w : world) :
  lower_keeps_hangul ->
  decode_subject (subject_fragments msg) = Return subject ->
  contains subject (u "고민") = false ->
  contains subject (u "상담") = false ->
  exists w',
    process_single_email gongja_processor msg w = (w', Return tt)
    /\ requests w' = requests w
    /\ logs w' = logs w
    /\ deliveries w' = deliveries w
    /\ outbox w' = outbox w.
Proof.
  intros Hl Hs H1 H2. eexists.
  unfold process_single_email, bindM, lift. rewrite Hs.
  unfold print at 1.
  change (u "고민") with [44256%N; 48124%N] in *.
  change (u "상담") with [49345%N; 45812%N] in *.
  rewrite !(contains_lower Hl) by reflexivity.
  rewrite H1, H2. cbn [orb]. unfold print.
  split; [reflexivity|]. repeat split.
Qed.

End MailFacts.

(** The plain builtins leave Hangul syllables alone. *)
Lemma plain_lower_keeps_hangul : @lower_keeps_hangul plain_builtins.
Proof.
  intros before c after. cbn [lower_at plain_builtins].
  unfold ascii_lower, is_hangul.
  destruct (N.leb_spec 44032 c); cbn [andb].
  - destruct (N.leb_spec c 55203); cbn [andb].
    + destruct (N.leb_spec 65 c); destruct (N.leb_spec c 90); cbn [andb];
        try reflexivity; lia.
    + split; [discriminate|]. cbn [forallb].
      destruct (N.leb_spec 65 c); destruct (N.leb_spec c 90); cbn [andb];
        try lia.
      destruct (N.leb_spec 44032 c); [|lia].
      destruct (N.leb_spec c 55203); [lia | reflexivity].
  - split; [discriminate|]. cbn [forallb].
    destruct (N.leb_spec 65 c); destruct (N.leb_spec c 90); cbn [andb].
    + destruct (N.leb_spec 44032 (c + 32)); [lia | reflexivity].
    + destruct (N.leb_spec 44032 c); [lia | reflexivity].
    + destruct (N.leb_spec 44032 c); [lia | reflexivity].
    + destruct (N.leb_spec 44032 c); [lia | reflexivity].
Qed.

(** A newsletter: no trigger word in its subject. *)
Lemma untriggered_mail_ignored_witness :
  exists w',
    @process_single_email plain_builtins example_processor
      (example_mail "Weekly Newsletter" "hello") example_world
    = (w', Return tt)
    /\ requests w' = requests example_world
    /\ logs w' = logs example_world
    /\ deliveries w' = deliveries example_world
    /\ outbox w' = outbox example_world.
Proof.
  apply (@untriggered_mail_ignored plain_builtins example_processor
           (example_mail "Weekly Newsletter" "hello")
           (u "Weekly Newsletter") example_world).
  - exact plain_lower_keeps_hangul.
  - vm_compute. reflexivity.
  - vm_compute. reflexivity.
  - vm_compute. reflexivity.
Defined.

(** A message whose subject holds a trigger word and whose body is a worry:
    two requests are sent, one row is written under a header, and the
    advice goes back to the sender. *)
Example worry_mail_answered :
  let w' :=
    fst (@process_single_email plain_builtins example_processor
           (example_mail "고민 상담 부탁드립니다"
                         "오늘 회사에서 실수를 해서 너무 속상하다")
           worry_world) in
  length (requests w') = 2%nat
  /\ logs w'
     = [ (u "txtfiles/counseling_log_202403.csv",
          [ Header (map fst (log_row [] (example_session []) JNull JNull
                               JNull JNull JNull JNull JNull JNull));
            Row (map snd
                   (log_row (u "2024-03-09 14:05:01")
                      {| source := u "email";
                         email := u "disciple@example.com";
                         gomin_result := example_gomin;
                         advice_result := example_advice (u "회사에서의 실수");
                         time1 := 1.5%float; time2 := 2.25%float |}
                      (JStr (u "오늘 회사에서 실수를 해서 너무 속상하다"))
                      (JStr (u "회사에서의 실수"))
                      (JStr (u "자신감")) (JStr (u "용"))
                      (JStr (u "두려움을 이겨야 하네"))
                      (JStr (u "학이-1: 배우고 익히면 기쁘다"))
                      (JStr (u "배움으로 실수를 넘어서네"))
                      (JStr (u "실수에서 배우게")))) ]) ]
  /\ outbox w'
     = [ {| to_email := u "disciple@example.com";
            reply_subject := u "Re: 고민 상담 부탁드립니다";
            gomin_content := u "오늘 회사에서 실수를 해서 너무 속상하다";
            custom_message := JStr (u "실수에서 배우게") |} ].
Proof. cbv zeta. repeat split; vm_compute; reflexivity. Qed.

(** ** What the pipeline does to the world *)

Lemma sinks_untouched_refl (w : world) : sinks_untouched w w.
Proof. repeat split. Qed.

Lemma sinks_untouched_trans (w1 w2 w3 : world) :
  sinks_untouched w1 w2 -> sinks_untouched w2 w3 -> sinks_untouched w1 w3.
Proof.
  intros (A1 & A2 & A3 & A4 & A5 & A6 & A7 & A8 & A9)
         (B1 & B2 & B3 & B4 & B5 & B6 & B7 & B8 & B9).
  repeat split; congruence.
Qed.

(** *** The log files *)

Lemma str_eqb_refl (s : str) : str_eqb s s = true.
Proof. apply str_eqb_eq. reflexivity. Qed.

Lemma str_eqb_neq (a b : str) : a <> b -> str_eqb a b = false.
Proof.
  intros H. destruct (str_eqb a b) eqn:E; [|reflexivity].
  apply str_eqb_eq in E. contradiction.
Qed.

Lemma lookup_append_same (files : list (str * list csv_line)) (name : str)
  (new : list csv_line) :
  lookup_log (append_log files name new) name
  = Some (match lookup_log files name with
          | Some old => old ++ new
          | None => new
          end).
Proof.
  induction files as [|[n lines] files IH]; cbn [append_log lookup_log].
  - rewrite str_eqb_refl. reflexivity.
  - destruct (str_eqb n name) eqn:E; cbn [lookup_log]; rewrite E;
      [reflexivity | exact IH].
Qed.

Lemma lookup_append_other (files : list (str * list csv_line))
  (name other : str) (new : list csv_line) :
  other <> name ->
  lookup_log (append_log files name new) other = lookup_log files other.
Proof.
  intros Hne.
  induction files as [|[n lines] files IH]; cbn [append_log lookup_log].
  - rewrite (str_eqb_neq name other) by congruence. reflexivity.
  - destruct (str_eqb n name) eqn:E; cbn [lookup_log].
    + apply str_eqb_eq in E. subst n.
      rewrite (str_eqb_neq name other) by congruence. reflexivity.
    + destruct (str_eqb n other); [reflexivity | exact IH].
Qed.

Lemma logs_grow_refl (files : list (str * list csv_line)) :
  logs_grow files files.
Proof. intros name old H. exists []. rewrite app_nil_r. exact H. Qed.

Lemma logs_grow_append (files : list (str * list csv_line)) (name : str)
  (new : list csv_line) :
  logs_grow files (append_log files name new).
Proof.
  intros other old H.
  destruct (list_eq_dec N.eq_dec other name) as [-> | Hne].
  - rewrite lookup_append_same, H. exists new. reflexivity.
  - rewrite (lookup_append_other _ _ _ _ Hne), H. exists [].
    rewrite app_nil_r. reflexivity.
Qed.

(** *** [save_to_csv] *)

(** What [row_error] returns is an error of writing. *)
Lemma first_error_in (outcomes : list (option exn)) (e : exn) :
  first_error outcomes = Some e -> In (Some e) outcomes.
Proof.
  induction outcomes as [|[x|] rest IH]; cbn [first_error]; intros H.
  - discriminate.
  - injection H as ->. left. reflexivity.
  - right. exact (IH H).
Qed.

Lemma repr_error_cases (digits room : nat) (v : json) (e : exn) :
  repr_error digits room v = Some e ->
  e = RecursionError \/ e = DigitLimitError.
Proof.
  revert v. induction room as [|room IH]; intros v; cbn [repr_error].
  - intros H. injection H as <-. left. reflexivity.
  - destruct v; try discriminate.
    + destruct (int_digits _ <=? digits)%nat; [discriminate|].
      intros H. injection H as <-. right. reflexivity.
    + intros H. apply first_error_in, in_map_iff in H.
      destruct H as (x & Hx & _). exact (IH x Hx).
    + intros H. apply first_error_in, in_map_iff in H.
      destruct H as (x & Hx & _). exact (IH (snd x) Hx).
Qed.

Lemma row_error_cases {B : Builtins} (row : list (str * cell)) (e : exn) :
  row_error row = Some e -> write_failure e.
Proof.
  unfold row_error, write_failure.
  destruct (first_error _) as [e'|] eqn:E.
  - intros H. injection H as <-.
    apply first_error_in, in_map_iff in E. destruct E as ([k c] & Hc & _).
    cbn [snd] in Hc. right.
    destruct c as [s|v|f]; cbn [cell_error] in Hc; try discriminate.
    destruct v; try discriminate; exact (repr_error_cases _ _ _ _ Hc).
  - destruct (forallb _ row); [discriminate|].
    intros H. injection H as <-. left. reflexivity.
Qed.

(** [save_to_csv] step by step: the directory, two readings of the clock,
    the row, then the write: the row under its header in a new file, the
    header alone when the row cannot be written, nothing when the file
    cannot be opened. *)
Lemma save_to_csv_unfold {B : Builtins} (data : session) (w : world) :
  let filename := log_filename (clock w (clock_reads w)) in
  let stamp := strftime_full (clock w (S (clock_reads w))) in
  let w2 := set_clock_reads (set_clock_reads w (S (clock_reads w)))
              (S (S (clock_reads w))) in
  save_to_csv data w =
  if log_dir_ok w then
    match row_data stamp data with
    | Return row =>
      if log_file_ok w then
        match row_error row with
        | None =>
          (set_logs w2
             (append_log (logs w) filename
                (new_lines (lookup_log (logs w) filename) row)),
           Return tt)
        | Some e =>
          (match lookup_log (logs w) filename with
           | Some _ => w2
           | None =>
             set_logs w2 (append_log (logs w) filename [Header (map fst row)])
           end, Raise e)
        end
      else (w2, Raise OSError)
    | Raise e => (w2, Raise e)
    end
  else (w, Raise OSError).
Proof.
  cbv zeta.
  unfold save_to_csv, bindM, ensure_directory_exists, now, read_logs, lift,
    write_row.
  destruct (log_dir_ok w) eqn:Ed; [|reflexivity].
  cbn [clock clock_reads logs log_file_ok set_clock_reads set_logs fst snd].
  fold (log_filename (clock w (clock_reads w))).
  destruct (row_data _ data) as [row|e]; [|reflexivity].
  cbn [logs log_file_ok set_clock_reads]. unfold new_lines.
  destruct (log_file_ok w); [|reflexivity].
  destruct (row_error row);
    destruct (lookup_log (logs w) (log_filename (clock w (clock_reads w))));
    reflexivity.
Qed.

Lemma log_row_columns (timestamp : str) (data : session)
  (a b c d e f g h : json) :
  map fst (log_row timestamp data a b c d e f g h) = columns.
Proof. reflexivity. Qed.

(** *** The row *)

Lemma row_data_fields (timestamp : str) (data : session) (row : list (str * cell)) :
  row_data timestamp data = Return row ->
  exists step3 step4 a b c d e f g h,
    getitem (gomin_result data) (u "STEP-1") = Return a
    /\ getitem (gomin_result data) (u "STEP-3") = Return step3
    /\ getitem step3 (u "요약") = Return b
    /\ getitem (gomin_result data) (u "STEP-4") = Return step4
    /\ getitem step4 (u "부족함") = Return c
    /\ getitem step4 (u "하위개념") = Return d
    /\ getitem step4 (u "이유") = Return e
    /\ getitem (advice_result data) (u "STEP-2") = Return f
    /\ getitem (advice_result data) (u "STEP-3") = Return g
    /\ getitem (advice_result data) (u "STEP-4") = Return h
    /\ row = log_row timestamp data a b c d e f g h.
Proof.
  unfold row_data, bind. intros H.
  destruct (getitem (gomin_result data) (u "STEP-1")) as [a|]; [|discriminate].
  destruct (getitem (gomin_result data) (u "STEP-3")) as [s3|]; [|discriminate].
  destruct (getitem s3 (u "요약")) as [b|] eqn:Eb; [|discriminate].
  destruct (getitem (gomin_result data) (u "STEP-4")) as [s4|]; [|discriminate].
  destruct (getitem s4 (u "부족함")) as [c|] eqn:Ec; [|discriminate].
  destruct (getitem s4 (u "하위개념")) as [d|] eqn:Ed; [|discriminate].
  destruct (getitem s4 (u "이유")) as [e|] eqn:Ee; [|discriminate].
  destruct (getitem (advice_result data) (u "STEP-2")) as [f|]; [|discriminate].
  destruct (getitem (advice_result data) (u "STEP-3")) as [g|]; [|discriminate].
  destruct (getitem (advice_result data) (u "STEP-4")) as [h|]; [|discriminate].
  injection H as <-.
  exists s3, s4, a, b, c, d, e, f, g, h. repeat split; assumption.
Qed.

(** *** The stages *)

(** Loading the passages touches nothing but the position in the random
    source. *)
Lemma load_random_noneo_effect {B : Builtins} (count : Z) (w : world) :
  let w' := fst (_load_random_noneo count w) in
  requests w' = requests w /\ stdout w' = stdout w /\ sinks_untouched w w'.
Proof.
  cbv zeta. unfold _load_random_noneo, bindM, read_noneo_file, lift,
    random_sample.
  destruct (noneo_file w) as [bytes|]; [|repeat split].
  destruct (utf8_decode bytes) as [text|]; [|repeat split].
  destruct (json_loads (universal_newlines text)) as [data|];
    [|repeat split].
  destruct (simplified_data data) as [corpus|]; [|repeat split].
  destruct (sample (rand w) (rand_pos w) corpus count); repeat split.
Qed.

Lemma parse_response_effect {B : Builtins} (r : response) (w : world) :
  let w' := fst (parse_response r w) in
  requests w' = requests w /\ rand_pos w' = rand_pos w
  /\ sinks_untouched w w'.
Proof.
  cbv zeta. unfold parse_response.
  destruct (_parse_response r) as [out res]. repeat split.
Qed.

Section StageEffects.
Context {B : Builtins}.

Lemma process_gomin_effect (self : GongjaProcessor) (text : str) (w : world) :
  let w' := fst (process_gomin self text w) in
  requests w' = requests w ++ [classification_request self text]
  /\ rand_pos w' = rand_pos w
  /\ sinks_untouched w w'.
Proof.
  cbv zeta. unfold process_gomin, bindM, _call_gpt, ret.
  fold (classification_request self text).
  destruct (gpt w (length (requests w)) (classification_request self text))
    as [[r t] | e]; cbn [fst snd]; [|repeat split].
  pose proof (parse_response_effect r
                (set_requests w
                   (requests w ++ [classification_request self text])))
    as (H1 & H2 & H3).
  destruct (parse_response r _) as [w1 [v | e]]; cbn [fst] in *;
    (split; [exact H1 | split; [exact H2 | exact H3]]).
Qed.

(** What [process_gomin] returns is what the extractor makes of the model's
    reply, with the elapsed time of the call. *)
Lemma process_gomin_result (self : GongjaProcessor) (text : str) (w : world)
  (gomin_result : json) (t : float) :
  snd (process_gomin self text w) = Return (gomin_result, t) ->
  exists r,
    gpt w (length (requests w)) (classification_request self text)
    = Return (r, t)
    /\ snd (_parse_response r) = Return gomin_result.
Proof.
  unfold process_gomin, bindM, _call_gpt, parse_response, ret.
  fold (classification_request self text).
  destruct (gpt w (length (requests w)) (classification_request self text))
    as [[r t'] | e]; cbn [fst snd]; [|discriminate].
  destruct (_parse_response r) as [out [v | e]] eqn:E; cbn [fst snd];
    [|discriminate].
  intros H. injection H as <- <-. exists r. rewrite E.
  split; reflexivity.
Qed.

(** [generate_advice]: either it fails before the call and sends nothing, or
    it sends the advice request, built from the sampled passages and the
    classification record. *)
Lemma generate_advice_effect (self : GongjaProcessor) (gomin_response : json)
  (w : world) :
  let w' := fst (generate_advice self gomin_response w) in
  sinks_untouched w w'
  /\ ((requests w' = requests w
       /\ exists e, snd (generate_advice self gomin_response w) = Raise e)
      \/ exists noneo template step1 context,
           snd (_load_random_noneo 20 w) = Return noneo
           /\ _get_advice_template noneo = Return template
           /\ getitem gomin_response (u "STEP-1") = Return step1
           /\ _create_context_message gomin_response = Return context
           /\ requests w'
              = requests w
                ++ [advice_request self step1 context template]).
Proof.
  cbv zeta.
  destruct (generate_advice self gomin_response w) as [w' res] eqn:E.
  cbn [fst snd]. unfold generate_advice, bindM, lift in E.
  pose proof (load_random_noneo_effect 20 w) as (L1 & _ & L2).
  destruct (_load_random_noneo 20 w) as [w1 [noneo | e]] eqn:E0;
    cbn [fst snd] in *.
  2: { injection E as <- <-. split; [exact L2|].
       left. split; [exact L1 | eexists; reflexivity]. }
  destruct (_get_advice_template noneo) as [template | e] eqn:E1.
  2: { injection E as <- <-. split; [exact L2|].
       left. split; [exact L1 | eexists; reflexivity]. }
  destruct (getitem gomin_response (u "STEP-1")) as [step1 | e] eqn:E2.
  2: { injection E as <- <-. split; [exact L2|].
       left. split; [exact L1 | eexists; reflexivity]. }
  destruct (_create_context_message gomin_response) as [context | e] eqn:E3.
  2: { injection E as <- <-. split; [exact L2|].
       left. split; [exact L1 | eexists; reflexivity]. }
  fold (advice_request self step1 context template) in E.
  unfold _call_gpt, ret in E.
  assert (Hdone : requests w'
                  = requests w1
                    ++ [advice_request self step1 context template]
                  /\ sinks_untouched w1 w').
  { destruct (gpt w1 (length (requests w1))
                (advice_request self step1 context template))
      as [[r t] | e]; cbn [fst snd] in E.
    - pose proof (parse_response_effect r
                    (set_requests w1
                       (requests w1
                        ++ [advice_request self step1 context template])))
        as (H1 & _ & H3).
      destruct (parse_response r _) as [w2 [v | e]]; cbn [fst] in *;
        injection E as <- <-; split; assumption.
    - injection E as <- <-. repeat split. }
  destruct Hdone as [Hreq Hs].
  split; [exact (sinks_untouched_trans _ _ _ L2 Hs)|].
  right. exists noneo, template, step1, context.
  rewrite Hreq, L1. repeat split; assumption.
Qed.

End StageEffects.

Section ConcernEffects.
Context {B : Builtins}.

Ltac step_print H := unfold bindM at 1 in H; unfold print at 1 in H.
Ltac step_lift H := unfold bindM at 1 in H; unfold lift at 1 in H.

Lemma concern_effect (processor : GongjaProcessor) (concern email source : str) (w : world) :
  concern_outcome processor concern email source w
    (fst (process_and_save_concern processor concern email source w))
    (snd (process_and_save_concern processor concern email source w)).
Proof.
  destruct (process_and_save_concern processor concern email source w) as [w' res] eqn:E.
  cbn [fst snd]. unfold concern_outcome. cbv zeta.
  unfold process_and_save_concern in E.
  step_print E.
  set (w0 := set_stdout w _) in E.
  unfold bindM at 1 in E.
  pose proof (process_gomin_effect processor concern w0) as (G1 & _ & G2).
  pose proof (process_gomin_result processor concern w0) as G3.
  destruct (process_gomin processor concern w0) as [w1 [[grec t1] | e]];
    cbn [fst snd] in *.
  2: { injection E as <- <-.
       destruct G2 as (? & ? & ? & ? & ? & ? & ? & ? & ?).
       repeat split; try assumption; left; assumption. }
  destruct (G3 grec t1 eq_refl) as (r & Hr & Hp). clear G3.
  change (gpt w0) with (gpt w) in Hr. change (requests w0) with (requests w) in Hr, G1.
  destruct G2 as (Gl & Go & Gd & Gc & Gk & Gt & Gs & Gdir & Gfile).
  change (template_found w0) with (template_found w) in Gt.
  change (smtp_accepts w0) with (smtp_accepts w) in Gs.
  change (logs w0) with (logs w) in Gl. change (outbox w0) with (outbox w) in Go.
  change (deliveries w0) with (deliveries w) in Gd.
  change (clock_reads w0) with (clock_reads w) in Gc.
  change (clock w0) with (clock w) in Gk.
  clear Gdir Gfile. clearbody w0.
  step_lift E.
  destruct (getitem grec (u "STEP-2")) as [is_worry | e] eqn:E2.
  2: { injection E as <- <-. repeat split; try assumption; left; assumption. }
  destruct (truthy is_worry) eqn:Et; cbn [negb] in E.
  2: { step_print E. unfold ret in E. injection E as <- <-.
       cbn [outbox deliveries requests logs template_found smtp_accepts
            set_stdout].
       repeat split; try assumption.
       exists r, t1, grec, is_worry. repeat split; assumption. }
  step_print E. step_print E.
  set (w2 := set_stdout (set_stdout w1 _) _) in E.
  unfold bindM at 1 in E.
  pose proof (generate_advice_effect processor grec w2) as (A1 & A2).
  destruct (generate_advice processor grec w2) as [w3 [[advice t2] | e]] eqn:Ea;
    cbn [fst snd] in *.
  2: { injection E as <- <-.
       destruct A1 as (Al & Ao & Ad & Ac & Ak & At & As & _ & _).
       change (template_found w2) with (template_found w1) in At.
       change (smtp_accepts w2) with (smtp_accepts w1) in As.
       change (logs w2) with (logs w1) in Al.
       change (outbox w2) with (outbox w1) in Ao.
       change (deliveries w2) with (deliveries w1) in Ad.
       split; [congruence|]. split; [congruence|]. split; [congruence|].
       split; [congruence|]. split; [left; congruence|].
       destruct A2 as [[Hq _] | (? & ? & ? & ? & _ & _ & _ & _ & Hq)].
       - left. change (requests w2) with (requests w1) in Hq. congruence.
       - right. change (requests w2) with (requests w1) in Hq.
         eexists. rewrite Hq, G1, <- app_assoc. reflexivity. }
  destruct A2 as [[_ [e He]] | (noneo & template & step1 & context & _ & _ & _ & _ & Hq)];
    [discriminate|].
  destruct A1 as (Al & Ao & Ad & Ac & Ak & At & As & _ & _).
  change (template_found w2) with (template_found w1) in At.
  change (smtp_accepts w2) with (smtp_accepts w1) in As.
  change (logs w2) with (logs w1) in Al.
  change (outbox w2) with (outbox w1) in Ao.
  change (deliveries w2) with (deliveries w1) in Ad.
  change (clock_reads w2) with (clock_reads w1) in Ac.
  change (clock w2) with (clock w1) in Ak.
  change (requests w2) with (requests w1) in Hq.
  clear Ea. clearbody w2.
  assert (Hreq : exists request, requests w3 = requests w ++ [classification_request processor concern; request]).
  { eexists. rewrite Hq, G1, <- app_assoc. reflexivity. }
  assert (Hlogs : logs w3 = logs w) by congruence.
  assert (Hout : outbox w3 = outbox w) by congruence.
  assert (Hdel : deliveries w3 = deliveries w) by congruence.
  assert (Htem : template_found w3 = template_found w) by congruence.
  assert (Hsmtp : smtp_accepts w3 = smtp_accepts w) by congruence.
  step_print E.
  set (w4 := set_stdout w3 _) in E.
  unfold bindM at 1 in E.
  rewrite save_to_csv_unfold in E.
  change (clock w4) with (clock w3) in E.
  change (clock_reads w4) with (clock_reads w3) in E.
  change (logs w4) with (logs w3) in E.
  rewrite Ak, Gk, Ac, Gc, Al, Gl in E.
  destruct (log_dir_ok w4).
  2: { injection E as <- <-.
       repeat split; try assumption; [left; assumption | right; exact Hreq]. }
  destruct (row_data (strftime_full (clock w (S (clock_reads w)))) _)
    as [row | e] eqn:Er.
  2: { injection E as <- <-.
       repeat split; try assumption; [left; assumption | right; exact Hreq]. }
  destruct (row_data_fields _ _ _ Er)
    as (s3 & s4 & a & b & c & d & e & f & g & h
        & _ & H3 & Hb & H4 & Hc & Hd & _ & Hf & _ & Hh & Hrow).
  assert (Hcols : map fst row = columns) by (rewrite Hrow; reflexivity).
  cbn [gomin_result advice_result] in *.
  destruct (log_file_ok w4).
  2: { injection E as <- <-.
       repeat split; try assumption; [left; assumption | right; exact Hreq]. }
  destruct (row_error row) as [e'|] eqn:Eenc.
  1: { pose proof (row_error_cases row e' Eenc) as Hfail.
       destruct (lookup_log (logs w) (log_filename (clock w (clock_reads w))))
         eqn:El; injection E as <- <-.
       - repeat split; try assumption; [left; assumption | right; exact Hreq].
       - repeat split; try assumption; [|right; exact Hreq].
         right. split; [exact Hfail|]. split; [reflexivity|].
         cbn [logs set_logs]. rewrite Hcols. reflexivity. }
  rewrite H3, H4, Hf, Hh in E.
  step_print E.
  step_lift E. step_lift E. rewrite Hb in E.
  step_print E.
  step_lift E. step_lift E. rewrite Hc in E.
  step_print E.
  step_lift E. step_lift E. rewrite Hd in E.
  step_print E. step_print E.
  step_lift E. step_print E.
  step_lift E. step_print E.
  unfold ret in E. injection E as <- <-.
  cbn [outbox deliveries requests logs template_found smtp_accepts
       set_stdout set_logs set_clock_reads].
  change (outbox w4) with (outbox w3). change (deliveries w4) with (deliveries w3).
  change (template_found w4) with (template_found w3).
  change (smtp_accepts w4) with (smtp_accepts w3).
  change (requests w4) with (requests w3).
  split; [congruence|]. split; [congruence|].
  split; [congruence|]. split; [congruence|].
  exists r, t1, t2, grec. eexists. exists row.
  split; [exact Hr|]. split; [exact Hp|].
  split; [rewrite Hq, G1, <- app_assoc; reflexivity|].
  split; [exact Er | reflexivity].
Qed.

End ConcernEffects.

(** ** What a message does to the world *)

Section MailEffects.
Context {B : Builtins}.

Ltac step_print H := unfold bindM at 1 in H; unfold print at 1 in H.
Ltac step_lift H := unfold bindM at 1 in H; unfold lift at 1 in H.

Lemma getitem_truthy (v x : json) (key : str) :
  getitem v key = Return x -> truthy v = true.
Proof.
  destruct v; try discriminate. cbn [getitem truthy].
  destruct members; [discriminate | reflexivity].
Qed.

Lemma mail_effect (processor : GongjaProcessor) (msg : email_message) (w : world) :
  mail_outcome processor msg w
    (fst (process_single_email processor msg w))
    (snd (process_single_email processor msg w)).
Proof.
  destruct (process_single_email processor msg w) as [w' res] eqn:E.
  cbn [fst snd]. unfold mail_outcome, is_triggered.
  unfold process_single_email in E.
  step_lift E.
  destruct (decode_subject (subject_fragments msg)) as [subject | e] eqn:Es.
  2: { injection E as <- <-.
       split; [exists []; rewrite app_nil_r; split; [reflexivity | simpl; lia]|].
       split; [apply logs_grow_refl|]. repeat split. left. split; reflexivity. }
  step_print E.
  fold (triggered subject) in E.
  destruct (triggered subject) eqn:Et.
  2: { step_print E. unfold print in E. injection E as <- <-.
       cbn [requests logs template_found smtp_accepts outbox deliveries set_stdout].
       split; [exists []; rewrite app_nil_r; split; [reflexivity | simpl; lia]|].
       split; [apply logs_grow_refl|]. repeat split. left. split; reflexivity. }
  step_print E. step_lift E.
  destruct (get_email_body msg) as [body | e] eqn:Eb.
  2: { injection E as <- <-.
       cbn [requests logs template_found smtp_accepts outbox deliveries set_stdout].
       split; [exists []; rewrite app_nil_r; split; [reflexivity | simpl; lia]|].
       split; [apply logs_grow_refl|]. repeat split. left. split; reflexivity. }
  step_print E.
  set (w0 := set_stdout _ _) in E.
  unfold bindM at 1 in E.
  pose proof (concern_effect processor body (from_address msg) (u "email") w0) as C.
  destruct (process_and_save_concern processor body (from_address msg) (u "email") w0)
    as [w1 res1]. cbn [fst snd] in C.
  destruct C as (Co & Cd & Ct & Cs & C).
  change (outbox w0) with (outbox w) in Co.
  change (deliveries w0) with (deliveries w) in Cd.
  change (template_found w0) with (template_found w) in Ct.
  change (smtp_accepts w0) with (smtp_accepts w) in Cs.
  change (requests w0) with (requests w) in C.
  change (logs w0) with (logs w) in C.
  change (gpt w0) with (gpt w) in C.
  change (clock w0) with (clock w) in C.
  change (clock_reads w0) with (clock_reads w) in C.
  clearbody w0.
  assert (Hnone : forall new,
             requests w' = requests w ++ new -> (length new <= 2)%nat ->
             logs_grow (logs w) (logs w') ->
             template_found w' = template_found w ->
             smtp_accepts w' = smtp_accepts w ->
             outbox w' = outbox w -> deliveries w' = deliveries w ->
             (exists new, requests w' = requests w ++ new /\ (length new <= 2)%nat)
             /\ logs_grow (logs w) (logs w')
             /\ template_found w' = template_found w
             /\ smtp_accepts w' = smtp_accepts w
             /\ ((outbox w' = outbox w /\ deliveries w' = deliveries w)
                 \/ exists subject0 body0 advice message request,
                      Return subject = Return subject0
                      /\ triggered subject0 = true
                      /\ Return body = Return body0
                      /\ getitem advice (u "STEP-4") = Return message
                      /\ requests w'
                         = requests w
                           ++ [classification_request processor body0; request]
                      /\ template_found w = true
                      /\ deliveries w' = S (deliveries w)
                      /\ outbox w'
                         = (if smtp_accepts w (deliveries w)
                            then outbox w
                                 ++ [reply_mail msg subject0 body0 message]
                            else outbox w)
                      /\ res = Return tt
                      /\ last (stdout w') (Print []) = reply_succeeded)).
  { intros new Hq Hn Hl Ht Hs Ho Hd.
    split; [exists new; split; assumption|].
    split; [exact Hl|].
    split; [exact Ht|]. split; [exact Hs|]. left. split; assumption. }
  destruct res1 as [[advice|] | e].
  - destruct C as (r & t1 & t2 & grec & request & row & _ & _ & Hq & Hrow & Hl).
    destruct (row_data_fields _ _ _ Hrow)
      as (s3 & s4 & a & b & c & d & e & f & g & h
          & _ & _ & _ & _ & _ & _ & _ & _ & _ & Hh & _).
    cbn [advice_result] in Hh.
    rewrite (getitem_truthy advice h _ Hh) in E.
    step_lift E. rewrite Hh in E.
    unfold bindM at 1 in E. unfold send_auto_reply in E.
    rewrite Ct, Cs, Cd, Co in E.
    assert (Hgrow : logs_grow (logs w) (logs w1))
      by (rewrite Hl; apply logs_grow_append).
    destruct (template_found w) eqn:Etf.
    2: { injection E as <- <-.
         split; [eexists; split; [exact Hq | simpl; lia]|].
         split; [exact Hgrow|]. split; [congruence|]. split; [exact Cs|].
         left. split; assumption. }
    destruct (smtp_accepts w (deliveries w)) eqn:Esm;
      unfold print in E; injection E as <- <-;
      cbn [requests logs template_found smtp_accepts outbox deliveries stdout
           set_stdout set_mail];
      (split; [eexists; split; [exact Hq | simpl; lia]|]);
      (split; [exact Hgrow|]); (split; [congruence|]); (split; [exact Cs|]);
      right; exists subject, body, advice, h, request;
      rewrite ?last_last; repeat split; assumption.
  - destruct C as (Hq & Hl & _).
    assert (Hgrow : logs_grow (logs w) (logs w1))
      by (rewrite Hl; apply logs_grow_refl).
    unfold print in E. injection E as <- <-.
    cbn [requests logs template_found smtp_accepts outbox deliveries set_stdout].
    apply (Hnone [classification_request processor body]);
      try assumption; simpl; lia.
  - injection E as <- <-. destruct C as (Hl & Hq).
    assert (Hgrow : logs_grow (logs w) (logs w1)).
    { destruct Hl as [Hl | (_ & _ & Hl)]; rewrite Hl;
        [apply logs_grow_refl | apply logs_grow_append]. }
    destruct Hq as [Hq | [request Hq]].
    + apply (Hnone [classification_request processor body]);
        try assumption; simpl; lia.
    + apply (Hnone [classification_request processor body; request]);
        try assumption; simpl; lia.
Qed.

End MailEffects.

(** ** What a batch does to the world *)

Lemma logs_grow_trans (a b c : list (str * list csv_line)) :
  logs_grow a b -> logs_grow b c -> logs_grow a c.
Proof.
  intros H1 H2 name old Ha.
  destruct (H1 name old Ha) as [new1 Hb].
  destruct (H2 name _ Hb) as [new2 Hc].
  exists (new1 ++ new2). rewrite Hc, app_assoc. reflexivity.
Qed.

Section BatchEffects.
Context {B : Builtins}.

(** A batch sends at most two requests and hands at most one reply to the
    mail server for each message whose subject passes the test, and the log
    files only grow. *)
Lemma process_fetched_effect (processor : GongjaProcessor)
  (fetched : list (result email_message)) :
  forall w,
    let w' := fst (process_fetched processor fetched w) in
    (exists new, requests w' = requests w ++ new
                 /\ (length new <= 2 * count_triggered fetched)%nat)
    /\ (exists mails, outbox w' = outbox w ++ mails
                      /\ (length mails <= count_triggered fetched)%nat)
    /\ logs_grow (logs w) (logs w').
Proof.
  induction fetched as [|fetch rest IH]; intros w; cbv zeta.
  - cbn [process_fetched ret fst count_triggered].
    split; [exists []; rewrite app_nil_r; split; [reflexivity | simpl; lia]|].
    split; [exists []; rewrite app_nil_r; split; [reflexivity | simpl; lia]|].
    apply logs_grow_refl.
  - cbn [process_fetched count_triggered]. unfold bindM, lift.
    destruct fetch as [msg | e].
    2: { cbn [fst].
         split; [exists []; rewrite app_nil_r; split; [reflexivity | simpl; lia]|].
         split; [exists []; rewrite app_nil_r; split; [reflexivity | simpl; lia]|].
         apply logs_grow_refl. }
    pose proof (mail_effect processor msg w) as (Hq & Hl & _ & _ & Ho).
    destruct (process_single_email processor msg w) as [w1 [[] | e]];
      cbn [fst snd] in *.
    + specialize (IH w1). cbv zeta in IH.
      destruct IH as ((new2 & Hq2 & Hn2) & (mails2 & Ho2 & Hm2) & Hl2).
      destruct Hq as (new1 & Hq1 & Hn1).
      split.
      { exists (new1 ++ new2). rewrite Hq2, Hq1, app_assoc.
        split; [reflexivity|]. rewrite length_app.
        destruct (is_triggered msg); simpl in *; lia. }
      split.
      { destruct Ho as [[Ho1 _] | (subject & body & advice & message & request
                                    & Hs & Ht & _ & _ & _ & _ & _ & Ho1 & _)].
        - exists mails2. rewrite Ho2, Ho1. split; [reflexivity|]. lia.
        - assert (Htrig : is_triggered msg = true)
            by (unfold is_triggered; rewrite Hs; exact Ht).
          rewrite Htrig.
          destruct (smtp_accepts w (deliveries w)).
          + exists ([reply_mail msg subject body message] ++ mails2).
            rewrite Ho2, Ho1, app_assoc. split; [reflexivity|].
            simpl. lia.
          + exists mails2. rewrite Ho2, Ho1. split; [reflexivity|]. lia. }
      exact (logs_grow_trans _ _ _ Hl Hl2).
    + destruct Hq as (new1 & Hq1 & Hn1).
      split.
      { exists new1. split; [exact Hq1|].
        destruct (is_triggered msg); simpl in *; lia. }
      split; [|exact Hl].
      destruct Ho as [[Ho1 _] | (subject & body & advice & message & request
                                  & _ & _ & _ & _ & _ & _ & _ & _ & Hres & _)];
        [|discriminate].
      exists []. rewrite app_nil_r. split; [exact Ho1 | simpl; lia].
Qed.

End BatchEffects.

(** * Further properties of the pipeline *)

Section ConcernProperties.
Context {B : Builtins}.

(** X1. Whatever the model answers, [process_and_save_concern] sends the
    classification request first and at most one request after it, and it
    hands nothing to the mail server. *)
Theorem concern_sends_one_or_two_requests (processor : GongjaProcessor)
  (concern email source : str) (w : world) :
  let w' := fst (process_and_save_concern processor concern email source w) in
  (requests w' = requests w ++ [classification_request processor concern]
   \/ exists request,
        requests w'
        = requests w ++ [classification_request processor concern; request])
  /\ outbox w' = outbox w
  /\ deliveries w' = deliveries w.
Proof.
  cbv zeta.
  pose proof (concern_effect processor concern email source w)
    as (Ho & Hd & _ & _ & H).
  split; [|split; assumption].
  destruct (snd (process_and_save_concern processor concern email source w))
    as [[advice|]|e].
  - destruct H as (r & t1 & t2 & g & request & row & _ & _ & Hq & _).
    right. exists request. exact Hq.
  - destruct H as (Hq & _). left. exact Hq.
  - destruct H as (_ & Hq). exact Hq.
Qed.

(** X2. When [process_and_save_concern] returns an advice, two requests
    were sent and one row was added at the end of the log file of the
    month, under the header of the thirteen columns when the file was new;
    the row holds the time of the second clock reading, the source, the
    address and the [STEP-4] of the returned advice. *)
Theorem returned_advice_is_logged (processor : GongjaProcessor)
  (concern email source : str) (w : world) (advice : json) :
  let run := process_and_save_concern processor concern email source w in
  let filename := log_filename (clock w (clock_reads w)) in
  snd run = Return (Some advice) ->
  exists cells message,
    lookup_log (logs (fst run)) filename
    = Some (match lookup_log (logs w) filename with
            | Some old => old ++ [Row cells]
            | None => [Header columns; Row cells]
            end)
    /\ length cells = 13%nat
    /\ nth_error cells 0
       = Some (CStr (strftime_full (clock w (S (clock_reads w)))))
    /\ nth_error cells 1 = Some (CStr source)
    /\ nth_error cells 2 = Some (CStr email)
    /\ getitem advice (u "STEP-4") = Return message
    /\ nth_error cells 10 = Some (CJson message)
    /\ length (requests (fst run)) = (length (requests w) + 2)%nat.
Proof.
  cbv zeta. intros Hres.
  pose proof (concern_effect processor concern email source w)
    as (_ & _ & _ & _ & H).
  rewrite Hres in H.
  destruct H as (r & t1 & t2 & g & request & row & _ & _ & Hq & Hrow & Hl).
  destruct (row_data_fields _ _ _ Hrow)
    as (s3 & s4 & a & b & c & d & e & f & g' & h & F).
  destruct F as (_ & _ & _ & _ & _ & _ & _ & _ & _ & Hh & Hr).
  cbn [advice_result] in Hh.
  exists (map snd row), h.
  split.
  { rewrite Hl, lookup_append_same. unfold new_lines.
    destruct (lookup_log (logs w) _); [reflexivity|].
    rewrite Hr. reflexivity. }
  rewrite Hr, Hq, length_app.
  repeat split; try reflexivity; exact Hh.
Qed.


(** X4. [process_and_save_concern] returns [None] only when the model
    answered the classification request with a text the extractor decodes
    to a record whose [STEP-2] is false in the sense of [not]; it is then
    the only request sent. *)
Theorem none_only_when_not_a_worry (processor : GongjaProcessor)
  (concern email source : str) (w : world) :
  let run := process_and_save_concern processor concern email source w in
  snd run = Return None ->
  requests (fst run)
  = requests w ++ [classification_request processor concern]
  /\ exists r t gomin_result is_worry,
       gpt w (length (requests w)) (classification_request processor concern)
       = Return (r, t)
       /\ snd (_parse_response r) = Return gomin_result
       /\ getitem gomin_result (u "STEP-2") = Return is_worry
       /\ truthy is_worry = false.
Proof.
  cbv zeta. intros Hres.
  pose proof (concern_effect processor concern email source w)
    as (_ & _ & _ & _ & H).
  rewrite Hres in H. destruct H as (Hq & _ & H). split; assumption.
Qed.

(** X5. [generate_advice] draws twenty passages: when the passage file
    holds fewer, it raises the [ValueError] of [random.sample] before any
    request is sent, and the world is as it was. *)
Theorem advice_needs_twenty_passages (self : GongjaProcessor)
  (gomin_response : json) (w : world) (bytes : list N) (text : str)
  (data : json) (corpus : list json) :
  noneo_file w = Some bytes ->
  utf8_decode bytes = Some text ->
  json_loads (universal_newlines text) = Return data ->
  simplified_data data = Return corpus ->
  (length corpus < 20)%nat ->
  generate_advice self gomin_response w
  = (w, Raise (ValueError sample_error None)).
Proof.
  intros Hf Hd Hj Hs Hlen.
  unfold generate_advice, _load_random_noneo, bindM, read_noneo_file, lift,
    random_sample.
  rewrite Hf, Hd, Hj, Hs.
  rewrite (sample_too_few (rand w) (rand_pos w) corpus 20) by lia.
  reflexivity.
Qed.

End ConcernProperties.

(** The worry of the examples: the advice is logged under a new header. *)
Lemma returned_advice_is_logged_witness :
  let run :=
    @process_and_save_concern plain_builtins example_processor
      (u "오늘 회사에서 실수를 해서 너무 속상하다") [] (u "console")
      worry_world in
  let filename := log_filename (clock worry_world (clock_reads worry_world)) in
  exists cells message,
    lookup_log (logs (fst run)) filename
    = Some (match lookup_log (logs worry_world) filename with
            | Some old => old ++ [Row cells]
            | None => [Header columns; Row cells]
            end)
    /\ length cells = 13%nat
    /\ nth_error cells 0
       = Some (CStr (strftime_full
                       (clock worry_world (S (clock_reads worry_world)))))
    /\ nth_error cells 1 = Some (CStr (u "console"))
    /\ nth_error cells 2 = Some (CStr [])
    /\ getitem (example_advice (u "회사에서의 실수")) (u "STEP-4")
       = Return message
    /\ nth_error cells 10 = Some (CJson message)
    /\ length (requests (fst run)) = (length (requests worry_world) + 2)%nat.
Proof.
  apply (@returned_advice_is_logged plain_builtins example_processor
           (u "오늘 회사에서 실수를 해서 너무 속상하다") [] (u "console")
           worry_world (example_advice (u "회사에서의 실수"))).
  vm_compute. reflexivity.
Defined.


(** In that run the two requests are sent, the write fails, and the new
    file of the month is left with its header; when the model cannot be
    reached nothing is written at all. *)
Example unencodable_advice_leaves_header :
  let run :=
    @process_and_save_concern plain_builtins example_processor
      (u "오늘 회사에서 실수를 해서 너무 속상하다") [] (u "console")
      surrogate_world in
  snd run = Raise UnicodeEncodeError
  /\ length (requests (fst run)) = 2%nat
  /\ logs (fst run)
     = [(u "txtfiles/counseling_log_202403.csv", [Header columns])]
  /\ (let failed :=
        @process_and_save_concern plain_builtins example_processor
          (u "오늘 회사에서 실수를 해서 너무 속상하다") [] (u "console")
          unreachable_world in
      snd failed = Raise OpenAIError /\ logs (fst failed) = []).
Proof. cbv zeta. repeat split; vm_compute; reflexivity. Qed.

(** The greeting of the examples. *)
Lemma none_only_when_not_a_worry_witness :
  let run :=
    @process_and_save_concern plain_builtins example_processor
      (u "안녕하세요") [] (u "console") example_world in
  requests (fst run)
  = requests example_world
    ++ [classification_request example_processor (u "안녕하세요")]
  /\ exists r t gomin_result is_worry,
       gpt example_world (length (requests example_world))
         (classification_request example_processor (u "안녕하세요"))
       = Return (r, t)
       /\ snd (@_parse_response plain_builtins r) = Return gomin_result
       /\ getitem gomin_result (u "STEP-2") = Return is_worry
       /\ truthy is_worry = false.
Proof.
  apply (@none_only_when_not_a_worry plain_builtins example_processor
           (u "안녕하세요") [] (u "console") example_world).
  vm_compute. reflexivity.
Defined.

(** The passage file of three entries. *)
Lemma advice_needs_twenty_passages_witness :
  @generate_advice plain_builtins example_processor example_gomin
    short_corpus_world
  = (short_corpus_world, Raise (ValueError sample_error None)).
Proof.
  apply (@advice_needs_twenty_passages plain_builtins example_processor
           example_gomin short_corpus_world example_noneo
           (match utf8_decode example_noneo with Some t => t | None => [] end)
           (match @json_loads plain_builtins
                    (universal_newlines
                       (match utf8_decode example_noneo with
                        | Some t => t | None => [] end)) with
            | Return d => d | Raise _ => JNull end)
           [ passage (JStr (u "학이")) (JInt 1) (JStr (u "배우고 익히면 기쁘다"));
             passage (JStr (u "위정")) (JInt 2) (JStr (u "생각에 사악함이 없다"));
             passage (JStr (u "이인")) (JInt 3) (JStr (u "덕은 외롭지 않다")) ]).
  - reflexivity.
  - vm_compute. reflexivity.
  - vm_compute. reflexivity.
  - vm_compute. reflexivity.
  - simpl. lia.
Defined.
(** * Further properties of the counselling log *)

Section LogProperties.
Context {B : Builtins}.

(** Without its directory [save_to_csv] stops before the clock is read. *)
Lemma save_to_csv_without_directory (data : session) (w : world) :
  log_dir_ok w = false -> save_to_csv data w = (w, Raise OSError).
Proof.
  intros H. rewrite save_to_csv_unfold. cbv zeta. rewrite H. reflexivity.
Qed.

Lemma first_error_none (A : Type) (f : A -> option exn) (l : list A) :
  (forall x, In x l -> f x = None) -> first_error (map f l) = None.
Proof.
  induction l as [|x l IH]; intros H; [reflexivity|].
  cbn [map first_error]. rewrite (H x (or_introl eq_refl)).
  apply IH. intros y Hy. apply H. right. exact Hy.
Qed.

(** A modest value is converted when the room and the digits allowed are
    no less than the floors. *)
Lemma modest_repr (digits : nat) (depth : nat) :
  (640 <= digits)%nat ->
  forall room v,
    (depth <= room)%nat -> modest depth v = true ->
    repr_error digits room v = None.
Proof.
  intros Hd. induction depth as [|d IH]; intros room v Hr Hm;
    [discriminate|].
  destruct room as [|room]; [lia|]. cbn [modest] in Hm. cbn [repr_error].
  destruct v as [| | z | | | items | members]; try reflexivity.
  - apply Nat.leb_le in Hm.
    assert (Hz : (int_digits z <=? digits)%nat = true)
      by (apply Nat.leb_le; lia).
    rewrite Hz. reflexivity.
  - apply first_error_none. intros x Hx.
    rewrite forallb_forall in Hm. apply IH; [lia | exact (Hm x Hx)].
  - apply first_error_none. intros x Hx.
    rewrite forallb_forall in Hm. apply IH; [lia | exact (Hm x Hx)].
Qed.

Lemma modest_cell_error (c : cell) :
  modest_cell c = true -> cell_error c = None.
Proof.
  destruct c as [s|v|f]; try reflexivity.
  cbn [modest_cell cell_error]. intros H.
  destruct v; try reflexivity;
    apply (modest_repr int_max_str_digits shallow);
    try exact H; unfold int_max_str_digits, str_limit; lia.
Qed.

Lemma utf8_encodable_surrogate (s : str) :
  utf8_encodable s = negb (existsb is_surrogate s).
Proof.
  unfold utf8_encodable. induction s as [|c s IH]; [reflexivity|].
  cbn [forallb existsb]. rewrite IH. destruct (is_surrogate c); reflexivity.
Qed.

Lemma cell_encodable_surrogate (c : cell) :
  cell_encodable c = negb (surrogate_cell c).
Proof.
  destruct c as [s|v|f]; cbn [cell_encodable surrogate_cell];
    [apply utf8_encodable_surrogate | | reflexivity].
  destruct v; try reflexivity. apply utf8_encodable_surrogate.
Qed.

(** The one error of a row of modest cells is that of a surrogate. *)
Lemma modest_row_error (row : list (str * cell)) :
  forallb modest_cell (map snd row) = true ->
  row_error row
  = if existsb surrogate_cell (map snd row) then Some UnicodeEncodeError
    else None.
Proof.
  intros Hm. unfold row_error.
  rewrite first_error_none.
  2: { intros [k c] Hin. cbn [snd]. apply modest_cell_error.
       rewrite forallb_forall in Hm. apply Hm.
       apply in_map_iff. exists (k, c). split; [reflexivity | exact Hin]. }
  clear Hm. induction row as [|[k c] row IH]; [reflexivity|].
  cbn [forallb map existsb snd]. rewrite cell_encodable_surrogate.
  destruct (surrogate_cell c); cbn [negb andb orb]; [reflexivity | exact IH].
Qed.

(** X6. With the directory of the log in place, a record holding the eight
    fields of the row, each of them modest (a string, a number of at most
    640 digits, a truth value, nothing, or lists and dicts of these fewer
    than sixteen deep), is saved under the thirteen columns, after two
    clock readings, in the file named after the month of the first one, and
    every other file is left as it was.  When the file can be opened and no
    cell is a string with a surrogate, the row, stamped with the second
    clock reading, is added at the end of the file, under the header when
    the file did not exist.  When the file can be opened and a cell is a
    string with a surrogate, which UTF-8 cannot encode,
    [UnicodeEncodeError] is raised and no row is added: a file that did not
    exist is left with the header alone.  When the file cannot be opened,
    [OSError] is raised and nothing is written. *)
Theorem save_to_csv_appends (data : session) (w : world)
  (row : list (str * cell)) :
  let filename := log_filename (clock w (clock_reads w)) in
  let w' := fst (save_to_csv data w) in
  let res := snd (save_to_csv data w) in
  log_dir_ok w = true ->
  row_data (strftime_full (clock w (S (clock_reads w)))) data = Return row ->
  forallb modest_cell (map snd row) = true ->
  map fst row = columns
  /\ clock_reads w' = S (S (clock_reads w))
  /\ (forall other, other <> filename ->
        lookup_log (logs w') other = lookup_log (logs w) other)
  /\ (if log_file_ok w then
        if existsb surrogate_cell (map snd row) then
          res = Raise UnicodeEncodeError
          /\ lookup_log (logs w') filename
             = Some (match lookup_log (logs w) filename with
                     | Some old => old
                     | None => [Header columns]
                     end)
        else
          res = Return tt
          /\ lookup_log (logs w') filename
             = Some (match lookup_log (logs w) filename with
                     | Some old => old ++ [Row (map snd row)]
                     | None => [Header columns; Row (map snd row)]
                     end)
      else res = Raise OSError /\ logs w' = logs w).
Proof.
  cbv zeta. intros Hdir Hrow Hm.
  pose proof (save_to_csv_unfold data w) as E. cbv zeta in E.
  rewrite Hdir, Hrow, (modest_row_error row Hm) in E. rewrite E. clear E.
  destruct (row_data_fields _ _ _ Hrow)
    as (s3 & s4 & a & b & c & d & e & f & g & h & F).
  assert (Hc : map fst row = columns).
  { destruct F as (_ & _ & _ & _ & _ & _ & _ & _ & _ & _ & ->). reflexivity. }
  split; [exact Hc|].
  destruct (log_file_ok w).
  2: { cbn [fst snd logs clock_reads set_clock_reads].
       repeat split; reflexivity. }
  destruct (existsb surrogate_cell (map snd row)).
  - cbn [fst snd].
    destruct (lookup_log (logs w) (log_filename (clock w (clock_reads w))))
      as [old|] eqn:El;
      cbn [logs set_logs clock_reads set_clock_reads].
    + split; [reflexivity|]. split; [reflexivity|].
      split; [reflexivity | exact El].
    + split; [reflexivity|]. split.
      { intros other Hne. apply lookup_append_other. exact Hne. }
      split; [reflexivity|].
      rewrite lookup_append_same, El, Hc. reflexivity.
  - cbn [fst snd logs set_logs clock_reads set_clock_reads].
    split; [reflexivity|]. split.
    { intros other Hne. apply lookup_append_other. exact Hne. }
    split; [reflexivity|].
    rewrite lookup_append_same. unfold new_lines.
    destruct (lookup_log (logs w) _); [reflexivity|].
    rewrite Hc. reflexivity.
Qed.

(** X7. Two records saved one after the other in the same month, the
    directory in place, the file of the month not existing before but
    possible to open, the cells of both rows modest and without a
    surrogate: both calls return, and the file holds the header once and
    then the two rows in order. *)
Theorem header_written_once (first second : session) (w : world)
  (row1 row2 : list (str * cell)) :
  let filename := log_filename (clock w (clock_reads w)) in
  log_dir_ok w = true ->
  log_file_ok w = true ->
  lookup_log (logs w) filename = None ->
  log_filename (clock w (S (S (clock_reads w)))) = filename ->
  row_data (strftime_full (clock w (S (clock_reads w)))) first
  = Return row1 ->
  row_data (strftime_full (clock w (S (S (S (clock_reads w)))))) second
  = Return row2 ->
  forallb modest_cell (map snd (row1 ++ row2)) = true ->
  existsb surrogate_cell (map snd (row1 ++ row2)) = false ->
  snd ((save_to_csv first ;;; save_to_csv second) w) = Return tt
  /\ lookup_log (logs (fst ((save_to_csv first ;;; save_to_csv second) w)))
       filename
     = Some [Header columns; Row (map snd row1); Row (map snd row2)].
Proof.
  cbv zeta. intros Hdir Hfile Hnew Hsame Hrow1 Hrow2 Hm Hs.
  rewrite map_app, forallb_app in Hm. apply andb_prop in Hm as [Hm1 Hm2].
  rewrite map_app, existsb_app in Hs. apply orb_false_elim in Hs as [Hs1 Hs2].
  pose proof (modest_row_error row1 Hm1) as Henc1. rewrite Hs1 in Henc1.
  pose proof (modest_row_error row2 Hm2) as Henc2. rewrite Hs2 in Henc2.
  unfold bindM.
  pose proof (save_to_csv_unfold first w) as E1. cbv zeta in E1.
  rewrite Hdir, Hrow1, Hfile, Henc1 in E1. rewrite E1.
  match goal with
  | |- context [save_to_csv second ?w1] =>
    pose proof (save_to_csv_unfold second w1) as E2; cbv zeta in E2;
    cbn [clock clock_reads logs log_dir_ok log_file_ok set_logs
         set_clock_reads] in E2
  end.
  rewrite Hdir, Hrow2, Hfile, Henc2, Hsame in E2. rewrite E2.
  cbn [fst snd logs set_logs]. split; [reflexivity|].
  rewrite !lookup_append_same, Hnew. unfold new_lines.
  destruct (row_data_fields _ _ _ Hrow1)
    as (s3 & s4 & a & b & c & d & e & f & g & h & F).
  destruct F as (_ & _ & _ & _ & _ & _ & _ & _ & _ & _ & ->).
  reflexivity.
Qed.

End LogProperties.

(** The session of the examples, saved into an empty log. *)
Lemma save_to_csv_appends_witness :
  let data := example_session (u "회사에서의 실수") in
  let row :=
    match row_data (u "2024-03-09 14:05:01") data with
    | Return r => r
    | Raise _ => []
    end in
  let filename := log_filename (clock worry_world (clock_reads worry_world)) in
  let w' := fst (@save_to_csv plain_builtins data worry_world) in
  let res := snd (@save_to_csv plain_builtins data worry_world) in
  map fst row = columns
  /\ clock_reads w' = S (S (clock_reads worry_world))
  /\ (forall other, other <> filename ->
        lookup_log (logs w') other = lookup_log (logs worry_world) other)
  /\ (if log_file_ok worry_world then
        if existsb surrogate_cell (map snd row) then
          res = Raise UnicodeEncodeError
          /\ lookup_log (logs w') filename
             = Some (match lookup_log (logs worry_world) filename with
                     | Some old => old
                     | None => [Header columns]
                     end)
        else
          res = Return tt
          /\ lookup_log (logs w') filename
             = Some (match lookup_log (logs worry_world) filename with
                     | Some old => old ++ [Row (map snd row)]
                     | None => [Header columns; Row (map snd row)]
                     end)
      else res = Raise OSError /\ logs w' = logs worry_world).
Proof.
  apply (@save_to_csv_appends plain_builtins
           (example_session (u "회사에서의 실수")) worry_world).
  - reflexivity.
  - vm_compute. reflexivity.
  - vm_compute. reflexivity.
Defined.

(** The session of the examples, saved twice. *)
Lemma header_written_once_witness :
  let data := example_session (u "회사에서의 실수") in
  let row (stamp : str) :=
    match row_data stamp data with
    | Return r => r
    | Raise _ => []
    end in
  snd ((@save_to_csv plain_builtins data ;;; @save_to_csv plain_builtins data)
         worry_world) = Return tt
  /\ lookup_log
       (logs (fst ((@save_to_csv plain_builtins data
                    ;;; @save_to_csv plain_builtins data) worry_world)))
       (log_filename (clock worry_world (clock_reads worry_world)))
     = Some [ Header columns;
              Row (map snd (row (u "2024-03-09 14:05:01")));
              Row (map snd (row (u "2024-03-09 14:05:03"))) ].
Proof.
  apply (@header_written_once plain_builtins
           (example_session (u "회사에서의 실수"))
           (example_session (u "회사에서의 실수")) worry_world).
  - reflexivity.
  - reflexivity.
  - vm_compute. reflexivity.
  - vm_compute. reflexivity.
  - vm_compute. reflexivity.
  - vm_compute. reflexivity.
  - vm_compute. reflexivity.
  - vm_compute. reflexivity.
Defined.

(** The session of the examples with a lone surrogate as the quotation,
    saved into an empty log: the header alone is written.  With an integer
    of one digit too many as the advice the conversion fails before
    anything is encoded, and with a list a thousand deep as well.  When the
    file cannot be opened nothing is written. *)
Example unwritable_rows :
  let data (advice : json) :=
    {| source := u "console"; email := [];
       gomin_result := example_gomin;
       advice_result :=
         JObj [ (u "STEP-2", JStr [55357%N]); (u "STEP-3", JNull);
                (u "STEP-4", advice) ];
       time1 := 1.5%float; time2 := 2.25%float |} in
  let file := u "txtfiles/counseling_log_202403.csv" in
  let outcome (B : Builtins) (advice : json) (w : world) :=
    (snd (@save_to_csv B (data advice) w),
     logs (fst (@save_to_csv B (data advice) w))) in
  outcome plain_builtins (JStr (u "실수에서 배우게")) worry_world
  = (Raise UnicodeEncodeError, [(file, [Header columns])])
  /\ outcome frugal_builtins (JInt (10 ^ 640)) worry_world
     = (Raise DigitLimitError, [(file, [Header columns])])
  /\ outcome plain_builtins (Nat.iter 1000 (fun v => JArr [v]) (JArr []))
       worry_world
     = (Raise RecursionError, [(file, [Header columns])])
  /\ outcome plain_builtins (JStr (u "실수에서 배우게"))
       {| noneo_file := None; rand := rand worry_world; rand_pos := 0;
          gpt := gpt worry_world; requests := [];
          clock := clock worry_world; clock_reads := 0;
          logs := []; log_dir_ok := true; log_file_ok := false;
          stdout := []; template_found := true;
          smtp_accepts := fun _ => true; deliveries := 0;
          outbox := [] |}
     = (Raise OSError, []).
Proof. cbv zeta. repeat split; vm_compute; reflexivity. Qed.

(** * Further properties of the mail service *)

Section MailProperties.
Context {B : Builtins}.

(** X8. [process_single_email] hands at most one reply to the mail server:
    it is addressed to the sender of the message, its subject is [Re: ]
    and the decoded subject, which passes the test, and it quotes the body
    of the message. *)
Theorem reply_goes_to_sender (processor : GongjaProcessor)
  (msg : email_message) (w : world) :
  let w' := fst (process_single_email processor msg w) in
  outbox w' = outbox w
  \/ exists subject body message,
       decode_subject (subject_fragments msg) = Return subject
       /\ triggered subject = true
       /\ get_email_body msg = Return body
       /\ outbox w'
          = outbox w
            ++ [ {| to_email := from_address msg;
                    reply_subject := u "Re: " ++ subject;
                    gomin_content := body;
                    custom_message := message |} ].
Proof.
  cbv zeta.
  pose proof (mail_effect processor msg w) as (_ & _ & _ & _ & H).
  destruct H as [[Ho _] | (subject & body & advice & message & request
                           & Hs & Ht & Hb & _ & _ & _ & _ & Ho & _)].
  - left. exact Ho.
  - destruct (smtp_accepts w (deliveries w)); [|left; exact Ho].
    right. exists subject, body, message. repeat split; assumption.
Qed.

(** X9. When the mail server refuses the one delivery that
    [process_single_email] attempts, no reply leaves, yet the call returns
    normally and the last line printed is the line of success. *)
Theorem refused_delivery_reported_as_success (processor : GongjaProcessor)
  (msg : email_message) (w : world) :
  let run := process_single_email processor msg w in
  deliveries (fst run) = S (deliveries w) ->
  smtp_accepts w (deliveries w) = false ->
  outbox (fst run) = outbox w
  /\ snd run = Return tt
  /\ exists printed,
       stdout (fst run)
       = printed ++ [Print [Lit (u "자동 답장에 성공했습니다.")]].
Proof.
  cbv zeta. intros Hd Hrefused.
  pose proof (mail_effect processor msg w) as (_ & _ & _ & _ & H).
  destruct H as [[_ Hd'] | (subject & body & advice & message & request
                            & _ & _ & _ & _ & _ & _ & _ & Ho & Hres & Hl)].
  - rewrite Hd' in Hd. exfalso. clear -Hd. induction (deliveries w);
      [discriminate | injection Hd as Hd; auto].
  - rewrite Hrefused in Ho. split; [exact Ho|]. split; [exact Hres|].
    destruct (stdout (fst (process_single_email processor msg w)))
      as [|line lines] eqn:E using rev_ind.
    + discriminate Hl.
    + rewrite last_last in Hl. exists lines. rewrite Hl. reflexivity.
Qed.

(** X10. Without the newsletter template no delivery is attempted and no
    reply leaves, whatever the message. *)
Theorem no_template_no_reply (processor : GongjaProcessor)
  (msg : email_message) (w : world) :
  template_found w = false ->
  deliveries (fst (process_single_email processor msg w)) = deliveries w
  /\ outbox (fst (process_single_email processor msg w)) = outbox w.
Proof.
  intros Ht.
  pose proof (mail_effect processor msg w) as (_ & _ & _ & _ & H).
  destruct H as [[Ho Hd] | (subject & body & advice & message & request
                            & _ & _ & _ & _ & _ & Hf & _)].
  - split; assumption.
  - rewrite Ht in Hf. discriminate.
Qed.

(** Reading the clock leaves the requests, the replies and the logs. *)
Lemma now_effect (w : world) :
  requests (fst (now w)) = requests w /\ outbox (fst (now w)) = outbox w
  /\ logs (fst (now w)) = logs w
  /\ snd (now w) = Return (clock w (clock_reads w)).
Proof. repeat split. Qed.

(** A run of [read_emails]: the requests, the replies and the logs of the
    batch that is fetched. *)
Lemma read_emails_effect (processor : GongjaProcessor) (mail : imap)
  (w : world) :
  let w' := fst (read_emails processor mail w) in
  (exists new, requests w' = requests w ++ new
               /\ (length new <= 2 * count_triggered (fetched_in mail w))%nat)
  /\ (exists mails, outbox w' = outbox w ++ mails
                    /\ (length mails <= count_triggered (fetched_in mail w))%nat)
  /\ logs_grow (logs w) (logs w').
Proof.
  cbv zeta. unfold read_emails, fetched_in, bindM, lift, now.
  assert (Hnothing : forall n,
    (exists new : list (list chat_message),
        requests w = requests w ++ new /\ (length new <= 2 * n)%nat)
    /\ (exists mails : list sent_mail,
           outbox w = outbox w ++ mails /\ (length mails <= n)%nat)
    /\ logs_grow (logs w) (logs w)).
  { intros n.
    split; [exists []; rewrite app_nil_r; split; [reflexivity | simpl; lia]|].
    split; [exists []; rewrite app_nil_r; split; [reflexivity | simpl; lia]|].
    apply logs_grow_refl. }
  destruct (login mail) as [[] | e]; cbn [fst snd]; [|apply Hnothing].
  destruct (search mail (clock w (clock_reads w))) as [[[] fetched] | e];
    cbn [fst snd ret]; try apply Hnothing.
  exact (process_fetched_effect processor fetched
           (set_clock_reads w (S (clock_reads w)))).
Qed.

(** X11. A run of [read_emails] sends at most two requests and lets at most
    one reply leave for each fetched message whose subject passes the test,
    and the log files only grow: every file is still there, with its old
    lines first.  When the login fails, or the search fails or does not
    answer [OK], no message is fetched. *)
Theorem read_emails_bounded (processor : GongjaProcessor) (mail : imap)
  (w : world) :
  let w' := fst (read_emails processor mail w) in
  let fetched :=
    match login mail with
    | Return _ =>
      match search mail (clock w (clock_reads w)) with
      | Return (true, fetched) => fetched
      | _ => []
      end
    | Raise _ => []
    end in
  (exists new, requests w' = requests w ++ new
               /\ (length new <= 2 * count_triggered fetched)%nat)
  /\ (exists mails, outbox w' = outbox w ++ mails
                    /\ (length mails <= count_triggered fetched)%nat)
  /\ (forall name old,
        lookup_log (logs w) name = Some old ->
        exists new, lookup_log (logs w') name = Some (old ++ new)).
Proof.
  cbv zeta.
  pose proof (read_emails_effect processor mail w) as (Hq & Ho & Hl).
  split; [exact Hq|]. split; [exact Ho|].
  intros name old Hold. exact (Hl name old Hold).
Qed.

(** X12. The loop of [read_emails] stops at the first message whose fetch
    or processing raises: the messages after it are not processed. *)
Theorem batch_stops_at_first_failure (processor : GongjaProcessor)
  (before after : list (result email_message)) (w : world) (e : exn) :
  snd (process_fetched processor before w) = Raise e ->
  process_fetched processor (before ++ after) w
  = process_fetched processor before w.
Proof.
  revert w. induction before as [|fetch before IH]; intros w H.
  - discriminate H.
  - cbn [process_fetched app] in *. unfold bindM, lift in *.
    destruct fetch as [msg | e']; [|reflexivity].
    destruct (process_single_email processor msg w) as [w1 [[] | e']];
      [|reflexivity].
    exact (IH w1 H).
Qed.

(** The fragments decoded onto a text already decoded. *)
Lemma decode_fragments_onto (fragments : list (fragment * option str))
  (decoded : str) :
  decode_fragments fragments decoded
  = (piece <- decode_fragments fragments [] ;; Return (decoded ++ piece)).
Proof.
  revert decoded.
  induction fragments as [|[[b | s] encoding] rest IH]; intros decoded;
    cbn [decode_fragments bind].
  - rewrite app_nil_r. reflexivity.
  - destruct (match encoding with
              | Some (c :: enc) => codec_decode (c :: enc) b
              | _ => decode_utf8 b
              end) as [piece | e]; cbn [bind]; [|reflexivity].
    rewrite (IH (decoded ++ piece)), (IH ([] ++ piece)).
    destruct (decode_fragments rest []); cbn [bind app]; [|reflexivity].
    rewrite app_assoc. reflexivity.
  - rewrite (IH (decoded ++ s)), (IH ([] ++ s)).
    destruct (decode_fragments rest []); cbn [bind app]; [|reflexivity].
    rewrite app_assoc. reflexivity.
Qed.

(** The fragments of two runs, decoded in one pass. *)
Lemma decode_fragments_app (first second : list (fragment * option str))
  (decoded : str) :
  decode_fragments (first ++ second) decoded
  = (head <- decode_fragments first decoded ;; decode_fragments second head).
Proof.
  revert decoded.
  induction first as [|[[b | s] encoding] rest IH]; intros decoded;
    cbn [decode_fragments app bind].
  - reflexivity.
  - destruct (match encoding with
              | Some (c :: enc) => codec_decode (c :: enc) b
              | _ => decode_utf8 b
              end) as [piece | e]; cbn [bind]; [|reflexivity].
    exact (IH (decoded ++ piece)).
  - exact (IH (decoded ++ s)).
Qed.

(** X13. [decode_subject] decodes fragment by fragment: the subject of two
    runs of fragments is the subject of the first followed by the subject
    of the second, and the error of the first fragment that does not decode
    otherwise. *)
Theorem decode_subject_app (first second : list (fragment * option str)) :
  decode_subject (first ++ second)
  = (head <- decode_subject first ;;
     tail <- decode_subject second ;;
     Return (head ++ tail)).
Proof.
  unfold decode_subject. rewrite decode_fragments_app.
  destruct (decode_fragments first []) as [head | e]; cbn [bind];
    [|reflexivity].
  apply decode_fragments_onto.
Qed.

End MailProperties.

(** X14. The body of a multipart message is the decoded payload of the
    first part, in the order of [walk], that is of a text type and whose
    disposition does not mention an attachment; when there is no such part
    the body is the empty text. *)
Theorem body_is_first_text_part (msg : email_message) :
  is_multipart msg = true ->
  get_email_body msg
  = match List.find eligible (walk msg) with
    | Some p => payload_text p
    | None => Return []
    end.
Proof.
  intros Hm. unfold get_email_body. rewrite Hm.
  induction (walk msg) as [|p parts IH]; [reflexivity|].
  cbn [first_text_part List.find]. fold (eligible p).
  destruct (eligible p); [reflexivity | exact IH].
Qed.

(** The worry mail in the world whose mail server refuses. *)
Lemma refused_delivery_reported_as_success_witness :
  let run :=
    @process_single_email plain_builtins example_processor worry_mail
      refusing_world in
  outbox (fst run) = outbox refusing_world
  /\ snd run = Return tt
  /\ exists printed,
       stdout (fst run)
       = printed ++ [Print [Lit (u "자동 답장에 성공했습니다.")]].
Proof.
  apply (@refused_delivery_reported_as_success plain_builtins
           example_processor worry_mail refusing_world).
  - vm_compute. reflexivity.
  - reflexivity.
Defined.

(** The worry mail in the world without the template. *)
Lemma no_template_no_reply_witness :
  deliveries (fst (@process_single_email plain_builtins example_processor
                     worry_mail untemplated_world))
  = deliveries untemplated_world
  /\ outbox (fst (@process_single_email plain_builtins example_processor
                    worry_mail untemplated_world))
     = outbox untemplated_world.
Proof.
  apply (@no_template_no_reply plain_builtins example_processor worry_mail
           untemplated_world).
  reflexivity.
Defined.

(** A fetch that fails before the worry mail. *)
Lemma batch_stops_at_first_failure_witness :
  @process_fetched plain_builtins example_processor
    ([Raise OSError] ++ [Return worry_mail]) worry_world
  = @process_fetched plain_builtins example_processor [Raise OSError]
      worry_world.
Proof.
  apply (@batch_stops_at_first_failure plain_builtins example_processor
           [Raise OSError] [Return worry_mail] worry_world OSError).
  reflexivity.
Defined.

(** The attached text file is passed over, the HTML part is the body. *)
Lemma body_is_first_text_part_witness :
  get_email_body mail_with_attachment
  = match List.find eligible (walk mail_with_attachment) with
    | Some p => payload_text p
    | None => Return []
    end.
Proof.
  apply (body_is_first_text_part mail_with_attachment).
  reflexivity.
Defined.

(** * The environment and the entry point of the mail service *)

(** The five variables the program needs. *)
Lemma setup_environment_cases (getenv : str -> option str) :
  SendMail.setup_environment getenv
  = if not_set (getenv (u "OPENAI_API_KEY"))
    then Raise (ValueError api_key_missing None)
    else if negb (not_set (getenv (u "EMAIL_ACCOUNT")))
            && negb (not_set (getenv (u "EMAIL_PASSWORD")))
            && negb (not_set (getenv (u "IMAP_SERVER")))
            && negb (not_set (getenv (u "SMTP_SERVER")))
    then Return tt
    else
      Raise (ValueError
               (variables_missing
                ++ join (u ", ")
                     (filter (fun var => not_set (getenv var))
                        [ u "EMAIL_ACCOUNT"; u "EMAIL_PASSWORD";
                          u "IMAP_SERVER"; u "SMTP_SERVER" ]))
               None).
Proof.
  unfold SendMail.setup_environment.
  destruct (not_set (getenv (u "OPENAI_API_KEY"))); [reflexivity|].
  cbn [filter].
  destruct (not_set (getenv (u "EMAIL_ACCOUNT")));
    destruct (not_set (getenv (u "EMAIL_PASSWORD")));
    destruct (not_set (getenv (u "IMAP_SERVER")));
    destruct (not_set (getenv (u "SMTP_SERVER"))); reflexivity.
Qed.

(** X15. [setup_environment] returns exactly when [OPENAI_API_KEY],
    [EMAIL_ACCOUNT], [EMAIL_PASSWORD], [IMAP_SERVER] and [SMTP_SERVER] are
    all set to a non-empty text; otherwise it raises a [ValueError], and no
    other exception. *)
Theorem setup_environment_succeeds_iff (getenv : str -> option str) :
  (SendMail.setup_environment getenv = Return tt
   <-> forall var,
         In var [ u "OPENAI_API_KEY"; u "EMAIL_ACCOUNT"; u "EMAIL_PASSWORD";
                  u "IMAP_SERVER"; u "SMTP_SERVER" ] ->
         exists c value, getenv var = Some (c :: value))
  /\ (forall e, SendMail.setup_environment getenv = Raise e ->
        exists msg, e = ValueError msg None).
Proof.
  assert (Hset : forall value,
             not_set value = false <-> exists c s, value = Some (c :: s)).
  { intros [[|c s]|]; cbn [not_set]; split; intros H; try discriminate;
      try reflexivity.
    - destruct H as (c & s & H). discriminate.
    - exists c, s. reflexivity.
    - destruct H as (c & s & H). discriminate. }
  rewrite setup_environment_cases. split.
  - split.
    + intros H var Hin.
      destruct (not_set (getenv (u "OPENAI_API_KEY"))) eqn:K;
        [discriminate|].
      destruct (not_set (getenv (u "EMAIL_ACCOUNT"))) eqn:A;
        [discriminate|].
      destruct (not_set (getenv (u "EMAIL_PASSWORD"))) eqn:P;
        [discriminate|].
      destruct (not_set (getenv (u "IMAP_SERVER"))) eqn:I; [discriminate|].
      destruct (not_set (getenv (u "SMTP_SERVER"))) eqn:S; [discriminate|].
      cbn [In] in Hin.
      destruct Hin as [<- | [<- | [<- | [<- | [<- | []]]]]];
        apply Hset; assumption.
    + intros H.
      assert (Hall : forall var,
                 In var [ u "OPENAI_API_KEY"; u "EMAIL_ACCOUNT";
                          u "EMAIL_PASSWORD"; u "IMAP_SERVER";
                          u "SMTP_SERVER" ] ->
                 not_set (getenv var) = false).
      { intros var Hin. apply Hset. exact (H var Hin). }
      rewrite !Hall by (cbn [In]; tauto). reflexivity.
  - intros e H.
    destruct (not_set (getenv (u "OPENAI_API_KEY")));
      [injection H as <-; eexists; reflexivity|].
    destruct (_ && _); [discriminate|].
    injection H as <-. eexists; reflexivity.
Qed.

(** X16. The [setup_environment] of [main.py] accepts and refuses the same
    environments as that of [send_mail.py], with the same error; when it
    returns, its configuration holds the key and the default path of the
    passage file. *)
Theorem setup_environment_agree (getenv : str -> option str) :
  Main.setup_environment getenv
  = match SendMail.setup_environment getenv with
    | Return _ =>
      Return {| Main.OPENAI_API_KEY := getenv (u "OPENAI_API_KEY");
                Main.NONEO_DATA_PATH := u "./files/noneo_data.json" |}
    | Raise e => Raise e
    end.
Proof.
  unfold Main.setup_environment, SendMail.setup_environment.
  destruct (not_set (getenv (u "OPENAI_API_KEY"))); [reflexivity|].
  destruct (filter _ _); reflexivity.
Qed.

(** X17. Once [setup_environment] has returned, the configuration that
    [EmailConfig.from_env] reads has its two servers, its account and its
    password set to non-empty texts. *)
Theorem configured_after_setup (getenv : str -> option str) :
  SendMail.setup_environment getenv = Return tt ->
  let config := SendMail.from_env getenv in
  not_set (SendMail.IMAP_SERVER config) = false
  /\ not_set (SendMail.SMTP_SERVER config) = false
  /\ not_set (SendMail.EMAIL_ACCOUNT config) = false
  /\ not_set (SendMail.PASSWORD config) = false.
Proof.
  rewrite setup_environment_cases. cbv zeta.
  cbn [SendMail.from_env SendMail.IMAP_SERVER SendMail.SMTP_SERVER
       SendMail.EMAIL_ACCOUNT SendMail.PASSWORD].
  destruct (not_set (getenv (u "OPENAI_API_KEY"))); [discriminate|].
  destruct (not_set (getenv (u "EMAIL_ACCOUNT"))); [discriminate|].
  destruct (not_set (getenv (u "EMAIL_PASSWORD"))); [discriminate|].
  destruct (not_set (getenv (u "IMAP_SERVER"))); [discriminate|].
  destruct (not_set (getenv (u "SMTP_SERVER"))); [discriminate|].
  repeat split.
Qed.

Section EntryPoint.
Context {B : Builtins}.

(** X18. When a variable is missing, [main] of [send_mail.py] prints the
    error and returns: the processor is not built, the mail server is not
    contacted, and no request, log file or mail is touched. *)
Theorem main_stops_on_missing_variable (getenv : str -> option str)
  (construct : result GongjaProcessor)
  (server : SendMail.EmailConfig -> imap) (w : world) (e : exn) :
  SendMail.setup_environment getenv = Raise e ->
  SendMail.main getenv construct server w
  = (set_stdout w
       (stdout w ++ [Print [Lit (u "오류가 발생했습니다: "); Val (SExn e)]]),
     Return tt).
Proof.
  intros H. unfold SendMail.main, try_except, bindM, lift. rewrite H.
  reflexivity.
Qed.

(** [main] of [send_mail.py], stage by stage. *)
Lemma send_mail_main_cases (getenv : str -> option str)
  (construct : result GongjaProcessor)
  (server : SendMail.EmailConfig -> imap) (w : world) :
  SendMail.main getenv construct server w
  = let failed e :=
      print [Lit (u "오류가 발생했습니다: "); Val (SExn e)] in
    match SendMail.setup_environment getenv with
    | Raise e => failed e w
    | Return _ =>
      match construct with
      | Raise e => failed e w
      | Return processor =>
        match read_emails processor (server (SendMail.from_env getenv)) w with
        | (w', Return a) => (w', Return a)
        | (w', Raise e) => failed e w'
        end
      end
    end.
Proof.
  unfold SendMail.main, try_except, bindM, lift.
  destruct (SendMail.setup_environment getenv); [|reflexivity].
  destruct construct; reflexivity.
Qed.

(** X19. [main] of [send_mail.py] never raises: whatever the environment,
    the construction of the processor and the mail server do, it returns,
    having sent at most two requests and let at most one reply leave for
    each fetched message whose subject passes the test. *)
Theorem main_never_raises (getenv : str -> option str)
  (construct : result GongjaProcessor)
  (server : SendMail.EmailConfig -> imap) (w : world) :
  let run := SendMail.main getenv construct server w in
  let mail := server (SendMail.from_env getenv) in
  let fetched :=
    match login mail with
    | Return _ =>
      match search mail (clock w (clock_reads w)) with
      | Return (true, fetched) => fetched
      | _ => []
      end
    | Raise _ => []
    end in
  snd run = Return tt
  /\ (exists new, requests (fst run) = requests w ++ new
                  /\ (length new <= 2 * count_triggered fetched)%nat)
  /\ (exists mails, outbox (fst run) = outbox w ++ mails
                    /\ (length mails <= count_triggered fetched)%nat).
Proof.
  cbv zeta. rewrite send_mail_main_cases. cbv zeta.
  fold (fetched_in (server (SendMail.from_env getenv)) w).
  assert (Hnothing : forall line n,
    snd (print line w) = Return tt
    /\ (exists new, requests (fst (print line w)) = requests w ++ new
                    /\ (length new <= 2 * n)%nat)
    /\ (exists mails, outbox (fst (print line w)) = outbox w ++ mails
                      /\ (length mails <= n)%nat)).
  { intros line n. split; [reflexivity|].
    split; exists []; rewrite app_nil_r; split;
      try reflexivity; simpl; lia. }
  destruct (SendMail.setup_environment getenv) as [[] | e];
    [|apply Hnothing].
  destruct construct as [processor | e]; [|apply Hnothing].
  pose proof (read_emails_effect processor
                (server (SendMail.from_env getenv)) w) as (Hq & Ho & _).
  destruct (read_emails processor (server (SendMail.from_env getenv)) w)
    as [w' [[] | e]]; unfold print;
    cbn [fst snd requests outbox set_stdout] in *.
  - split; [reflexivity|]. split; assumption.
  - split; [reflexivity|]. split; assumption.
Qed.

End EntryPoint.

(** The environment without [IMAP_SERVER] and with an empty
    [SMTP_SERVER]. *)
Lemma main_stops_on_missing_variable_witness :
  @SendMail.main plain_builtins example_getenv (Return example_processor)
    (fun _ => example_server) worry_world
  = (set_stdout worry_world
       (stdout worry_world
        ++ [Print [Lit (u "오류가 발생했습니다: ");
                   Val (SExn (ValueError
                                (variables_missing
                                 ++ u "IMAP_SERVER, SMTP_SERVER") None))]]),
     Return tt).
Proof.
  apply (@main_stops_on_missing_variable plain_builtins example_getenv
           (Return example_processor) (fun _ => example_server) worry_world).
  vm_compute. reflexivity.
Defined.

(** The environment with the five variables. *)
Lemma configured_after_setup_witness :
  let config := SendMail.from_env full_getenv in
  not_set (SendMail.IMAP_SERVER config) = false
  /\ not_set (SendMail.SMTP_SERVER config) = false
  /\ not_set (SendMail.EMAIL_ACCOUNT config) = false
  /\ not_set (SendMail.PASSWORD config) = false.
Proof.
  apply (configured_after_setup full_getenv).
  vm_compute. reflexivity.
Defined.

(** * The console *)

(** ** Worlds that differ by printed lines *)

Lemma set_stdout_same (w : world) : set_stdout w (stdout w ++ []) = w.
Proof. destruct w. unfold set_stdout. cbn. rewrite app_nil_r. reflexivity. Qed.

Lemma set_stdout_twice (w : world) (a b : list event) :
  set_stdout (set_stdout w (stdout w ++ a))
    (stdout (set_stdout w (stdout w ++ a)) ++ b)
  = set_stdout w (stdout w ++ a ++ b).
Proof. unfold set_stdout. cbn. rewrite <- app_assoc. reflexivity. Qed.

Lemma prints_only_refl (w : world) : prints_only w w.
Proof. exists []. symmetry. apply set_stdout_same. Qed.

Lemma prints_only_trans (w1 w2 w3 : world) :
  prints_only w1 w2 -> prints_only w2 w3 -> prints_only w1 w3.
Proof.
  intros [p1 ->] [p2 ->]. exists (p1 ++ p2). apply set_stdout_twice.
Qed.

Lemma prints_only_fields (w w' : world) :
  prints_only w w' ->
  requests w' = requests w /\ outbox w' = outbox w
  /\ deliveries w' = deliveries w /\ logs w' = logs w.
Proof. intros [p ->]. repeat split. Qed.

Section ConsoleFacts.
Context {B : Builtins} {T : Terminal}.
Variable worries : list (str * list str).

Lemma say_effect (line : list piece) (t : terminal) (w : world) :
  Main.say line t w
  = (t, set_stdout w (stdout w ++ [Print line]), Returned tt).
Proof. reflexivity. Qed.

Lemma say_each_effect (lines : list (list piece)) (t : terminal) (w : world) :
  Main.say_each lines t w
  = (t, set_stdout w (stdout w ++ map Print lines), Returned tt).
Proof.
  revert w. induction lines as [|line lines IH]; intros w.
  - cbn [Main.say_each map Main.retC]. rewrite set_stdout_same. reflexivity.
  - cbn [Main.say_each map]. unfold Main.bindC. rewrite say_effect, IH.
    rewrite set_stdout_twice. reflexivity.
Qed.

(** ** [get_valid_input] *)

Lemma accepted_range (max_num : Z) (line : str) (num : Z) :
  accepted max_num line = Some num ->
  py_int line = Some num /\ (1 <= num <= max_num)%Z.
Proof.
  unfold accepted. destruct (py_int line) as [n|]; [|discriminate].
  destruct ((1 <=? n) && (n <=? max_num))%Z eqn:E; [|discriminate].
  intros H. injection H as <-. split; [reflexivity|].
  apply andb_prop in E. lia.
Qed.

(** A round on a line that is taken. *)
Lemma round_accepts (max_num : Z) (prompt line : str) (rest : list str)
  (num : Z) (t : terminal) (w : world) :
  typed t = line :: rest ->
  accepted max_num line = Some num ->
  Main.get_valid_input_round max_num prompt t w
  = ({| typed := rest; asked := asked t ++ [prompt] |}, w,
     Returned (Some num)).
Proof.
  intros Ht Ha. unfold Main.get_valid_input_round, Main.bindC, Main.input.
  rewrite Ht. unfold accepted in Ha.
  destruct (py_int line) as [n|]; [|discriminate].
  destruct ((1 <=? n) && (n <=? max_num))%Z; [|discriminate].
  injection Ha as <-. reflexivity.
Qed.

(** A round on a line that is not taken. *)
Lemma round_rejects (max_num : Z) (prompt line : str) (rest : list str)
  (t : terminal) (w : world) :
  typed t = line :: rest ->
  accepted max_num line = None ->
  Main.get_valid_input_round max_num prompt t w
  = ({| typed := rest; asked := asked t ++ [prompt] |},
     set_stdout w (stdout w ++ [complaint max_num line]),
     Returned None).
Proof.
  intros Ht Ha. unfold Main.get_valid_input_round, Main.bindC, Main.input.
  rewrite Ht. unfold accepted in Ha. unfold complaint.
  destruct (py_int line) as [n|]; [|reflexivity].
  destruct ((1 <=? n) && (n <=? max_num))%Z; [discriminate | reflexivity].
Qed.

(** A round at the end of the typed lines. *)
Lemma round_eof (max_num : Z) (prompt : str) (t : terminal) (w : world) :
  typed t = [] ->
  Main.get_valid_input_round max_num prompt t w
  = ({| typed := []; asked := asked t ++ [prompt] |}, w, EOFError).
Proof.
  intros Ht. unfold Main.get_valid_input_round, Main.bindC, Main.input.
  rewrite Ht. reflexivity.
Qed.

Lemma loop_first_accepted (max_num : Z) (prompt : str)
  (rejected : list str) (line : str) (rest : list str) (num : Z) :
  Forall (fun l => accepted max_num l = None) rejected ->
  accepted max_num line = Some num ->
  forall (budget : nat) (t : terminal) (w : world),
    typed t = rejected ++ line :: rest ->
    (length rejected < budget)%nat ->
    Main.while_true budget (Main.get_valid_input_round max_num prompt) t w
    = ({| typed := rest;
          asked := asked t ++ repeat prompt (S (length rejected)) |},
       set_stdout w (stdout w ++ map (complaint max_num) rejected),
       Returned num).
Proof.
  intros Hrej Hacc. induction Hrej as [|r rejected Hr Hrej IH];
    intros budget t w Ht Hb.
  - destruct budget as [|budget]; [inversion Hb|].
    cbn [Main.while_true]. unfold Main.bindC at 1.
    rewrite (round_accepts max_num prompt line rest num t w Ht Hacc).
    cbn [map length repeat Main.retC]. rewrite set_stdout_same. reflexivity.
  - destruct budget as [|budget]; [inversion Hb|].
    cbn [Main.while_true]. unfold Main.bindC at 1.
    rewrite (round_rejects max_num prompt r (rejected ++ line :: rest) t w
               Ht Hr).
    rewrite IH; [|reflexivity | cbn [length] in Hb; lia].
    cbn [typed asked map length].
    rewrite set_stdout_twice, <- app_assoc. reflexivity.
Qed.

Lemma loop_none_accepted (max_num : Z) (prompt : str) (lines : list str) :
  Forall (fun l => accepted max_num l = None) lines ->
  forall (budget : nat) (t : terminal) (w : world),
    typed t = lines ->
    (length lines < budget)%nat ->
    Main.while_true budget (Main.get_valid_input_round max_num prompt) t w
    = ({| typed := [];
          asked := asked t ++ repeat prompt (S (length lines)) |},
       set_stdout w (stdout w ++ map (complaint max_num) lines),
       EOFError).
Proof.
  intros Hrej. induction Hrej as [|r lines Hr Hrej IH];
    intros budget t w Ht Hb.
  - destruct budget as [|budget]; [inversion Hb|].
    cbn [Main.while_true]. unfold Main.bindC at 1.
    rewrite (round_eof max_num prompt t w Ht).
    cbn [map length repeat]. rewrite set_stdout_same. reflexivity.
  - destruct budget as [|budget]; [inversion Hb|].
    cbn [Main.while_true]. unfold Main.bindC at 1.
    rewrite (round_rejects max_num prompt r lines t w Ht Hr).
    rewrite IH; [|reflexivity | cbn [length] in Hb; lia].
    cbn [typed asked map length].
    rewrite set_stdout_twice, <- app_assoc. reflexivity.
Qed.

(** The typed lines: none is taken, or there is a first one that is. *)
Lemma first_accepted (max_num : Z) (lines : list str) :
  Forall (fun l => accepted max_num l = None) lines
  \/ exists rejected line rest num,
       lines = rejected ++ line :: rest
       /\ Forall (fun l => accepted max_num l = None) rejected
       /\ accepted max_num line = Some num.
Proof.
  induction lines as [|l lines IH]; [left; constructor|].
  destruct (accepted max_num l) as [num|] eqn:E.
  - right. exists [], l, lines, num. repeat split; [constructor | exact E].
  - destruct IH as [IH | (rejected & line & rest & num & -> & Hr & Ha)].
    + left. constructor; assumption.
    + right. exists (l :: rejected), line, rest, num.
      repeat split; [constructor; assumption | exact Ha].
Qed.

(** How [get_valid_input] ends: with a number between 1 and [max_num] and
    at least one line read, or at the end of the typed lines; it only
    prints. *)
Lemma get_valid_input_ended (max_num : Z) (prompt : str) (t : terminal)
  (w : world) :
  exists t' w' r,
    Main.get_valid_input max_num prompt t w = (t', w', r)
    /\ prints_only w w'
    /\ ((exists num, r = Returned num /\ (1 <= num <= max_num)%Z
                     /\ (length (typed t') < length (typed t))%nat)
        \/ (r = EOFError /\ typed t' = [])).
Proof.
  unfold Main.get_valid_input.
  destruct (first_accepted max_num (typed t))
    as [Hnone | (rejected & line & rest & num & Ht & Hr & Ha)].
  - eexists _, _, _. split;
      [apply (loop_none_accepted max_num prompt (typed t) Hnone);
       [reflexivity | lia]|].
    split; [eexists; reflexivity|]. right. split; reflexivity.
  - eexists _, _, _. split;
      [apply (loop_first_accepted max_num prompt rejected line rest num
                Hr Ha); [exact Ht | rewrite Ht, length_app; lia]|].
    split; [eexists; reflexivity|]. left. exists num.
    split; [reflexivity|]. split; [exact (proj2 (accepted_range _ _ _ Ha))|].
    cbn [typed]. rewrite Ht, length_app. cbn [length]. lia.
Qed.


(** ** [select_predefined_worry] *)

Lemma list_item_in {A} (l : list A) (num : Z) :
  (1 <= num <= Z.of_nat (length l))%Z ->
  exists a, list_item l (num - 1) = Return a /\ In a l.
Proof.
  intros H. unfold list_item.
  destruct (num - 1 <? 0)%Z eqn:E; [apply Z.ltb_lt in E; lia|].
  rewrite E.
  destruct (nth_error l (Z.to_nat (num - 1))) as [a|] eqn:En.
  - exists a. split; [reflexivity|]. exact (nth_error_In _ _ En).
  - apply nth_error_None in En. lia.
Qed.

Lemma worries_item_key (category : str) :
  In category (Main.worries_keys worries) ->
  exists entry,
    Main.worries_item worries category = Return (snd entry)
    /\ In entry worries.
Proof.
  unfold Main.worries_keys, Main.worries_item. intros H.
  induction worries as [|entry l IH]; [destruct H|].
  cbn [List.find]. destruct (str_eqb (fst entry) category) eqn:E.
  - exists entry. split; [reflexivity | left; reflexivity].
  - destruct H as [H | H].
    + rewrite H, str_eqb_refl in E. discriminate.
    + destruct (IH H) as (entry' & E' & Hin).
      exists entry'. split; [exact E' | right; exact Hin].
Qed.

Lemma display_worry_categories_effect (t : terminal) (w : world) :
  exists printed,
    Main.display_worry_categories worries t w
    = (t, set_stdout w (stdout w ++ printed),
       Returned (Main.worries_keys worries)).
Proof.
  unfold Main.display_worry_categories, Main.bindC.
  rewrite say_effect, say_each_effect, set_stdout_twice.
  eexists. reflexivity.
Qed.

Lemma display_worries_in_category_effect (category : str)
  (listed : list str) (t : terminal) (w : world) :
  Main.worries_item worries category = Return listed ->
  exists printed,
    Main.display_worries_in_category worries category t w
    = (t, set_stdout w (stdout w ++ printed), Returned listed).
Proof.
  intros H. unfold Main.display_worries_in_category, Main.bindC.
  rewrite say_effect. unfold Main.run, lift. rewrite H.
  rewrite say_each_effect, set_stdout_twice.
  eexists. reflexivity.
Qed.

(** How [select_predefined_worry] ends: with a worry of one of the
    categories and at least two lines read, or at the end of the typed
    lines; it only prints. *)
Lemma select_predefined_worry_ended (t : terminal) (w : world) :
  exists t' w' r,
    Main.select_predefined_worry worries t w = (t', w', r)
    /\ prints_only w w'
    /\ ((exists worry entry,
           r = Returned worry /\ In entry worries /\ In worry (snd entry)
           /\ (length (typed t') + 2 <= length (typed t))%nat)
        \/ (r = EOFError /\ typed t' = [])).
Proof.
  unfold Main.select_predefined_worry.
  unfold Main.bindC at 1.
  destruct (display_worry_categories_effect t w) as [p1 E1]. rewrite E1.
  assert (P1 : prints_only w (set_stdout w (stdout w ++ p1)))
    by (eexists; reflexivity).
  set (w1 := set_stdout w (stdout w ++ p1)) in *.
  unfold Main.bindC at 1.
  destruct (get_valid_input_ended
              (Z.of_nat (length (Main.worries_keys worries)))
              (u "
카테고리 번호를 선택하세요: ") t w1)
    as (t2 & w2 & r2 & E2 & P2 & H2).
  rewrite E2.
  pose proof (prints_only_trans _ _ _ P1 P2) as P12.
  destruct H2 as [(num & -> & Hnum & Hlen2) | [-> Hend]].
  2: { eexists _, _, _. split; [reflexivity|]. split; [exact P12|].
       right. split; [reflexivity | exact Hend]. }
  unfold Main.bindC at 1. unfold Main.run at 1, lift at 1.
  destruct (list_item_in _ _ Hnum) as (category & Ec & Hc). rewrite Ec.
  destruct (worries_item_key category Hc) as (entry & Ee & He).
  unfold Main.bindC at 1.
  destruct (display_worries_in_category_effect category (snd entry) t2 w2 Ee)
    as [p3 E3].
  rewrite E3.
  assert (P3 : prints_only w (set_stdout w2 (stdout w2 ++ p3)))
    by (apply (prints_only_trans _ _ _ P12); eexists; reflexivity).
  set (w3 := set_stdout w2 (stdout w2 ++ p3)) in *.
  unfold Main.bindC at 1.
  destruct (get_valid_input_ended (Z.of_nat (length (snd entry)))
              (u "
고민 번호를 선택하세요: ") t2 w3)
    as (t4 & w4 & r4 & E4 & P4 & H4).
  rewrite E4.
  pose proof (prints_only_trans _ _ _ P3 P4) as P34.
  destruct H4 as [(num' & -> & Hnum' & Hlen4) | [-> Hend]].
  2: { eexists _, _, _. split; [reflexivity|]. split; [exact P34|].
       right. split; [reflexivity | exact Hend]. }
  unfold Main.run, lift.
  destruct (list_item_in _ _ Hnum') as (worry & Ew & Hw). rewrite Ew.
  eexists _, _, _. split; [reflexivity|]. split; [exact P34|].
  left. exists worry, entry. repeat split; try assumption. lia.
Qed.

(** ** [process_console_input] *)

Lemma session_bound_trans (t t1 t2 : terminal) (w w1 w2 : world) :
  session_bound t w t1 w1 -> session_bound t1 w1 t2 w2 ->
  session_bound t w t2 w2.
Proof.
  intros (Ho1 & Hd1 & new1 & Hq1 & Hl1) (Ho2 & Hd2 & new2 & Hq2 & Hl2).
  split; [congruence|]. split; [congruence|].
  exists (new1 ++ new2). rewrite Hq2, Hq1, app_assoc, length_app.
  split; [reflexivity | lia].
Qed.

Lemma session_bound_prints (t t' : terminal) (w w' : world) :
  prints_only w w' ->
  (length (typed t') <= length (typed t))%nat ->
  session_bound t w t' w'.
Proof.
  intros P Hl. destruct (prints_only_fields _ _ P) as (Hq & Ho & Hd & _).
  split; [exact Ho|]. split; [exact Hd|].
  exists []. rewrite app_nil_r. split; [exact Hq | simpl; lia].
Qed.

(** A worry processed from the console: at most two requests, nothing
    mailed. *)
Lemma concern_bound (processor : GongjaProcessor) (concern : str)
  (w : world) :
  let w' := fst (process_and_save_concern processor concern []
                   (u "console") w) in
  outbox w' = outbox w /\ deliveries w' = deliveries w
  /\ exists new, requests w' = requests w ++ new /\ (length new <= 2)%nat.
Proof.
  cbv zeta.
  pose proof (concern_effect processor concern [] (u "console") w)
    as (Ho & Hd & _ & _ & H).
  split; [exact Ho|]. split; [exact Hd|].
  destruct (snd (process_and_save_concern processor concern []
                   (u "console") w)) as [[advice|]|e].
  - destruct H as (r & t1 & t2 & g & request & row & _ & _ & Hq & _).
    eexists. split; [exact Hq | simpl; lia].
  - destruct H as (Hq & _). eexists. split; [exact Hq | simpl; lia].
  - destruct H as (_ & [Hq | [request Hq]]);
      eexists; (split; [exact Hq | simpl; lia]).
Qed.

(** A worry processed after some lines were read. *)
Lemma run_concern_bound (processor : GongjaProcessor) (concern : str)
  (t t1 : terminal) (w w1 : world) :
  prints_only w w1 ->
  (length (typed t1) + 2 <= length (typed t))%nat ->
  exists w' r,
    Main.bindC
      (Main.run (process_and_save_concern processor concern [] (u "console")))
      (fun _ => Main.retC None) t1 w1
    = (t1, w', r)
    /\ session_bound t w t1 w'
    /\ (r = Returned (@None unit) \/ exists e, r = Raised e).
Proof.
  intros P Hl. unfold Main.bindC, Main.run.
  pose proof (concern_bound processor concern w1)
    as (Ho & Hd & new & Hq & Hn).
  destruct (prints_only_fields _ _ P) as (Hq1 & Ho1 & Hd1 & _).
  destruct (process_and_save_concern processor concern [] (u "console") w1)
    as [w' [a | e]]; cbn [fst] in *.
  - exists w', (Returned None). split; [reflexivity|].
    split; [|left; reflexivity].
    split; [congruence|]. split; [congruence|].
    exists new. rewrite Hq, Hq1. split; [reflexivity | lia].
  - exists w', (Raised e). split; [reflexivity|].
    split; [|right; eexists; reflexivity].
    split; [congruence|]. split; [congruence|].
    exists new. rewrite Hq, Hq1. split; [reflexivity | lia].
Qed.

(** One round of the session: it reads a line unless it meets the end of
    the typed lines, and it stays within the bound. *)
Lemma console_round_effect (processor : GongjaProcessor) (t : terminal)
  (w : world) :
  exists t' w' r,
    Main.process_console_input_round worries processor t w = (t', w', r)
    /\ session_bound t w t' w'
    /\ r <> Unfinished
    /\ (r = Returned None -> (length (typed t') < length (typed t))%nat).
Proof.
  unfold Main.process_console_input_round.
  unfold Main.bindC at 1. unfold Main.input at 1.
  remember (length (typed t)) as n eqn:Hn.
  destruct (typed t) as [|line rest] eqn:Ht.
  { eexists _, _, _. split; [reflexivity|].
    split; [apply session_bound_prints;
            [apply prints_only_refl | cbn [typed]; rewrite Ht; lia]|].
    split; discriminate. }
  cbn [length] in Hn.
  match goal with
  | |- context [{| typed := rest; asked := ?a |}] =>
    set (t1 := {| typed := rest; asked := a |})
  end.
  assert (Ht1 : (length (typed t1) + 1 <= length (typed t))%nat)
    by (rewrite Ht; cbn [typed t1 length]; lia).
  destruct (existsb (str_eqb (lower (strip line))) [u "quit"; u "exit"]).
  { unfold Main.bindC. rewrite say_effect. eexists _, _, _.
    split; [reflexivity|].
    split; [apply session_bound_prints; [eexists; reflexivity | lia]|].
    split; discriminate. }
  destruct (negb (existsb (str_eqb (strip line)) [u "1"; u "2"])).
  { unfold Main.bindC. rewrite say_effect. eexists _, _, _.
    split; [reflexivity|].
    split; [apply session_bound_prints; [eexists; reflexivity | lia]|].
    split; [discriminate | intros _; rewrite Ht in Ht1; cbn [length] in Ht1; lia]. }
  destruct (str_eqb (strip line) (u "1")).
  - unfold Main.bindC at 1. unfold Main.input at 1. cbn [typed asked t1].
    destruct rest as [|line' rest'].
    { eexists _, _, _. split; [reflexivity|].
      split; [apply session_bound_prints;
              [apply prints_only_refl | cbn [typed length]; lia]|].
      split; discriminate. }
    match goal with
    | |- context [{| typed := rest'; asked := ?a |}] =>
      set (t2 := {| typed := rest'; asked := a |})
    end.
    assert (Ht2 : (length (typed t2) + 2 <= length (typed t))%nat)
      by (rewrite Ht; cbn [typed t2 length]; lia).
    destruct (strip line') as [|c user_input].
    { unfold Main.bindC. rewrite say_effect. eexists _, _, _.
      split; [reflexivity|].
      split; [apply session_bound_prints; [eexists; reflexivity | lia]|].
      split; [discriminate
             | intros _; rewrite Ht in Ht2; cbn [length] in *; lia]. }
    destruct (run_concern_bound processor (c :: user_input) t t2 w w
                (prints_only_refl w) Ht2) as (w' & r & E & Hb & Hr).
    rewrite E. exists t2, w', r. split; [reflexivity|].
    split; [exact Hb|].
    rewrite Ht in Ht2; cbn [length] in *.
    destruct Hr as [-> | [e ->]]; split; try discriminate; intros _; lia.
  - unfold Main.bindC at 1.
    destruct (select_predefined_worry_ended t1 w)
      as (t2 & w2 & r2 & E2 & P2 & H2).
    rewrite E2.
    destruct H2 as [(worry & entry & -> & _ & _ & Hl2) | [-> Hend]].
    2: { eexists _, _, _. split; [reflexivity|].
         split; [apply session_bound_prints;
                 [exact P2 | rewrite Hend; simpl; lia]|].
         split; discriminate. }
    unfold Main.bindC at 1. rewrite say_effect.
    assert (P3 : prints_only w
                   (set_stdout w2
                      (stdout w2
                       ++ [Print [Lit (u "
선택한 고민:"); Lit (u " "); Val (SStr worry)]])))
      by (apply (prints_only_trans _ _ _ P2); eexists; reflexivity).
    assert (Ht2 : (length (typed t2) + 2 <= length (typed t))%nat) by lia.
    destruct (run_concern_bound processor worry t t2 w _ P3 Ht2)
      as (w' & r & E & Hb & Hr).
    rewrite E. exists t2, w', r. split; [reflexivity|].
    split; [exact Hb|].
    rewrite Ht in Ht2; cbn [length] in *.
    destruct Hr as [-> | [e ->]]; split; try discriminate; intros _; lia.
Qed.

(** The loop of the session, with a budget above the number of typed
    lines. *)
Lemma console_loop_effect (processor : GongjaProcessor) (budget : nat) :
  forall (t : terminal) (w : world),
    (length (typed t) < budget)%nat ->
    exists t' w' r,
      Main.while_true budget
        (Main.process_console_input_round worries processor) t w
      = (t', w', r)
      /\ session_bound t w t' w'
      /\ r <> Unfinished.
Proof.
  induction budget as [|budget IH]; intros t w Hb; [inversion Hb|].
  cbn [Main.while_true]. unfold Main.bindC at 1.
  destruct (console_round_effect processor t w)
    as (t1 & w1 & r1 & E1 & B1 & U1 & L1).
  rewrite E1.
  destruct r1 as [[[]|] | e | |].
  - eexists _, _, _. split; [reflexivity|]. split; [exact B1 | discriminate].
  - destruct (IH t1 w1) as (t2 & w2 & r2 & E2 & B2 & U2);
      [specialize (L1 eq_refl); lia|].
    rewrite E2. exists t2, w2, r2. split; [reflexivity|].
    split; [exact (session_bound_trans _ _ _ _ _ _ B1 B2) | exact U2].
  - eexists _, _, _. split; [reflexivity|]. split; [exact B1 | discriminate].
  - eexists _, _, _. split; [reflexivity|]. split; [exact B1 | discriminate].
  - contradiction U1. reflexivity.
Qed.

(** The whole session. *)
Lemma console_session_effect (processor : GongjaProcessor) (t : terminal)
  (w : world) :
  exists t' w' r,
    Main.process_console_input worries processor t w = (t', w', r)
    /\ session_bound t w t' w'
    /\ r <> Unfinished.
Proof.
  unfold Main.process_console_input. unfold Main.bindC.
  rewrite !say_effect, !set_stdout_twice.
  match goal with
  | |- context [Main.while_true _ _ t ?w0] =>
    destruct (console_loop_effect processor (S (length (typed t))) t w0)
      as (t' & w' & r & E & Hb & U); [lia|];
    assert (P : prints_only w w0) by (eexists; reflexivity)
  end.
  rewrite E. exists t', w', r. split; [reflexivity|].
  split; [|exact U].
  refine (session_bound_trans t t t' w _ w' _ Hb).
  apply session_bound_prints; [exact P | lia].
Qed.

End ConsoleFacts.

(** * Properties of the console *)


Section ConsoleProperties.
Context {B : Builtins} {T : Terminal}.
Variable worries : list (str * list str).

(** X21. [get_valid_input] returns the number of the first typed line that
    [int] reads as a number between 1 and [max_num]: the lines before it
    are read and answered with one complaint each, the prompt is written
    once for every line read, and the lines after it are left to be
    read. *)
Theorem get_valid_input_first_accepted (max_num : Z) (prompt : str)
  (rejected : list str) (line : str) (rest : list str) (num : Z)
  (t : terminal) (w : world) :
  typed t = rejected ++ line :: rest ->
  forallb (fun l => match accepted max_num l with
                    | None => true
                    | Some _ => false
                    end) rejected = true ->
  accepted max_num line = Some num ->
  Main.get_valid_input max_num prompt t w
  = ({| typed := rest;
        asked := asked t ++ repeat prompt (S (length rejected)) |},
     set_stdout w (stdout w ++ map (complaint max_num) rejected),
     Returned num).
Proof.
  intros Ht Hr Ha. unfold Main.get_valid_input.
  apply (loop_first_accepted max_num prompt rejected line rest num).
  - apply Forall_forall. intros l Hl.
    rewrite forallb_forall in Hr. specialize (Hr l Hl).
    destruct (accepted max_num l); [discriminate | reflexivity].
  - exact Ha.
  - exact Ht.
  - rewrite Ht, length_app. cbn [length]. lia.
Qed.

(** X22. However the typed lines read, [get_valid_input] ends in one of two
    ways: it returns a number between 1 and [max_num], or no typed line
    holds such a number and [input] meets the end of the lines.  It raises
    nothing else, its budget of rounds is never spent, and it touches
    nothing but the console. *)
Theorem get_valid_input_in_range (max_num : Z) (prompt : str)
  (t : terminal) (w : world) :
  let ended := Main.get_valid_input max_num prompt t w in
  match snd ended with
  | Returned num => (1 <= num <= max_num)%Z
  | EOFError =>
    forallb (fun l => match accepted max_num l with
                      | None => true
                      | Some _ => false
                      end) (typed t) = true
  | Raised _ | Unfinished => False
  end
  /\ requests (snd (fst ended)) = requests w
  /\ logs (snd (fst ended)) = logs w
  /\ outbox (snd (fst ended)) = outbox w.
Proof.
  cbv zeta. unfold Main.get_valid_input.
  destruct (first_accepted max_num (typed t))
    as [Hnone | (rejected & line & rest & num & Ht & Hr & Ha)].
  - rewrite (loop_none_accepted max_num prompt (typed t) Hnone
               (S (length (typed t))) t w eq_refl) by lia.
    cbn [fst snd]. split; [|repeat split].
    apply forallb_forall. intros l Hl.
    rewrite Forall_forall in Hnone. rewrite (Hnone l Hl). reflexivity.
  - rewrite (loop_first_accepted max_num prompt rejected line rest num Hr Ha
               (S (length (typed t))) t w Ht)
      by (rewrite Ht, length_app; lia).
    cbn [fst snd]. split; [|repeat split].
    exact (proj2 (accepted_range _ _ _ Ha)).
Qed.

(** X23. [select_predefined_worry] returns a worry of one of the categories
    of [worries], or [input] meets the end of the typed lines: the two
    subscripts with the typed numbers never raise [IndexError], and the
    chosen category is always a key. *)
Theorem select_predefined_worry_member (t : terminal) (w : world) :
  match snd (Main.select_predefined_worry worries t w) with
  | Returned worry =>
    exists category listed, In (category, listed) worries /\ In worry listed
  | EOFError => True
  | Raised _ | Unfinished => False
  end.
Proof.
  destruct (select_predefined_worry_ended worries t w)
    as (t' & w' & r & E & _ & H).
  rewrite E. cbn [snd].
  destruct H as [(worry & [category listed] & -> & He & Hw & _) | [-> _]].
  - exists category, listed. split; assumption.
  - exact I.
Qed.

(** X24. A console session ends for every sequence of typed lines: it
    returns, an exception of the pipeline ends it, or [input] meets the end
    of the lines.  It hands nothing to the mail server, and it sends at
    most as many requests as it read lines. *)
Theorem console_session_bounded (processor : GongjaProcessor)
  (t : terminal) (w : world) :
  let ended := Main.process_console_input worries processor t w in
  let t' := fst (fst ended) in
  let w' := snd (fst ended) in
  snd ended <> Unfinished
  /\ outbox w' = outbox w
  /\ deliveries w' = deliveries w
  /\ exists new,
       requests w' = requests w ++ new
       /\ (length new + length (typed t') <= length (typed t))%nat.
Proof.
  cbv zeta.
  destruct (console_session_effect worries processor t w)
    as (t' & w' & r & E & (Ho & Hd & Hq) & U).
  rewrite E. cbn [fst snd]. repeat split; assumption.
Qed.

(** X25. When the pipeline raises on a worry typed after the choice [1],
    the exception ends the session: the lines typed after the worry are
    not read. *)
Theorem failure_ends_session (processor : GongjaProcessor)
  (choice worry : str) (rest prompts : list str) (w : world) (e : exn) :
  let started :=
    set_stdout w
      (stdout w
       ++ [ Print [Lit (u "
고민 상담을 시작합니다.")];
            Print [Lit (u "1: 직접 고민 입력하기")];
            Print [Lit (u "2: 미리 정의된 고민에서 선택하기")];
            Print [Lit (u "종료하려면 'quit' 또는 'exit'를 입력하세요.")] ]) in
  strip choice = u "1" ->
  existsb (str_eqb (lower (u "1"))) [u "quit"; u "exit"] = false ->
  negb (match strip worry with [] => true | _ :: _ => false end) = true ->
  snd (process_and_save_concern processor (strip worry) [] (u "console")
         started) = Raise e ->
  let ended :=
    Main.process_console_input worries processor
      {| typed := choice :: worry :: rest; asked := prompts |} w in
  snd ended = Raised e /\ typed (fst (fst ended)) = rest.
Proof.
  cbv zeta. intros Hc Hq Hw He.
  assert (H : exists t' w',
             Main.process_console_input worries processor
               {| typed := choice :: worry :: rest; asked := prompts |} w
             = (t', w', Raised e) /\ typed t' = rest).
  { unfold Main.process_console_input. unfold Main.bindC at 1 2 3 4.
    rewrite !say_effect, !set_stdout_twice. cbn [app] in *.
    cbn [typed length Main.while_true].
    unfold Main.bindC at 1. unfold Main.process_console_input_round.
    unfold Main.bindC at 1. unfold Main.input at 1. cbn [typed asked].
    rewrite Hc, Hq. cbn [existsb negb orb].
    replace (str_eqb (u "1") (u "1")) with true by reflexivity.
    cbn [orb negb].
    unfold Main.bindC at 1. unfold Main.input at 1. cbn [typed asked].
    destruct (strip worry) as [|c user_input]; [discriminate Hw|].
    unfold Main.bindC at 1. unfold Main.run at 1.
    destruct (process_and_save_concern processor (c :: user_input) []
                (u "console") _) as [w' [a | e']]; cbn [snd] in He;
      [discriminate|].
    injection He as ->. eexists _, _. split; reflexivity. }
  destruct H as (t' & w' & -> & Ht). split; [reflexivity | exact Ht].
Qed.



End ConsoleProperties.

(** Two lines are refused before [2] is taken. *)
Lemma get_valid_input_first_accepted_witness :
  @Main.get_valid_input plain_terminal 3 (u "> ")
    {| typed := [u "seven"; u "7"; u " 2 "; u "1"]; asked := [] |}
    example_world
  = ({| typed := [u "1"];
        asked := [] ++ repeat (u "> ") (S (length [u "seven"; u "7"])) |},
     set_stdout example_world
       (stdout example_world
        ++ map (@complaint plain_terminal 3) [u "seven"; u "7"]),
     Returned 2%Z).
Proof.
  apply (@get_valid_input_first_accepted plain_terminal 3 (u "> ")
           [u "seven"; u "7"] (u " 2 ") [u "1"] 2%Z
           {| typed := [u "seven"; u "7"; u " 2 "; u "1"]; asked := [] |}
           example_world).
  - reflexivity.
  - vm_compute. reflexivity.
  - vm_compute. reflexivity.
Defined.

(** The model cannot be reached: the session ends on the first worry. *)
Lemma failure_ends_session_witness :
  let ended :=
    @Main.process_console_input plain_builtins plain_terminal
      example_worries example_processor
      {| typed := [u "1"; u "부모님과 자주 다툰다"; u "quit"]; asked := [] |}
      unreachable_world in
  snd ended = Raised OpenAIError /\ typed (fst (fst ended)) = [u "quit"].
Proof.
  apply (@failure_ends_session plain_builtins plain_terminal example_worries
           example_processor (u "1") (u "부모님과 자주 다툰다") [u "quit"] []
           unreachable_world OpenAIError).
  - vm_compute. reflexivity.
  - vm_compute. reflexivity.
  - vm_compute. reflexivity.
  - vm_compute. reflexivity.
Defined.

(** * Further properties of the extractor and of the passages *)




(** X30. The passages that reach the prompt are the entries of the file,
    one for one and in their order, each reduced to its section, its number
    and its text: any other field of an entry, the original text among
    them, is dropped. *)
Theorem simplified_data_keeps_order (data : json) (corpus : list json) :
  simplified_data data = Return corpus ->
  exists entries items,
    getitem data (u "data") = Return entries
    /\ iterate entries = Return items
    /\ Forall2
         (fun item out =>
            exists section number text,
              getitem item (u "편") = Return section
              /\ getitem item (u "구절번호") = Return number
              /\ getitem item (u "내용") = Return text
              /\ out = JObj [ (u "편", section); (u "구절번호", number);
                              (u "내용", text) ])
         items corpus.
Proof.
  unfold simplified_data, bind. intros H.
  destruct (getitem data (u "data")) as [entries|]; [|discriminate].
  destruct (iterate entries) as [items|] eqn:Ei; [|discriminate].
  exists entries, items. split; [reflexivity|]. split; [exact Ei|].
  apply map_result_Forall2 in H. clear Ei.
  induction H as [|item out l outs Hs _ IH]; [constructor|].
  constructor; [|exact IH].
  unfold simplify, bind in Hs.
  destruct (getitem item (u "편")) as [a|]; [|discriminate].
  destruct (getitem item (u "구절번호")) as [b|]; [|discriminate].
  destruct (getitem item (u "내용")) as [c|]; [|discriminate].
  injection Hs as <-. exists a, b, c. repeat split.
Qed.



(** The passage file of three entries, the first with its original text. *)
Lemma simplified_data_keeps_order_witness :
  exists entries items,
    getitem (JObj [(u "data",
                    JArr [ JObj [ (u "편", JStr (u "학이"));
                                  (u "구절번호", JInt 1);
                                  (u "내용", JStr (u "배우고 익히면 기쁘다"));
                                  (u "원문", JStr (u "學而時習之")) ];
                           JObj [ (u "편", JStr (u "위정"));
                                  (u "구절번호", JInt 2);
                                  (u "내용", JStr (u "생각에 사악함이 없다")) ] ])])
      (u "data") = Return entries
    /\ iterate entries = Return items
    /\ Forall2
         (fun item out =>
            exists section number text,
              getitem item (u "편") = Return section
              /\ getitem item (u "구절번호") = Return number
              /\ getitem item (u "내용") = Return text
              /\ out = JObj [ (u "편", section); (u "구절번호", number);
                              (u "내용", text) ])
         items
         [ passage (JStr (u "학이")) (JInt 1) (JStr (u "배우고 익히면 기쁘다"));
           passage (JStr (u "위정")) (JInt 2) (JStr (u "생각에 사악함이 없다")) ].
Proof.
  apply (simplified_data_keeps_order
           (JObj [(u "data",
                   JArr [ JObj [ (u "편", JStr (u "학이"));
                                 (u "구절번호", JInt 1);
                                 (u "내용", JStr (u "배우고 익히면 기쁘다"));
                                 (u "원문", JStr (u "學而時習之")) ];
                          JObj [ (u "편", JStr (u "위정"));
                                 (u "구절번호", JInt 2);
                                 (u "내용", JStr (u "생각에 사악함이 없다")) ] ])])).
  vm_compute. reflexivity.
Defined.
